(** * kubescaler: the reconciliation engine of [operator.py]

    A shallow embedding of the schedule parser and evaluator, of the
    backup store (save, restore, prune) and of the per-kind scalers,
    followed by the properties established about them.

    Conventions.
    - Annotation strings are ASCII; the Python string methods used by the
      operator ([strip], [lower], [isdigit], [isalpha], [split], [in],
      [startswith], slicing) are written out on [string].
    - A [datetime] is a record of calendar fields; [strftime] directives
      are the C-locale ones.
    - The cluster is an explicit [World]; every API call either returns
      or raises [ApiException status]; calls and log records are appended
      to a trace.
    - The snapshots the API server stores carry a creation time; the
      properties that depend on the order of the snapshots are stated
      for listings in which every snapshot does ([dated]). *)

From Stdlib Require Import ZArith List Bool Ascii String Lia Permutation Sorted.
From Stdlib Require Import DecimalString.
Import ListNotations.

Local Open Scope string_scope.
Local Open Scope Z_scope.

(* ================================================================= *)
(** ** Python string primitives (ASCII) *)

Module PyStr.

Definition code (c : ascii) : nat := nat_of_ascii c.

Definition between (lo hi : nat) (c : ascii) : bool :=
  (Nat.leb lo (code c) && Nat.leb (code c) hi)%bool.

(** [c.isdigit()] *)
Definition isdigit_c (c : ascii) : bool := between 48 57 c.

(** [c.isalpha()] *)
Definition isalpha_c (c : ascii) : bool := (between 65 90 c || between 97 122 c)%bool.

(** the characters removed by [str.strip()] *)
Definition isspace_c (c : ascii) : bool :=
  (between 9 13 c || between 28 32 c)%bool.

Definition lower_c (c : ascii) : ascii :=
  if between 65 90 c then ascii_of_nat (code c + 32) else c.

Fixpoint lower (s : string) : string :=
  match s with
  | EmptyString => EmptyString
  | String c r => String (lower_c c) (lower r)
  end.

Fixpoint forallb_s (p : ascii -> bool) (s : string) : bool :=
  match s with
  | EmptyString => true
  | String c r => (p c && forallb_s p r)%bool
  end.

Fixpoint existsb_s (p : ascii -> bool) (s : string) : bool :=
  match s with
  | EmptyString => false
  | String c r => (p c || existsb_s p r)%bool
  end.

(** [s.isdigit()]: all characters are digits and there is at least one *)
Definition isdigit (s : string) : bool :=
  match s with
  | EmptyString => false
  | _ => forallb_s isdigit_c s
  end.

(** [c in s] for a character *)
Definition has_char (c : ascii) (s : string) : bool :=
  existsb_s (Ascii.eqb c) s.

(** [sub in s] *)
Fixpoint contains (sub s : string) : bool :=
  (String.prefix sub s ||
   match s with
   | EmptyString => false
   | String _ r => contains sub r
   end)%bool.

(** [s.startswith(p)] *)
Definition startswith (s p : string) : bool := String.prefix p s.

(** [s[:n]] *)
Definition take (n : nat) (s : string) : string := String.substring 0 n s.

Fixpoint lstrip (s : string) : string :=
  match s with
  | EmptyString => EmptyString
  | String c r => if isspace_c c then lstrip r else s
  end.

Fixpoint rstrip (s : string) : string :=
  match s with
  | EmptyString => EmptyString
  | String c r =>
      match rstrip r with
      | EmptyString => if isspace_c c then EmptyString else String c EmptyString
      | r' => String c r'
      end
  end.

Definition strip (s : string) : string := rstrip (lstrip s).

(** [s.split(sep)] for a one-character separator: never the empty list *)
Fixpoint split (sep : ascii) (s : string) : list string :=
  match s with
  | EmptyString => [EmptyString]
  | String c r =>
      if Ascii.eqb c sep then EmptyString :: split sep r
      else match split sep r with
           | [] => [String c EmptyString]
           | w :: ws => String c w :: ws
           end
  end.

(** [sep.join(ws)] for a one-character separator *)
Fixpoint join (sep : ascii) (ws : list string) : string :=
  match ws with
  | [] => EmptyString
  | [w] => w
  | w :: ws' => w ++ String sep (join sep ws')
  end.

(** [str(n)] for an integer *)
Definition str (n : Z) : string := NilZero.string_of_int (Z.to_int n).

Definition digit (d : Z) : ascii := ascii_of_nat (48 + Z.to_nat d).

(** zero-padded fields of [strftime] *)
Definition pad2 (n : Z) : string :=
  String (digit (n / 10 mod 10)) (String (digit (n mod 10)) EmptyString).

Definition pad4 (n : Z) : string :=
  String (digit (n / 1000 mod 10)) (String (digit (n / 100 mod 10)) (pad2 n)).

End PyStr.

(* ================================================================= *)
(** ** [datetime] *)

Record datetime := mkdt {
  dt_year : Z; dt_month : Z; dt_day : Z;
  dt_hour : Z; dt_minute : Z; dt_second : Z; dt_microsecond : Z
}.

Module DateTime.

Definition is_leap (y : Z) : bool :=
  ((y mod 4 =? 0) && (negb (y mod 100 =? 0) || (y mod 400 =? 0)))%bool.

Definition days_before_year (y : Z) : Z :=
  let y1 := y - 1 in y1 * 365 + y1 / 4 - y1 / 100 + y1 / 400.

Definition days_in_month (y m : Z) : Z :=
  if m =? 2 then (if is_leap y then 29 else 28)
  else if (m =? 4) || (m =? 6) || (m =? 9) || (m =? 11) then 30 else 31.

Fixpoint days_before_month_aux (y : Z) (k : nat) : Z :=
  match k with
  | O => 0
  | S k' => days_before_month_aux y k' + days_in_month y (Z.of_nat k)
  end.

Definition days_before_month (y m : Z) : Z :=
  days_before_month_aux y (Z.to_nat (m - 1)).

(** [date.toordinal()] *)
Definition toordinal (d : datetime) : Z :=
  days_before_year (dt_year d) + days_before_month (dt_year d) (dt_month d) + dt_day d.

(** [date.weekday()]: Monday is 0 *)
Definition weekday (d : datetime) : Z := (toordinal d + 6) mod 7.

Definition abbr_day (w : Z) : string :=
  nth (Z.to_nat w) ["Mon"; "Tue"; "Wed"; "Thu"; "Fri"; "Sat"; "Sun"] "".

Definition abbr_month (m : Z) : string :=
  nth (Z.to_nat (m - 1))
      ["Jan"; "Feb"; "Mar"; "Apr"; "May"; "Jun";
       "Jul"; "Aug"; "Sep"; "Oct"; "Nov"; "Dec"] "".

(** [strftime('%H:%M')] *)
Definition fmt_HM (d : datetime) : string :=
  PyStr.pad2 (dt_hour d) ++ ":" ++ PyStr.pad2 (dt_minute d).

(** [strftime('%Y')] *)
Definition fmt_Y (d : datetime) : string := PyStr.pad4 (dt_year d).

(** [strftime('%b')] *)
Definition fmt_b (d : datetime) : string := abbr_month (dt_month d).

(** [strftime('%a')] *)
Definition fmt_a (d : datetime) : string := abbr_day (weekday d).

(** [strftime('%Y%m%d-%H%M%S')] *)
Definition fmt_stamp (d : datetime) : string :=
  PyStr.pad4 (dt_year d) ++ PyStr.pad2 (dt_month d) ++ PyStr.pad2 (dt_day d) ++ "-" ++
  PyStr.pad2 (dt_hour d) ++ PyStr.pad2 (dt_minute d) ++ PyStr.pad2 (dt_second d).

(** a calendar date and time of day that [datetime] accepts, in a year
    of four digits *)
Definition valid (d : datetime) : Prop :=
  1000 <= dt_year d <= 9999 /\ 1 <= dt_month d <= 12 /\
  1 <= dt_day d <= days_in_month (dt_year d) (dt_month d) /\
  0 <= dt_hour d <= 23 /\ 0 <= dt_minute d <= 59 /\ 0 <= dt_second d <= 59 /\
  0 <= dt_microsecond d <= 999999.

End DateTime.

(* ================================================================= *)
(** ** Schedule parsing and checking *)

Record ScheduleSpec := mkSpec {
  year_spec : string;
  month_spec : string;
  day_spec : string;
  date_spec : string;
  time_spec : option string
}.

Definition month_names : list string :=
  ["jan"; "feb"; "mar"; "apr"; "may"; "jun"; "jul"; "aug"; "sep"; "oct"; "nov"; "dec"].

(** The four assignments of the classification loop of [parse_schedule]. *)
Inductive Category := CYear | CMonth | CDay | CDate.

(** The branch a non-empty part takes in the loop body; [None] when no
    branch applies (and for the empty part, which the loop skips). *)
Definition classify (part : string) : option Category :=
  match part with
  | EmptyString => None
  | _ =>
      if (Nat.eqb (String.length part) 4 && PyStr.isdigit part)%bool then Some CYear
      else if PyStr.existsb_s PyStr.isalpha_c part then
        if existsb (fun month => PyStr.contains month part) month_names
        then Some CMonth else Some CDay
      else if PyStr.forallb_s (fun c => (PyStr.isdigit_c c || Ascii.eqb c ",")%bool) part
      then Some CDate
      else None
  end.

Definition assign (sp : ScheduleSpec) (part : string) : ScheduleSpec :=
  match classify part with
  | Some CYear => mkSpec part (month_spec sp) (day_spec sp) (date_spec sp) (time_spec sp)
  | Some CMonth => mkSpec (year_spec sp) part (day_spec sp) (date_spec sp) (time_spec sp)
  | Some CDay => mkSpec (year_spec sp) (month_spec sp) part (date_spec sp) (time_spec sp)
  | Some CDate => mkSpec (year_spec sp) (month_spec sp) (day_spec sp) part (time_spec sp)
  | None => sp
  end.

(** [parts[-1]] and [parts[:-1]] when the last part holds a colon *)
Definition take_time (parts : list string) : option string * list string :=
  match parts with
  | [] => (None, [])
  | _ => let lst := last parts "" in
         if PyStr.has_char ":" lst then (Some lst, removelast parts) else (None, parts)
  end.

(** [parse_schedule] after the split: time detection, then the loop. *)
Definition parse_parts (parts : list string) : ScheduleSpec :=
  let '(tm, rest) := take_time parts in
  fold_left assign rest (mkSpec "*" "*" "*" "*" tm).

Definition parse_schedule (schedule_annotation : string) : ScheduleSpec :=
  match schedule_annotation with
  | EmptyString => mkSpec "*" "*" "*" "*" None
  | _ =>
      parse_parts
        (map (fun p => PyStr.lower (PyStr.strip p)) (PyStr.split ";" schedule_annotation))
  end.

(** [any(current.startswith(m[:3]) for m in [m.strip() for m in spec.split(',')])] *)
Definition abbr_listed (current spec : string) : bool :=
  existsb (fun m => PyStr.startswith current (PyStr.take 3 m))
          (map PyStr.strip (PyStr.split "," spec)).

(** [str(now.day) in {d.strip() for d in spec.split(',')}] *)
Definition date_listed (current spec : string) : bool :=
  existsb (String.eqb current) (map PyStr.strip (PyStr.split "," spec)).

(** The five checks of [is_schedule_active] on a parsed schedule. *)
Definition spec_active (sp : ScheduleSpec) (now_utc : datetime) : bool :=
  match time_spec sp with
  | None => false
  | Some t =>
      if negb (String.eqb (DateTime.fmt_HM now_utc) t) then false
      else if (negb (String.eqb (year_spec sp) "*") &&
               negb (String.eqb (DateTime.fmt_Y now_utc) (year_spec sp)))%bool then false
      else if (negb (String.eqb (month_spec sp) "*") &&
               negb (abbr_listed (PyStr.lower (DateTime.fmt_b now_utc)) (month_spec sp)))%bool
           then false
      else if (negb (String.eqb (day_spec sp) "*") &&
               negb (abbr_listed (PyStr.lower (DateTime.fmt_a now_utc)) (day_spec sp)))%bool
           then false
      else if (negb (String.eqb (date_spec sp) "*") &&
               negb (date_listed (PyStr.str (dt_day now_utc)) (date_spec sp)))%bool
           then false
      else true
  end.

(** [is_schedule_active]; the annotation is [None] when the resource
    does not carry it. *)
Definition is_schedule_active (schedule_annotation : option string) (now_utc : datetime) : bool :=
  match schedule_annotation with
  | None => false
  | Some EmptyString => false
  | Some s => spec_active (parse_schedule s) now_utc
  end.

(* ================================================================= *)
(** ** Configuration and constants *)

Definition ANNOTATION_NS_CONTROL : string := "ks_scale".
Definition ANNOTATION_SCALE_UP : string := "ks_scale_up".
Definition ANNOTATION_SCALE_DOWN : string := "ks_scale_down".
Definition CONFIGMAP_PREFIX : string := "ks-backup".
Definition OPERATOR_LABEL : string := "app.kubernetes.io/managed-by".
Definition OPERATOR_VALUE : string := "kubescaler".

(** The keys of [resource_processors]. *)
Inductive Kind := Deployment | StatefulSet | HorizontalPodAutoscaler | CronJob.

Definition kind_str (k : Kind) : string :=
  match k with
  | Deployment => "Deployment"
  | StatefulSet => "StatefulSet"
  | HorizontalPodAutoscaler => "HorizontalPodAutoscaler"
  | CronJob => "CronJob"
  end.

Definition Kind_eqb (a b : Kind) : bool :=
  match a, b with
  | Deployment, Deployment | StatefulSet, StatefulSet
  | HorizontalPodAutoscaler, HorizontalPodAutoscaler | CronJob, CronJob => true
  | _, _ => false
  end.

(** The direction argument of the scalers: ['up'] or ['down']. *)
Inductive Direction := up | down.

(* ================================================================= *)
(** ** Python values and dictionaries *)

#[warnings="-register-all"] Inductive Value :=
| VNone
| VBool (b : bool)
| VInt (n : Z)
| VStr (s : string)
| VDict (d : list (string * Value)).

(** A [dict] with string keys, in insertion order. *)
Definition Dict (A : Type) := list (string * A).

(** [d.get(k)] *)
Fixpoint get {A} (d : Dict A) (k : string) : option A :=
  match d with
  | [] => None
  | (k', v) :: r => if String.eqb k' k then Some v else get r k
  end.

(** [d.get(k, default)] *)
Definition get_default {A} (d : Dict A) (k : string) (default : A) : A :=
  match get d k with Some v => v | None => default end.

(** [d.get(k) == s] for string values *)
Definition get_is (d : Dict string) (k s : string) : bool :=
  match get d k with Some v => String.eqb v s | None => false end.

(** The text of a ConfigMap data entry: what [json.dumps] wrote for a
    dictionary, or text that [json.loads] rejects (the empty text among
    them, which the restore path tests for before decoding).  Entries
    holding JSON other than an object are left out of the model. *)
Inductive Text :=
| JsonText (d : Dict Value)
| BadText (s : string).

Definition json_dumps (state : Dict Value) : Text := JsonText state.

(* ================================================================= *)
(** ** The cluster *)

(** The part of a workload's [spec] the operator reads or patches. *)
Inductive Spec :=
| ReplicaSpec (replicas : option Z)
| AutoscalerSpec (spec : Dict Value)
| CronSpec (suspend : option bool).

Record Workload := mkWorkload {
  w_kind : Kind;
  w_namespace : string;
  w_name : string;
  w_annotations : option (Dict string);
  w_spec : Spec
}.

Record ConfigMap := mkConfigMap {
  cm_name : string;
  cm_namespace : string;
  cm_labels : Dict string;
  cm_creation_timestamp : option Z;
  cm_data : option (Dict Text)
}.

(** The calls the operator makes on the API clients. *)
Inductive Call :=
| ReadWorkload (k : Kind) (name namespace : string)
| PatchReplicas (k : Kind) (name namespace : string) (replicas : Value)
| PatchSuspend (name namespace : string) (suspend : Value)
| DeleteAutoscaler (name namespace : string)
| CreateAutoscaler (namespace name : string) (spec : Value)
| ListConfigMaps (namespace : string) (k : Kind) (name : string)
| CreateConfigMap (namespace : string) (body : ConfigMap)
| DeleteConfigMap (name namespace : string).

Inductive Level := DEBUG | INFO | WARNING | ERROR.

(** What a tick leaves behind: API calls with their outcome ([None] when
    the call returned, [Some status] when it raised [ApiException]) and
    log records. *)
Inductive Event :=
| Called (c : Call) (raised : option Z)
| Logged (lvl : Level) (msg : string).

Record World := mkWorld {
  workloads : list Workload;
  config_maps : list ConfigMap;
  (** [datetime.datetime.now(pytz.utc)] *)
  clock : datetime;
  (** calls the API server refuses, with the status it answers *)
  faults : Call -> option Z
}.

(** The exceptions the operator distinguishes; [OtherException] stands
    for any other [Exception]. *)
Inductive Exn :=
| ApiException (status : Z)
| JSONDecodeError
| OtherException.

Inductive Result (A : Type) :=
| Ok (a : A)
| Raise (e : Exn).
Arguments Ok {A} a.
Arguments Raise {A} e.

(** Computations on the cluster: a result or an exception, the new
    cluster, and the events emitted, oldest first. *)
Definition M (A : Type) : Type := World -> Result A * World * list Event.

Definition ret {A} (a : A) : M A := fun w => (Ok a, w, []).

Definition raise {A} (e : Exn) : M A := fun w => (Raise e, w, []).

Definition bind {A B} (m : M A) (k : A -> M B) : M B :=
  fun w =>
    match m w with
    | (Ok a, w1, ev1) =>
        match k a w1 with
        | (r, w2, ev2) => (r, w2, (ev1 ++ ev2)%list)
        end
    | (Raise e, w1, ev1) => (Raise e, w1, ev1)
    end.

Declare Scope py_scope.
Delimit Scope py_scope with py.
Notation "x <- m ;; k" := (bind m (fun x => k))
  (at level 61, m at next level, right associativity) : py_scope.
Notation "m ;; k" := (bind m (fun _ => k))
  (at level 61, right associativity) : py_scope.
Local Open Scope py_scope.

(** [try: m except kubernetes.client.ApiException as e: handler(e.status)] *)
Definition try_api {A} (m : M A) (handler : Z -> M A) : M A :=
  fun w =>
    match m w with
    | (Raise (ApiException st), w1, ev1) =>
        match handler st w1 with
        | (r, w2, ev2) => (r, w2, (ev1 ++ ev2)%list)
        end
    | other => other
    end.

(** [try: m except Exception as e: handler] *)
Definition try_exception {A} (m : M A) (handler : M A) : M A :=
  fun w =>
    match m w with
    | (Raise _, w1, ev1) =>
        match handler w1 with
        | (r, w2, ev2) => (r, w2, (ev1 ++ ev2)%list)
        end
    | other => other
    end.

(** [try: m except ApiException: ... except json.JSONDecodeError: ...] *)
Definition try_api_json {A} (m : M A) (on_api : Z -> M A) (on_json : M A) : M A :=
  fun w =>
    match m w with
    | (Raise (ApiException st), w1, ev1) =>
        match on_api st w1 with
        | (r, w2, ev2) => (r, w2, (ev1 ++ ev2)%list)
        end
    | (Raise JSONDecodeError, w1, ev1) =>
        match on_json w1 with
        | (r, w2, ev2) => (r, w2, (ev1 ++ ev2)%list)
        end
    | other => other
    end.

(** [for x in xs: body(x)] *)
Fixpoint for_each {A} (xs : list A) (body : A -> M unit) : M unit :=
  match xs with
  | [] => ret tt
  | x :: r => body x ;; for_each r body
  end.

Definition log (lvl : Level) (msg : string) : M unit :=
  fun w => (Ok tt, w, [Logged lvl msg]).

Definition now_utc_clock : M datetime := fun w => (Ok (clock w), w, []).

Definition result_of {A} (x : Result A * World * list Event) : Result A := fst (fst x).
Definition world_of {A} (x : Result A * World * list Event) : World := snd (fst x).
Definition events_of {A} (x : Result A * World * list Event) : list Event := snd x.

(* ================================================================= *)
(** ** The API clients

    The control plane is an external collaborator.  It is modelled by
    its documented answers: not-found (404) on reading, patching or
    deleting an absent object, conflict (409) on creating an object
    whose name is taken, unprocessable (422) on a patch or body of the
    wrong shape, and whatever status [faults] dictates. *)

Definition api {A} (c : Call) (serve : World -> (A + Z) * World) : M A :=
  fun w =>
    match faults w c with
    | Some st => (Raise (ApiException st), w, [Called c (Some st)])
    | None =>
        match serve w with
        | (inl a, w') => (Ok a, w', [Called c None])
        | (inr st, w') => (Raise (ApiException st), w', [Called c (Some st)])
        end
    end.

Definition same_workload (k : Kind) (namespace name : string) (x : Workload) : bool :=
  (Kind_eqb (w_kind x) k && String.eqb (w_namespace x) namespace &&
   String.eqb (w_name x) name)%bool.

Definition set_workloads (ws : list Workload) (w : World) : World :=
  mkWorld ws (config_maps w) (clock w) (faults w).

Definition set_config_maps (cms : list ConfigMap) (w : World) : World :=
  mkWorld (workloads w) cms (clock w) (faults w).

Definition set_spec (sp : Spec) (x : Workload) : Workload :=
  mkWorkload (w_kind x) (w_namespace x) (w_name x) (w_annotations x) sp.

Definition read_workload (k : Kind) (name namespace : string) : M Workload :=
  api (ReadWorkload k name namespace)
      (fun w => match find (same_workload k namespace name) (workloads w) with
                | Some x => (inl x, w)
                | None => (inr 404, w)
                end).

Definition patch_workload (c : Call) (k : Kind) (name namespace : string)
    (new_spec : option Spec) : M unit :=
  api c
      (fun w => match find (same_workload k namespace name) (workloads w), new_spec with
                | None, _ => (inr 404, w)
                | Some _, None => (inr 422, w)
                | Some _, Some sp =>
                    (inl tt,
                     set_workloads
                       (map (fun x => if same_workload k namespace name x
                                      then set_spec sp x else x) (workloads w)) w)
                end).

(** [apps_v1.patch_namespaced_deployment] / [..._stateful_set] with
    body [{'spec': {'replicas': replicas}}] *)
Definition patch_replicas (k : Kind) (name namespace : string) (replicas : Value) : M unit :=
  patch_workload (PatchReplicas k name namespace replicas) k name namespace
    match replicas with
    | VInt n => if 0 <=? n then Some (ReplicaSpec (Some n)) else None
    | VNone => Some (ReplicaSpec None)
    | _ => None
    end.

(** [batch_v1.patch_namespaced_cron_job] with body [{'spec': {'suspend': suspend}}] *)
Definition patch_suspend (name namespace : string) (suspend : Value) : M unit :=
  patch_workload (PatchSuspend name namespace suspend) CronJob name namespace
    match suspend with
    | VBool b => Some (CronSpec (Some b))
    | VNone => Some (CronSpec None)
    | _ => None
    end.

(** [autoscaling_v2.delete_namespaced_horizontal_pod_autoscaler] *)
Definition delete_autoscaler (name namespace : string) : M unit :=
  api (DeleteAutoscaler name namespace)
      (fun w =>
         match find (same_workload HorizontalPodAutoscaler namespace name) (workloads w) with
         | None => (inr 404, w)
         | Some _ =>
             (inl tt,
              set_workloads
                (filter (fun x => negb (same_workload HorizontalPodAutoscaler namespace name x))
                        (workloads w)) w)
         end).

(** [autoscaling_v2.create_namespaced_horizontal_pod_autoscaler] with a
    body of the given name and spec *)
Definition create_autoscaler (namespace name : string) (spec : Value) : M unit :=
  api (CreateAutoscaler namespace name spec)
      (fun w =>
         match find (same_workload HorizontalPodAutoscaler namespace name) (workloads w), spec with
         | Some _, _ => (inr 409, w)
         | None, VDict d =>
             (inl tt,
              set_workloads
                (workloads w ++
                 [mkWorkload HorizontalPodAutoscaler namespace name None (AutoscalerSpec d)])%list
                w)
         | None, _ => (inr 422, w)
         end).

(** The label selector
    [managed-by=kubescaler,resource-kind=<kind>,resource-name=<name>]. *)
Definition selected (namespace : string) (kind : Kind) (name : string) (cm : ConfigMap) : bool :=
  (String.eqb (cm_namespace cm) namespace &&
   get_is (cm_labels cm) OPERATOR_LABEL OPERATOR_VALUE &&
   get_is (cm_labels cm) "resource-kind" (kind_str kind) &&
   get_is (cm_labels cm) "resource-name" name)%bool.

(** [core_v1.list_namespaced_config_map(namespace, label_selector).items] *)
Definition list_namespaced_config_map (namespace : string) (kind : Kind) (name : string)
  : M (list ConfigMap) :=
  api (ListConfigMaps namespace kind name)
      (fun w => (inl (filter (selected namespace kind name) (config_maps w)), w)).

Definition same_config_map (namespace name : string) (cm : ConfigMap) : bool :=
  (String.eqb (cm_namespace cm) namespace && String.eqb (cm_name cm) name)%bool.

(** seconds since the start of the proleptic calendar *)
Definition timestamp (d : datetime) : Z :=
  DateTime.toordinal d * 86400 + dt_hour d * 3600 + dt_minute d * 60 + dt_second d.

(** [datetime.datetime.min] *)
Definition datetime_min : Z := timestamp (mkdt 1 1 1 0 0 0 0).

(** [core_v1.create_namespaced_config_map]: the server stamps the
    creation time. *)
Definition create_namespaced_config_map (namespace : string) (body : ConfigMap) : M unit :=
  api (CreateConfigMap namespace body)
      (fun w =>
         if existsb (same_config_map namespace (cm_name body)) (config_maps w)
         then (inr 409, w)
         else (inl tt,
               set_config_maps
                 (config_maps w ++
                  [mkConfigMap (cm_name body) namespace (cm_labels body)
                               (Some (timestamp (clock w))) (cm_data body)])%list
                 w)).

(** [core_v1.delete_namespaced_config_map] *)
Definition delete_namespaced_config_map (name namespace : string) : M unit :=
  api (DeleteConfigMap name namespace)
      (fun w =>
         if existsb (same_config_map namespace name) (config_maps w)
         then (inl tt,
               set_config_maps
                 (filter (fun cm => negb (same_config_map namespace name cm)) (config_maps w)) w)
         else (inr 404, w)).

(* ================================================================= *)
(** ** Python list helpers *)

(** [sorted(l, key=key, reverse=reverse)]: stable, as Python's sort is. *)
Fixpoint insert_sorted {A} (key : A -> Z) (reverse : bool) (x : A) (l : list A) : list A :=
  match l with
  | [] => [x]
  | y :: r =>
      if (if reverse then key y <=? key x else key x <=? key y)
      then x :: l
      else y :: insert_sorted key reverse x r
  end.

Definition sorted {A} (key : A -> Z) (reverse : bool) (l : list A) : list A :=
  fold_right (insert_sorted key reverse) [] l.

(** [l[:stop]] *)
Definition slice_to {A} (stop : Z) (l : list A) : list A :=
  if stop <? 0
  then firstn (Z.to_nat (Z.of_nat (List.length l) + stop)) l
  else firstn (Z.to_nat stop) l.

(** [x or default] on an optional integer: [None] and [0] are falsy *)
Definition or_int (x : option Z) (default : Z) : Z :=
  match x with
  | Some n => if n =? 0 then default else n
  | None => default
  end.

(** [x or False] on an optional boolean *)
Definition or_false (x : option bool) : bool :=
  match x with
  | Some b => b
  | None => false
  end.

(** truth value of an optional dictionary: [None] and [{}] are falsy *)
Definition truthy {A} (state : option (Dict A)) : bool :=
  match state with
  | Some (_ :: _) => true
  | _ => false
  end.

(** the text an f-string puts for a value (dictionaries abridged) *)
Definition show (v : Value) : string :=
  match v with
  | VNone => "None"
  | VBool true => "True"
  | VBool false => "False"
  | VInt n => PyStr.str n
  | VStr s => s
  | VDict _ => "{...}"
  end.

(* ================================================================= *)
(** ** State management and pruning *)

(** [cm.metadata.creation_timestamp or datetime.datetime.min], as a
    number of seconds.  The API server stamps every object it stores, and
    the stamps are timezone-aware; [datetime.min] is naive, so Python's
    [sorted] compares the two only by raising [TypeError].  The order
    below is therefore the code's on listings whose snapshots all carry
    a creation time; the properties that depend on the sort assume such
    listings (see [dated]). *)
Definition creation_key (cm : ConfigMap) : Z :=
  match cm_creation_timestamp cm with
  | Some t => t
  | None => datetime_min
  end.

Section Operator.

(** [int(os.environ.get('MAX_BACKUPS_TO_RETAIN', 5))] *)
Variable MAX_BACKUPS_TO_RETAIN : Z.

(** [sorted_cms[:-MAX_BACKUPS_TO_RETAIN]] of the sorted listing *)
Definition cms_to_delete (items : list ConfigMap) : list ConfigMap :=
  slice_to (- MAX_BACKUPS_TO_RETAIN) (sorted creation_key false items).

Definition prune_old_backups (namespace : string) (kind : Kind) (name : string) : M unit :=
  if MAX_BACKUPS_TO_RETAIN <=? 0 then ret tt
  else
    try_api
      (items <- list_namespaced_config_map namespace kind name ;;
       if Z.of_nat (List.length items) <=? MAX_BACKUPS_TO_RETAIN then ret tt
       else
         for_each (cms_to_delete items)
           (fun cm =>
              let cm_name := cm_name cm in
              log INFO ("Pruning old backup ConfigMap: " ++ cm_name) ;;
              try_api (delete_namespaced_config_map cm_name namespace)
                      (fun st => log ERROR ("Failed to delete ConfigMap " ++ cm_name ++ ": "
                                            ++ PyStr.str st))))
      (fun st => log ERROR ("Failed to prune old backups for " ++ kind_str kind ++ "/" ++ name
                            ++ ": " ++ PyStr.str st)).

(** the name [backup_state] gives the ConfigMap it creates *)
Definition backup_cm_name (kind : Kind) (name : string) (now : datetime) : string :=
  CONFIGMAP_PREFIX ++ "-" ++ PyStr.lower (kind_str kind) ++ "-" ++ name ++ "-"
  ++ DateTime.fmt_stamp now.

Definition backup_key_name (kind : Kind) (name : string) : string :=
  PyStr.lower (kind_str kind) ++ "-" ++ name.

Definition backup_body (namespace : string) (kind : Kind) (name : string)
    (state : Dict Value) (now : datetime) : ConfigMap :=
  mkConfigMap (backup_cm_name kind name now) namespace
    [(OPERATOR_LABEL, OPERATOR_VALUE); ("resource-kind", kind_str kind); ("resource-name", name)]
    None
    (Some [(backup_key_name kind name, json_dumps state)]).

Definition backup_state (namespace : string) (kind : Kind) (name : string)
    (state : Dict Value) : M unit :=
  now <- now_utc_clock ;;
  let body := backup_body namespace kind name state now in
  try_api
    (create_namespaced_config_map namespace body ;;
     log INFO ("State for " ++ kind_str kind ++ " " ++ name ++ " saved in ConfigMap '"
               ++ cm_name body ++ "'.") ;;
     prune_old_backups namespace kind name)
    (fun st => log ERROR ("Failed to create backup ConfigMap for " ++ kind_str kind ++ " "
                          ++ name ++ ": " ++ PyStr.str st)).

Definition find_latest_backup_state (namespace : string) (kind : Kind) (name : string)
  : M (option (Dict Value)) :=
  try_api_json
    (items <- list_namespaced_config_map namespace kind name ;;
     match items, sorted creation_key true items with
     | [], _ =>
         log INFO ("No backup ConfigMaps found for " ++ kind_str kind ++ " " ++ name ++ ".") ;;
         ret None
     | _, [] => raise OtherException
     | _, latest_cm :: _ =>
         let key_name := backup_key_name kind name in
         let state_json :=
           match cm_data latest_cm with
           | Some data => get data key_name
           | None => None
           end in
         match state_json with
         | Some (JsonText d) =>
             log INFO ("Found latest backup state for " ++ kind_str kind ++ " " ++ name
                       ++ " in ConfigMap '" ++ cm_name latest_cm ++ "'.") ;;
             ret (Some d)
         | Some (BadText (String c s)) =>
             log INFO ("Found latest backup state for " ++ kind_str kind ++ " " ++ name
                       ++ " in ConfigMap '" ++ cm_name latest_cm ++ "'.") ;;
             raise JSONDecodeError
         | _ =>
             log WARNING ("Backup ConfigMap '" ++ cm_name latest_cm ++ "' has no data for key '"
                          ++ key_name ++ "'.") ;;
             ret None
         end
     end)
    (fun st => log ERROR ("Could not find backup ConfigMaps for " ++ kind_str kind ++ " "
                          ++ name ++ ": " ++ PyStr.str st) ;;
               ret None)
    (log ERROR ("Failed to parse backup state JSON for " ++ kind_str kind ++ " " ++ name) ;;
     ret None).

(* ================================================================= *)
(** ** State getters *)

Definition spec_replicas (sp : Spec) : option Z :=
  match sp with ReplicaSpec r => r | _ => None end.

Definition spec_suspend (sp : Spec) : option bool :=
  match sp with CronSpec s => s | _ => None end.

(** [hpa.spec.to_dict()].  The cluster keeps the specification of an
    autoscaler as the dictionary the client would send; the renaming of
    the keys and the [None] of the unset fields that [to_dict] adds are
    not represented, and no property below depends on the content of
    this dictionary. *)
Definition spec_to_dict (sp : Spec) : Dict Value :=
  match sp with AutoscalerSpec d => d | _ => [] end.

Definition get_deployment_state (namespace name : string) : M (option (Dict Value)) :=
  try_api
    (dep <- read_workload Deployment name namespace ;;
     ret (Some [("replicas", VInt (or_int (spec_replicas (w_spec dep)) 1))]))
    (fun _ => ret None).

Definition get_statefulset_state (namespace name : string) : M (option (Dict Value)) :=
  try_api
    (sts <- read_workload StatefulSet name namespace ;;
     ret (Some [("replicas", VInt (or_int (spec_replicas (w_spec sts)) 1))]))
    (fun _ => ret None).

Definition get_hpa_state (namespace name : string) : M (option (Dict Value)) :=
  try_api
    (hpa <- read_workload HorizontalPodAutoscaler name namespace ;;
     ret (Some [("spec", VDict (spec_to_dict (w_spec hpa)))]))
    (fun st => if st =? 404 then ret None else ret None).

Definition get_cronjob_state (namespace name : string) : M (option (Dict Value)) :=
  try_api
    (cj <- read_workload CronJob name namespace ;;
     ret (Some [("suspend", VBool (or_false (spec_suspend (w_spec cj))))]))
    (fun _ => ret None).

(* ================================================================= *)
(** ** Scalers *)

(** [0 if direction == 'down' else (state.get('replicas', 1) if state else 1)] *)
Definition target_replicas (direction : Direction) (state : option (Dict Value)) : Value :=
  match direction with
  | down => VInt 0
  | up => match state with
          | Some (e :: d) => get_default (e :: d) "replicas" (VInt 1)
          | _ => VInt 1
          end
  end.

(** [True if direction == 'down' else (state.get('suspend', False) if state else False)] *)
Definition target_suspend (direction : Direction) (state : option (Dict Value)) : Value :=
  match direction with
  | down => VBool true
  | up => match state with
          | Some (e :: d) => get_default (e :: d) "suspend" (VBool false)
          | _ => VBool false
          end
  end.

Definition scale_deployment (namespace name : string) (direction : Direction)
    (state : option (Dict Value)) : M unit :=
  try_api
    (let replicas := target_replicas direction state in
     patch_replicas Deployment name namespace replicas ;;
     log INFO ("Patched Deployment " ++ name ++ " replicas to " ++ show replicas ++ "."))
    (fun st =>
       if st =? 403
       then log ERROR ("Permission denied patching Deployment " ++ name ++ " in namespace "
                       ++ namespace ++ ". Ensure kubescaler-sa has 'patch' and 'update' "
                       ++ "permissions for deployments.")
       else log ERROR ("Failed to scale Deployment " ++ name ++ ": " ++ PyStr.str st)).

Definition scale_statefulset (namespace name : string) (direction : Direction)
    (state : option (Dict Value)) : M unit :=
  try_api
    (let replicas := target_replicas direction state in
     patch_replicas StatefulSet name namespace replicas ;;
     log INFO ("Patched StatefulSet " ++ name ++ " replicas to " ++ show replicas ++ "."))
    (fun st => log ERROR ("Failed to scale StatefulSet " ++ name ++ ": " ++ PyStr.str st)).

Definition scale_hpa (namespace name : string) (direction : Direction)
    (state : option (Dict Value)) : M unit :=
  match direction with
  | down =>
      try_api
        (log INFO ("Deleting HPA " ++ name ++ " in namespace " ++ namespace ++ ".") ;;
         delete_autoscaler name namespace)
        (fun st =>
           if st =? 404
           then log WARNING ("HPA " ++ name ++ " not found for deletion, already gone.")
           else log ERROR ("Failed to delete HPA " ++ name ++ ": " ++ PyStr.str st))
  | up =>
      match (if truthy state then get (match state with Some d => d | None => [] end) "spec"
             else None) with
      | None =>
          log ERROR ("Cannot re-create HPA " ++ name ++ ", no valid state was backed up.")
      | Some spec =>
          try_api
            (log INFO ("Re-creating HPA " ++ name ++ " in namespace " ++ namespace ++ ".") ;;
             create_autoscaler namespace name spec)
            (fun st =>
               if st =? 409
               then log WARNING ("HPA " ++ name ++ " already exists. Skipping re-creation.")
               else log ERROR ("Failed to re-create HPA " ++ name ++ ": " ++ PyStr.str st))
      end
  end.

Definition scale_cronjob (namespace name : string) (direction : Direction)
    (state : option (Dict Value)) : M unit :=
  try_api
    (let suspend := target_suspend direction state in
     patch_suspend name namespace suspend ;;
     log INFO ("Patched CronJob " ++ name ++ " suspend to " ++ show suspend ++ "."))
    (fun st => log ERROR ("Failed to scale CronJob " ++ name ++ ": " ++ PyStr.str st)).

(* ================================================================= *)
(** ** Resource processing logic *)

Definition Scaler : Type := string -> string -> Direction -> option (Dict Value) -> M unit.
Definition StateGetter : Type := string -> string -> M (option (Dict Value)).

(** [resource.metadata.annotations or {}] *)
Definition annotations_of (resource : Workload) : Dict string :=
  match w_annotations resource with
  | Some a => a
  | None => []
  end.

Definition process_single_resource (namespace : string) (resource : Workload) (kind : Kind)
    (now_utc : datetime) (scaler_func : Scaler) (state_getter_func : StateGetter) : M unit :=
  let name := w_name resource in
  let annotations := annotations_of resource in
  if get_is annotations ANNOTATION_NS_CONTROL "Disable" then ret tt
  else
    let scale_up_annotation := get annotations ANNOTATION_SCALE_UP in
    let scale_down_annotation := get annotations ANNOTATION_SCALE_DOWN in
    if is_schedule_active scale_down_annotation now_utc then
      log INFO ("SCALING DOWN " ++ kind_str kind ++ " '" ++ name ++ "' in namespace '"
                ++ namespace ++ "' as per schedule '"
                ++ match scale_down_annotation with Some s => s | None => "None" end ++ "'.") ;;
      try_exception
        (current_state <- state_getter_func namespace name ;;
         match current_state with
         | Some (e :: d) =>
             backup_state namespace kind name (e :: d) ;;
             scaler_func namespace name down None
         | _ => ret tt
         end)
        (log ERROR ("Failed to scale down " ++ kind_str kind ++ " " ++ name))
    else if is_schedule_active scale_up_annotation now_utc then
      log INFO ("SCALING UP " ++ kind_str kind ++ " '" ++ name ++ "' in namespace '"
                ++ namespace ++ "' as per schedule '"
                ++ match scale_up_annotation with Some s => s | None => "None" end ++ "'.") ;;
      try_exception
        (restored_state <- find_latest_backup_state namespace kind name ;;
         if negb (truthy restored_state)
         then log WARNING ("No backup state found for " ++ kind_str kind ++ " " ++ name
                           ++ ". Cannot scale up.")
         else scaler_func namespace name up restored_state)
        (log ERROR ("Failed to scale up " ++ kind_str kind ++ " " ++ name))
    else ret tt.

(** The table [resource_processors] of [process_resources]: the scaler
    and the state getter of each kind. *)
Definition resource_processors (kind : Kind) : Scaler * StateGetter :=
  match kind with
  | Deployment => (scale_deployment, get_deployment_state)
  | StatefulSet => (scale_statefulset, get_statefulset_state)
  | HorizontalPodAutoscaler => (scale_hpa, get_hpa_state)
  | CronJob => (scale_cronjob, get_cronjob_state)
  end.

(** The body of the inner loop of [process_resources]. *)
Definition process_item (namespace : string) (item : Workload) (kind : Kind)
    (now_utc : datetime) : M unit :=
  let '(scaler, state_getter) := resource_processors kind in
  process_single_resource namespace item kind now_utc scaler state_getter.

End Operator.

(* ================================================================= *)
(** ** Namespaces and the reconciliation pass

    The namespaces of the cluster and the listings of a pass are read
    only: they are kept beside the [World], in a [Directory].  A listing
    returns what the cluster holds at that moment or raises
    [ApiException]; listings leave no [Called] event, their failures
    show in the log records.  The clock of the [World] stands still
    during a pass: every [datetime.now] within it reads the same
    instant. *)

Record Namespace := mkNamespace {
  ns_name : string;
  ns_annotations : option (Dict string)
}.

(** The listings of a pass. *)
Inductive Listing :=
| ListNamespaces
| ListKind (kind : Kind) (namespace : string).

Record Directory := mkDirectory {
  namespaces : list Namespace;
  (** listings the API server refuses, with the status it answers *)
  refused : Listing -> option Z
}.

(** [core_v1.list_namespace().items] *)
Definition list_namespace (dir : Directory) : M (list Namespace) :=
  fun w =>
    match refused dir ListNamespaces with
    | Some st => (Raise (ApiException st), w, [])
    | None => (Ok (namespaces dir), w, [])
    end.

(** [lister(namespace).items] for the lister of a kind *)
Definition list_kind (dir : Directory) (kind : Kind) (namespace : string)
  : M (list Workload) :=
  fun w =>
    match refused dir (ListKind kind namespace) with
    | Some st => (Raise (ApiException st), w, [])
    | None =>
        (Ok (filter (fun x => (Kind_eqb (w_kind x) kind &&
                               String.eqb (w_namespace x) namespace)%bool) (workloads w)),
         w, [])
    end.

(** [try: m except ApiException as e: on_api(e.status) except Exception: on_other] *)
Definition try_api_else {A} (m : M A) (on_api : Z -> M A) (on_other : M A) : M A :=
  fun w =>
    match m w with
    | (Raise (ApiException st), w1, ev1) =>
        match on_api st w1 with
        | (r, w2, ev2) => (r, w2, (ev1 ++ ev2)%list)
        end
    | (Raise _, w1, ev1) =>
        match on_other w1 with
        | (r, w2, ev2) => (r, w2, (ev1 ++ ev2)%list)
        end
    | other => other
    end.

(** The loop of [get_eligible_namespaces] over the listed namespaces,
    with the list built so far. *)
Fixpoint eligible_loop (items : list Namespace) (eligible_namespaces : list string)
  : M (list string) :=
  match items with
  | [] => ret eligible_namespaces
  | ns :: rest =>
      let ns_name := ns_name ns in
      let annotations := match ns_annotations ns with Some a => a | None => [] end in
      if PyStr.startswith ns_name "kube-" then
        log DEBUG ("Skipping system namespace: " ++ ns_name) ;;
        eligible_loop rest eligible_namespaces
      else if get_is annotations ANNOTATION_NS_CONTROL "Disable" then
        log DEBUG ("Skipping disabled namespace: " ++ ns_name) ;;
        eligible_loop rest eligible_namespaces
      else eligible_loop rest (eligible_namespaces ++ [ns_name])%list
  end.

Definition get_eligible_namespaces (dir : Directory) : M (list string) :=
  try_api
    (all_namespaces <- list_namespace dir ;;
     eligible_loop all_namespaces [])
    (fun st =>
       (if st =? 403
        then log ERROR ("Permission denied listing namespaces. Ensure kubescaler-sa has "
                        ++ "'list' and 'watch' permissions on namespaces")
        else log ERROR ("Failed to list namespaces: " ++ PyStr.str st)) ;;
       ret []).

Section Reconciliation.

Variable MAX_BACKUPS_TO_RETAIN : Z.

(** The keys of [resource_processors], in the order of the dictionary. *)
Definition supported_kinds : list Kind :=
  [Deployment; StatefulSet; HorizontalPodAutoscaler; CronJob].

Definition process_resources (dir : Directory) (namespace : string) (now_utc : datetime)
  : M unit :=
  for_each supported_kinds
    (fun kind =>
       try_api_else
         (resources <- list_kind dir kind namespace ;;
          for_each resources
            (fun item => process_item MAX_BACKUPS_TO_RETAIN namespace item kind now_utc))
         (fun st =>
            if st =? 403
            then log WARNING ("Permission denied listing " ++ kind_str kind
                              ++ "s in namespace " ++ namespace ++ ". Ensure kubescaler-sa "
                              ++ "has 'get', 'list', and 'watch' permissions for "
                              ++ kind_str kind ++ ".")
            else log ERROR ("Failed to list " ++ kind_str kind ++ "s in namespace "
                            ++ namespace ++ ": " ++ PyStr.str st))
         (log ERROR ("Unexpected error listing " ++ kind_str kind ++ "s in namespace "
                     ++ namespace))).

Definition run_reconciliation (dir : Directory) : M unit :=
  now_utc <- now_utc_clock ;;
  try_exception
    (namespaces <- get_eligible_namespaces dir ;;
     for_each namespaces
       (fun ns_name =>
          log DEBUG ("Processing namespace: " ++ ns_name) ;;
          process_resources dir ns_name now_utc))
    (log ERROR "An error occurred during reconciliation").

End Reconciliation.

(* ================================================================= *)
(** * Vocabulary of the properties *)

(** 2026-12-11 09:00:00 UTC *)
Definition fri_0900 : datetime := mkdt 2026 12 11 9 0 0 0.
Definition fri_0901 : datetime := mkdt 2026 12 11 9 1 0 0.

(** what [parse_schedule] does to each part before classifying it *)
Definition normalise (p : string) : string := PyStr.lower (PyStr.strip p).


(** two instants within the same second *)
Definition same_second (a b : datetime) : Prop :=
  dt_year a = dt_year b /\ dt_month a = dt_month b /\ dt_day a = dt_day b /\
  dt_hour a = dt_hour b /\ dt_minute a = dt_minute b /\ dt_second a = dt_second b.

(** the API calls of a trace, with their outcome *)
Definition calls (evs : list Event) : list (Call * option Z) :=
  flat_map (fun e => match e with Called c o => [(c, o)] | Logged _ _ => [] end) evs.

(** the levels of the log records of a trace *)
Definition levels (evs : list Event) : list Level :=
  flat_map (fun e => match e with Logged l _ => [l] | Called _ _ => [] end) evs.

(** a call that scales a workload: the mutating call of one of the
    four scalers *)
Definition is_scale_call (e : Event) : bool :=
  match e with
  | Called (PatchReplicas _ _ _ _) _
  | Called (PatchSuspend _ _ _) _
  | Called (DeleteAutoscaler _ _) _
  | Called (CreateAutoscaler _ _ _) _ => true
  | _ => false
  end.

Definition quiet (evs : list Event) : Prop :=
  Forall (fun e => is_scale_call e = false) evs.

(** the levels logged after the announcement, by outcome of the call *)
Definition handled_as (tolerated : Z) (outcome : option Z) : list Level :=
  match outcome with
  | None => []
  | Some st => if st =? tolerated then [WARNING] else [ERROR]
  end.

Definition has_autoscaler (namespace name : string) (w : World) : bool :=
  existsb (same_workload HorizontalPodAutoscaler namespace name) (workloads w).

(** the mutating call of each kind's scaler in the down direction *)
Definition scale_down_call (kind : Kind) (name namespace : string) : Call :=
  match kind with
  | Deployment => PatchReplicas Deployment name namespace (VInt 0)
  | StatefulSet => PatchReplicas StatefulSet name namespace (VInt 0)
  | HorizontalPodAutoscaler => DeleteAutoscaler name namespace
  | CronJob => PatchSuspend name namespace (VBool true)
  end.

(** the body of the loop of [prune_old_backups] *)
Definition prune_one (namespace : string) (cm : ConfigMap) : M unit :=
  log INFO ("Pruning old backup ConfigMap: " ++ cm_name cm) ;;
  try_api (delete_namespaced_config_map (cm_name cm) namespace)
          (fun st => log ERROR ("Failed to delete ConfigMap " ++ cm_name cm ++ ": "
                                ++ PyStr.str st)).

(** the delete of this ConfigMap is not refused *)
Definition unrefused (w : World) (namespace : string) (cm : ConfigMap) : bool :=
  match faults w (DeleteConfigMap (cm_name cm) namespace) with
  | None => true
  | Some _ => false
  end.

(** the ConfigMap is named like one of [doomed] in the namespace *)
Definition named_in (namespace : string) (doomed : list ConfigMap) (cm : ConfigMap) : bool :=
  existsb (fun d => same_config_map namespace (cm_name d) cm) doomed.

(** a cluster holding one workload and no ConfigMap, with no refused call *)
Definition single (x : Workload) (now : datetime) : World :=
  mkWorld [x] [] now (fun _ => None).

(** a cluster clock set to [now] *)
Definition set_clock (now : datetime) (w : World) : World :=
  mkWorld (workloads w) (config_maps w) now (faults w).

(** a Deployment with four replicas, scaled down at 18:00 and up at 08:00 *)
Definition web : Workload :=
  mkWorkload Deployment "prod" "web"
    (Some [("ks_scale_down", "18:00"); ("ks_scale_up", "08:00")]) (ReplicaSpec (Some 4)).

(** [web] with both schedules matching 18:00 *)
Definition web_both : Workload :=
  mkWorkload Deployment "prod" "web"
    (Some [("ks_scale_down", "18:00"); ("ks_scale_up", "*;18:00")]) (ReplicaSpec (Some 4)).

Definition web_down_only : Workload :=
  mkWorkload Deployment "prod" "web"
    (Some [("ks_scale_down", "18:00")]) (ReplicaSpec (Some 4)).

(** a scaler that refuses to scale up *)
Definition down_only (f : Scaler) : Scaler :=
  fun ns name direction st =>
    match direction with
    | down => f ns name down st
    | up => raise OtherException
    end.

(** one save of the state of [web] at each of the given instants *)
Definition saves (MAX : Z) (instants : list datetime) (w : World) : World :=
  fold_left
    (fun w now => world_of (backup_state MAX "prod" Deployment "web"
                              [("replicas", VInt 4)] (set_clock now w)))
    instants w.

(** seven saves, a minute apart, with pruning switched off *)
Definition seven_snapshots : World :=
  saves 0 (map (fun mi => mkdt 2026 12 11 18 mi 0 0) [3; 1; 7; 2; 6; 4; 5])
        (single web (mkdt 2026 12 11 18 0 0 0)).

(** two instants within the same minute *)
Definition same_minute (a b : datetime) : Prop :=
  dt_year a = dt_year b /\ dt_month a = dt_month b /\ dt_day a = dt_day b /\
  dt_hour a = dt_hour b /\ dt_minute a = dt_minute b.

(** the final semicolon-separated token of an annotation, trimmed and
    lower-cased: the only place [parse_schedule] looks for the time *)
Definition final_token (schedule_annotation : string) : string :=
  normalise (last (PyStr.split ";" schedule_annotation) "").

(** a namespace that [get_eligible_namespaces] keeps *)
Definition eligible (ns : Namespace) : bool :=
  (negb (PyStr.startswith (ns_name ns) "kube-") &&
   negb (get_is (match ns_annotations ns with Some a => a | None => [] end)
                ANNOTATION_NS_CONTROL "Disable"))%bool.

(** the data entry of a backup ConfigMap that the restore path reads:
    [cm.data.get(key_name) if cm.data else None] *)
Definition backup_entry (kind : Kind) (name : string) (cm : ConfigMap) : option Text :=
  match cm_data cm with
  | Some data => get data (backup_key_name kind name)
  | None => None
  end.

(** newest first *)
Definition key_ge {A} (key : A -> Z) (a b : A) : Prop := key b <= key a.

(** the snapshot a successful save leaves in the store: the body of
    [backup_state], stamped by the server *)
Definition saved_snapshot (namespace : string) (kind : Kind) (name : string)
    (state : Dict Value) (now : datetime) : ConfigMap :=
  mkConfigMap (backup_cm_name kind name now) namespace
    [(OPERATOR_LABEL, OPERATOR_VALUE); ("resource-kind", kind_str kind); ("resource-name", name)]
    (Some (timestamp now))
    (Some [(backup_key_name kind name, json_dumps state)]).

(** a store with an older usable snapshot and a newer one that does
    not decode *)
Definition good_then_garbled : World :=
  mkWorld [web]
    [mkConfigMap "ks-backup-deployment-web-20261211-180000" "prod"
       [(OPERATOR_LABEL, OPERATOR_VALUE); ("resource-kind", "Deployment");
        ("resource-name", "web")]
       (Some 100) (Some [("deployment-web", JsonText [("replicas", VInt 4)])]);
     mkConfigMap "ks-backup-deployment-web-20261212-180000" "prod"
       [(OPERATOR_LABEL, OPERATOR_VALUE); ("resource-kind", "Deployment");
        ("resource-name", "web")]
       (Some 200) (Some [("deployment-web", BadText "{replicas")])]
    (mkdt 2026 12 13 8 0 0 0) (fun _ => None).

(** a computation whose end cluster is always related to its start
    cluster by [R] *)
Definition carries {A} (R : World -> World -> Prop) (m : M A) : Prop :=
  forall w, R w (world_of (m w)).

(** the workloads picked by [pw] and the ConfigMaps picked by [pc] are
    the same in both clusters, and so are the clock and the refusals *)
Definition keeps (pw : Workload -> bool) (pc : ConfigMap -> bool) (w w' : World) : Prop :=
  filter pw (workloads w') = filter pw (workloads w) /\
  filter pc (config_maps w') = filter pc (config_maps w) /\
  faults w' = faults w /\
  clock w' = clock w.

(** [pw] picks no workload of this kind, namespace and name *)
Definition misses (pw : Workload -> bool) (k : Kind) (namespace name : string) : Prop :=
  forall x, same_workload k namespace name x = true -> pw x = false.

(** [pc] picks no ConfigMap of this namespace *)
Definition avoids (pc : ConfigMap -> bool) (namespace : string) : Prop :=
  forall cm, String.eqb (cm_namespace cm) namespace = true -> pc cm = false.

Definition in_namespace (n : string) (x : Workload) : bool := String.eqb (w_namespace x) n.

Definition cm_in_namespace (n : string) (cm : ConfigMap) : bool :=
  String.eqb (cm_namespace cm) n.

(** a workload that a pass at [now_utc] leaves alone: opted out, or with
    neither schedule active *)
Definition inert (now_utc : datetime) (x : Workload) : Prop :=
  get_is (annotations_of x) ANNOTATION_NS_CONTROL "Disable" = true \/
  (is_schedule_active (get (annotations_of x) ANNOTATION_SCALE_DOWN) now_utc = false /\
   is_schedule_active (get (annotations_of x) ANNOTATION_SCALE_UP) now_utc = false).

(** a computation that, run in [w], returns, changes nothing and
    calls nothing but listings *)
Definition leaves (w : World) (m : M unit) : Prop :=
  result_of (m w) = Ok tt /\ world_of (m w) = w /\ calls (events_of (m w)) = [].

(** every workload but the one of this kind, namespace and name *)
Definition other_than (k : Kind) (namespace name : string) (x : Workload) : bool :=
  negb (same_workload k namespace name x).

(** three namespaces: a system one, an ordinary one and one opted out *)
Definition three_namespaces : Directory :=
  mkDirectory
    [mkNamespace "kube-system" None;
     mkNamespace "prod" (Some [("team", "web")]);
     mkNamespace "staging" (Some [("ks_scale", "Disable")])]
    (fun _ => None).

(** the same Deployment, due for scale-down at 18:00, in each of them *)
Definition busy_cluster : World :=
  mkWorld
    [mkWorkload Deployment "kube-system" "web" (Some [("ks_scale_down", "18:00")])
       (ReplicaSpec (Some 4));
     mkWorkload Deployment "prod" "web" (Some [("ks_scale_down", "18:00")])
       (ReplicaSpec (Some 4));
     mkWorkload Deployment "staging" "web" (Some [("ks_scale_down", "18:00")])
       (ReplicaSpec (Some 4))]
    [] (mkdt 2026 12 11 18 0 7 0) (fun _ => None).

(** every workload of this kind, namespace and name in the cluster is
    left alone by a pass at [now_utc] *)
Definition not_due (now_utc : datetime) (k : Kind) (namespace name : string) (w : World)
  : Prop :=
  forall x, In x (workloads w) -> same_workload k namespace name x = true -> inert now_utc x.

(** [keeps], for clusters in which the workload is not due *)
Definition keeps_if_not_due (now_utc : datetime) (k : Kind) (namespace name : string)
    (w w' : World) : Prop :=
  not_due now_utc k namespace name w ->
  keeps (same_workload k namespace name) (fun _ => false) w w'.

(** two Deployments of namespace [prod] due for scale-down at 18:00,
    one of them opted out *)
Definition mixed_cluster : World :=
  mkWorld
    [mkWorkload Deployment "prod" "web" (Some [("ks_scale_down", "18:00")])
       (ReplicaSpec (Some 4));
     mkWorkload Deployment "prod" "db"
       (Some [("ks_scale_down", "18:00"); ("ks_scale", "Disable")])
       (ReplicaSpec (Some 2))]
    [] (mkdt 2026 12 11 18 0 7 0) (fun _ => None).

(** no two ConfigMaps of the store share a namespace and a name, as
    the API server guarantees *)
Definition distinctly_named (cms : list ConfigMap) : Prop :=
  forall a b, In a cms -> In b cms ->
    cm_namespace a = cm_namespace b -> cm_name a = cm_name b -> a = b.

(** every ConfigMap the label selector of this resource does not pick *)
Definition unselected (namespace : string) (kind : Kind) (name : string) (cm : ConfigMap)
  : bool :=
  negb (selected namespace kind name cm).

(** two snapshots of Deployment [web] and, between them, one of
    Deployment [db] *)
Definition two_resources_store : World :=
  mkWorld []
    [mkConfigMap "ks-backup-deployment-web-20261211-180000" "prod"
       [(OPERATOR_LABEL, OPERATOR_VALUE); ("resource-kind", "Deployment");
        ("resource-name", "web")]
       (Some 100) (Some [("deployment-web", JsonText [("replicas", VInt 4)])]);
     mkConfigMap "ks-backup-deployment-db-20261211-190000" "prod"
       [(OPERATOR_LABEL, OPERATOR_VALUE); ("resource-kind", "Deployment");
        ("resource-name", "db")]
       (Some 150) (Some [("deployment-db", JsonText [("replicas", VInt 2)])]);
     mkConfigMap "ks-backup-deployment-web-20261212-180000" "prod"
       [(OPERATOR_LABEL, OPERATOR_VALUE); ("resource-kind", "Deployment");
        ("resource-name", "web")]
       (Some 200) (Some [("deployment-web", JsonText [("replicas", VInt 3)])])]
    (mkdt 2026 12 13 8 0 0 0) (fun _ => None).

(** an autoscaler due for scale-down at 18:00 and for scale-up at 08:00 *)
Definition autoscaled_cluster : World :=
  mkWorld
    [mkWorkload HorizontalPodAutoscaler "prod" "web"
       (Some [("ks_scale_down", "18:00"); ("ks_scale_up", "08:00")])
       (AutoscalerSpec [("maxReplicas", VInt 10)])]
    [] (mkdt 2026 12 11 18 0 7 0) (fun _ => None).

(** a cluster that refuses no call *)
Definition calm (w : World) : Prop := forall c, faults w c = None.

(** what scale-down leaves of a workload: no replica, a suspended
    CronJob, and nothing of an autoscaler *)
Definition hibernated (x : Workload) : list Workload :=
  match w_kind x with
  | Deployment | StatefulSet => [set_spec (ReplicaSpec (Some 0)) x]
  | HorizontalPodAutoscaler => []
  | CronJob => [set_spec (CronSpec (Some true)) x]
  end.

(** the workload [x] is either as the pass found it, up to its spec,
    or hibernated *)
Definition due_or_hibernated (x : Workload) (w : World) : Prop :=
  calm w /\
  (filter (same_workload (w_kind x) (w_namespace x) (w_name x)) (workloads w) = hibernated x \/
   exists sp,
     filter (same_workload (w_kind x) (w_namespace x) (w_name x)) (workloads w)
     = [set_spec sp x]).

Definition is_hibernated (x : Workload) (w : World) : Prop :=
  calm w /\
  filter (same_workload (w_kind x) (w_namespace x) (w_name x)) (workloads w) = hibernated x.

(** no ConfigMap of the namespace bears the name *)
Definition free_name (namespace name : string) (w : World) : Prop :=
  existsb (same_config_map namespace name) (config_maps w) = false.

(** a resource other than the workload [x] *)
Definition other_resource (x : Workload) (kind : Kind) (namespace name : string) : Prop :=
  ~ (kind = w_kind x /\ namespace = w_namespace x /\ name = w_name x).

(** in a store with distinct names: the names stay distinct, the
    workload [x] and its backups are the same in both clusters, and so
    are the clock and the refusals; the name of the backup that a save
    of [x] would create stays free *)
Definition spares (x : Workload) (w w' : World) : Prop :=
  distinctly_named (config_maps w) ->
  distinctly_named (config_maps w') /\
  keeps (same_workload (w_kind x) (w_namespace x) (w_name x))
        (selected (w_namespace x) (w_kind x) (w_name x)) w w' /\
  (free_name (w_namespace x) (backup_cm_name (w_kind x) (w_name x) (clock w)) w ->
   free_name (w_namespace x) (backup_cm_name (w_kind x) (w_name x) (clock w)) w').

(** two Deployments of namespace [prod], both scaled down at 18:00 and
    up at 08:00 *)
Definition two_deployments : World :=
  mkWorld
    [web;
     mkWorkload Deployment "prod" "db"
       (Some [("ks_scale_down", "18:00"); ("ks_scale_up", "08:00")]) (ReplicaSpec (Some 2))]
    [] (mkdt 2026 12 11 18 0 7 0) (fun _ => None).

(** every snapshot of the listing carries a creation time, as those
    the API server stored do *)
Definition dated (cms : list ConfigMap) : Prop :=
  forall cm, In cm cms -> cm_creation_timestamp cm <> None.

(** a snapshot stamped before the instant [now] *)
Definition stamped_before (now : datetime) (cm : ConfigMap) : Prop :=
  exists t, cm_creation_timestamp cm = Some t /\ t < timestamp now.

(** a string of ASCII characters *)
Definition ascii_only (s : string) : Prop :=
  PyStr.forallb_s (fun c => Nat.ltb (PyStr.code c) 128) s = true.

(** a workload whose state the getter of its kind reads as it is: a
    Deployment or StatefulSet with at least one replica, a CronJob whose
    suspend flag is set *)
Definition restorable (x : Workload) : Prop :=
  match w_kind x, w_spec x with
  | Deployment, ReplicaSpec (Some r) => 1 <= r
  | StatefulSet, ReplicaSpec (Some r) => 1 <= r
  | CronJob, CronSpec (Some _) => True
  | _, _ => False
  end.

(** the API server refuses every create of a ConfigMap with status
    [st], and no other call *)
Definition refuses_backups (st : Z) (w : World) : Prop :=
  forall c, faults w c = match c with CreateConfigMap _ _ => Some st | _ => None end.

(** ascending order of keys *)
Definition key_le {A} (key : A -> Z) (a b : A) : Prop := key a <= key b.

(* ================================================================= *)
(** * Properties *)

(** ** The schedule evaluator on the documented example *)

(** C4, as stated, fails: on Friday 2026-12-11 at 09:00 UTC the schedule
    "2026;Dec;Fri;13;09:00" is not active, because check 5 compares the
    day of the month 11 with the listed 13. *)
Lemma example_schedule_not_active_on_the_11th :
  ~ (is_schedule_active (Some "2026;Dec;Fri;13;09:00") fri_0900 = true /\
     is_schedule_active (Some "2026;Dec;Fri;13;09:00") fri_0901 = false /\
     is_schedule_active (Some "2026;Dec;Fri;14;09:00") fri_0900 = false).
Proof.
  intros [Hactive _].
  vm_compute in Hactive.
  discriminate Hactive.
Qed.

(** C4, amended: 2026-12-11 is a Friday and "2026;Dec;Fri;13;09:00"
    parses to year 2026, month dec, day fri, date 13, time 09:00; that
    schedule is not active at 2026-12-11T09:00:00Z (its day of month is
    13, not 11), nor at 09:01, nor with the day of month changed to 14.
    With the day of month 11 the schedule is active at 09:00 and not
    active at 09:01. *)
Theorem example_schedule_evaluation :
  DateTime.fmt_a fri_0900 = "Fri" /\
  parse_schedule "2026;Dec;Fri;13;09:00" = mkSpec "2026" "dec" "fri" "13" (Some "09:00") /\
  is_schedule_active (Some "2026;Dec;Fri;13;09:00") fri_0900 = false /\
  is_schedule_active (Some "2026;Dec;Fri;13;09:00") fri_0901 = false /\
  is_schedule_active (Some "2026;Dec;Fri;14;09:00") fri_0900 = false /\
  is_schedule_active (Some "2026;Dec;Fri;11;09:00") fri_0900 = true /\
  is_schedule_active (Some "2026;Dec;Fri;11;09:00") fri_0901 = false.
Proof.
  repeat split; vm_compute; reflexivity.
Qed.

(** ** Empty alternatives in the month and day-of-week lists *)

Lemma prefix_empty (s : string) : String.prefix "" s = true.
Proof. destruct s; reflexivity. Qed.

Lemma abbr_listed_empty_token (current spec : string) :
  In "" (PyStr.split "," spec) -> abbr_listed current spec = true.
Proof.
  intros Hin.
  unfold abbr_listed.
  apply existsb_exists.
  exists "". split.
  - change "" with (PyStr.strip "") at 1. now apply in_map.
  - unfold PyStr.startswith, PyStr.take. simpl. apply prefix_empty.
Qed.

(** C10: a month or day-of-week list with an empty alternative is
    matched by every current abbreviation, so the schedule is active
    exactly when the schedule with that field set to the wildcard is;
    the annotation "dec,;09:00" is active at every instant whose time of
    day is 09:00, whatever the month. *)
Theorem empty_alternative_acts_as_wildcard
    (field : string) (Hempty : In "" (PyStr.split "," field))
    (y m d dt : string) (t : option string) (now_utc : datetime) :
  (forall current, abbr_listed current field = true) /\
  spec_active (mkSpec y field d dt t) now_utc = spec_active (mkSpec y "*" d dt t) now_utc /\
  spec_active (mkSpec y m field dt t) now_utc = spec_active (mkSpec y m "*" dt t) now_utc /\
  (DateTime.fmt_HM now_utc = "09:00" ->
   is_schedule_active (Some "dec,;09:00") now_utc = true).
Proof.
  assert (Hall : forall current, abbr_listed current field = true)
    by (intro; now apply abbr_listed_empty_token).
  repeat split.
  - exact Hall.
  - unfold spec_active; cbn [time_spec year_spec month_spec day_spec date_spec].
    rewrite Hall.
    destruct t; [|reflexivity].
    now destruct (String.eqb field "*").
  - unfold spec_active; cbn [time_spec year_spec month_spec day_spec date_spec].
    rewrite Hall.
    destruct t; [|reflexivity].
    now destruct (String.eqb field "*").
  - intros Htime.
    unfold is_schedule_active.
    change (parse_schedule "dec,;09:00") with (mkSpec "*" "dec," "*" "*" (Some "09:00")).
    unfold spec_active; cbn [time_spec year_spec month_spec day_spec date_spec].
    rewrite Htime.
    rewrite (abbr_listed_empty_token _ "dec,") by (right; left; reflexivity).
    reflexivity.
Qed.

Lemma empty_alternative_acts_as_wildcard_witness :
  In "" (PyStr.split "," "dec,") /\
  spec_active (mkSpec "*" "dec," "*" "*" (Some "09:00")) (mkdt 2026 6 15 9 0 0 0) = true /\
  is_schedule_active (Some "dec,;09:00") (mkdt 2026 6 15 9 0 0 0) = true /\
  is_schedule_active (Some "dec;09:00") (mkdt 2026 6 15 9 0 0 0) = false.
Proof.
  assert (Hin : In "" (PyStr.split "," "dec,")) by (right; left; reflexivity).
  destruct (empty_alternative_acts_as_wildcard "dec," Hin "*" "*" "*" "*"
              (Some "09:00") (mkdt 2026 6 15 9 0 0 0)) as (_ & Hmonth & _ & Hann).
  split; [exact Hin|].
  split; [rewrite Hmonth; reflexivity|].
  split; [apply Hann; reflexivity|reflexivity].
Defined.

(* ================================================================= *)
(** ** Token order in [parse_schedule] *)

Lemma split_without_sep (sep : ascii) (w : string) :
  PyStr.has_char sep w = false -> PyStr.split sep w = [w].
Proof.
  unfold PyStr.has_char.
  induction w as [|c r IH]; simpl; intros H; [reflexivity|].
  apply orb_false_iff in H as [Hc Hr].
  rewrite Ascii.eqb_sym, Hc, (IH Hr).
  reflexivity.
Qed.

Lemma split_append_sep (sep : ascii) (w rest : string) :
  PyStr.has_char sep w = false ->
  PyStr.split sep (w ++ String sep rest) = w :: PyStr.split sep rest.
Proof.
  unfold PyStr.has_char.
  induction w as [|c r IH]; simpl; intros H.
  - now rewrite Ascii.eqb_refl.
  - apply orb_false_iff in H as [Hc Hr].
    rewrite Ascii.eqb_sym, Hc, (IH Hr).
    reflexivity.
Qed.

Lemma split_join (sep : ascii) (ws : list string) :
  ws <> [] ->
  Forall (fun w => PyStr.has_char sep w = false) ws ->
  PyStr.split sep (PyStr.join sep ws) = ws.
Proof.
  induction ws as [|a ws IH]; intros Hne Hall; [congruence|].
  inversion Hall as [|? ? Ha Hws]; subst.
  destruct ws as [|b ws].
  - simpl. now apply split_without_sep.
  - change (PyStr.join sep (a :: b :: ws))
      with (a ++ String sep (PyStr.join sep (b :: ws))).
    rewrite split_append_sep by assumption.
    f_equal. apply IH; [discriminate|assumption].
Qed.

Lemma parse_schedule_parts (s : string) :
  parse_schedule s = parse_parts (map normalise (PyStr.split ";" s)).
Proof.
  destruct s; reflexivity.
Qed.



Lemma last_map_normalise (ts : list string) :
  last (map normalise ts) "" = normalise (last ts "").
Proof.
  induction ts as [|a [|b ts] IH]; try reflexivity.
  exact IH.
Qed.

Lemma parse_parts_snoc (ps : list string) (tl : string) :
  parse_parts (ps ++ [tl]) =
  if PyStr.has_char ":" tl
  then fold_left assign ps (mkSpec "*" "*" "*" "*" (Some tl))
  else assign (fold_left assign ps (mkSpec "*" "*" "*" "*" None)) tl.
Proof.
  unfold parse_parts, take_time.
  destruct (ps ++ [tl])%list as [|p0 ps0] eqn:E.
  - now destruct ps.
  - rewrite <- E. rewrite last_last, removelast_last.
    destruct (PyStr.has_char ":" tl); [reflexivity|].
    now rewrite fold_left_app.
Qed.




(* ================================================================= *)
(** ** Names of the backup ConfigMaps *)

Lemma append_length (a b : string) :
  String.length (a ++ b) = (String.length a + String.length b)%nat.
Proof.
  induction a as [|c a IH]; simpl; [reflexivity|now rewrite IH].
Qed.

Lemma append_inj_same_suffix_length (a b c d : string) :
  a ++ c = b ++ d -> String.length c = String.length d -> a = b /\ c = d.
Proof.
  revert b.
  induction a as [|x a IH]; intros [|y b] Heq Hlen; simpl in Heq.
  - now split.
  - exfalso. subst c. simpl in Hlen. rewrite append_length in Hlen. lia.
  - exfalso. subst d. simpl in Hlen. rewrite append_length in Hlen. lia.
  - injection Heq as Hxy Hrest.
    destruct (IH b Hrest Hlen) as [Hab Hcd].
    now subst.
Qed.

Lemma digit_inj (a b : Z) :
  0 <= a < 10 -> 0 <= b < 10 -> PyStr.digit a = PyStr.digit b -> a = b.
Proof.
  intros Ha Hb H. unfold PyStr.digit in H.
  apply (f_equal nat_of_ascii) in H.
  rewrite !nat_ascii_embedding in H by lia.
  lia.
Qed.

Lemma two_digits_inj (a b : Z) :
  0 <= a < 100 -> 0 <= b < 100 ->
  PyStr.digit (a / 10 mod 10) = PyStr.digit (b / 10 mod 10) ->
  PyStr.digit (a mod 10) = PyStr.digit (b mod 10) ->
  a = b.
Proof.
  intros Ha Hb H1 H0.
  apply digit_inj in H1; [|apply Z.mod_pos_bound; lia ..].
  apply digit_inj in H0; [|apply Z.mod_pos_bound; lia ..].
  revert H1 H0.
  Z.div_mod_to_equations. lia.
Qed.

Lemma four_digits_inj (a b : Z) :
  0 <= a < 10000 -> 0 <= b < 10000 ->
  PyStr.digit (a / 1000 mod 10) = PyStr.digit (b / 1000 mod 10) ->
  PyStr.digit (a / 100 mod 10) = PyStr.digit (b / 100 mod 10) ->
  PyStr.digit (a / 10 mod 10) = PyStr.digit (b / 10 mod 10) ->
  PyStr.digit (a mod 10) = PyStr.digit (b mod 10) ->
  a = b.
Proof.
  intros Ha Hb H3 H2 H1 H0.
  apply digit_inj in H3; [|apply Z.mod_pos_bound; lia ..].
  apply digit_inj in H2; [|apply Z.mod_pos_bound; lia ..].
  apply digit_inj in H1; [|apply Z.mod_pos_bound; lia ..].
  apply digit_inj in H0; [|apply Z.mod_pos_bound; lia ..].
  revert H3 H2 H1 H0.
  Z.div_mod_to_equations. lia.
Qed.

Lemma fmt_stamp_length (t : datetime) : String.length (DateTime.fmt_stamp t) = 15%nat.
Proof. reflexivity. Qed.

Lemma days_in_month_le_31 (y m : Z) : DateTime.days_in_month y m <= 31.
Proof.
  unfold DateTime.days_in_month.
  destruct (m =? 2); [destruct (DateTime.is_leap y); lia|].
  destruct ((m =? 4) || (m =? 6) || (m =? 9) || (m =? 11))%bool; lia.
Qed.

Lemma fmt_stamp_inj (a b : datetime) :
  DateTime.valid a -> DateTime.valid b ->
  DateTime.fmt_stamp a = DateTime.fmt_stamp b -> same_second a b.
Proof.
  intros (Hy & Hm & Hd & Hh & Hmi & Hs & _) (Hy' & Hm' & Hd' & Hh' & Hmi' & Hs' & _) H.
  pose proof (days_in_month_le_31 (dt_year a) (dt_month a)).
  pose proof (days_in_month_le_31 (dt_year b) (dt_month b)).
  unfold DateTime.fmt_stamp, PyStr.pad4, PyStr.pad2 in H.
  cbn [append] in H.
  injection H as Y3 Y2 Y1 Y0 Mo1 Mo0 D1 D0 Ho1 Ho0 Mi1 Mi0 S1 S0.
  unfold same_second.
  repeat split;
    first [ solve [apply four_digits_inj; (assumption || lia)]
          | solve [apply two_digits_inj; (assumption || lia)] ].
Qed.

Lemma fmt_stamp_same_second (a b : datetime) :
  same_second a b -> DateTime.fmt_stamp a = DateTime.fmt_stamp b.
Proof.
  intros (Hy & Hm & Hd & Hh & Hmi & Hs).
  unfold DateTime.fmt_stamp.
  now rewrite Hy, Hm, Hd, Hh, Hmi, Hs.
Qed.

Lemma string_tail_inj (c : ascii) (a b : string) : String c a = String c b -> a = b.
Proof. now injection 1. Qed.

Lemma kind_prefix_inj (k1 k2 : Kind) (r1 r2 : string) :
  PyStr.lower (kind_str k1) ++ "-" ++ r1 = PyStr.lower (kind_str k2) ++ "-" ++ r2 ->
  k1 = k2 /\ r1 = r2.
Proof.
  destruct k1, k2; intros H; vm_compute in H; try discriminate H;
    injection H as H; now split.
Qed.

(** C8, as stated, fails: two saves of the same resource at two
    instants of the same second construct the same name. *)
Lemma backup_names_collide_within_a_second :
  mkdt 2026 12 11 18 0 7 100 <> mkdt 2026 12 11 18 0 7 900000 /\
  backup_cm_name Deployment "web" (mkdt 2026 12 11 18 0 7 100) =
  backup_cm_name Deployment "web" (mkdt 2026 12 11 18 0 7 900000).
Proof.
  split; [discriminate|reflexivity].
Qed.

(** C8, amended: the name is built from the prefix, the lower-cased
    kind, the resource name and the UTC time to the second, and two
    saves construct the same name exactly when they are of the same
    kind and resource name and fall within the same second; saves that
    differ in kind, resource name or second get distinct names. *)
Theorem backup_name_collision_iff
    (k1 k2 : Kind) (n1 n2 : string) (t1 t2 : datetime)
    (Hvalid1 : DateTime.valid t1) (Hvalid2 : DateTime.valid t2) :
  backup_cm_name k1 n1 t1 = backup_cm_name k2 n2 t2 <->
  k1 = k2 /\ n1 = n2 /\ same_second t1 t2.
Proof.
  split.
  - unfold backup_cm_name, CONFIGMAP_PREFIX. intros H.
    change ("ks-backup" ++ "-" ++ PyStr.lower (kind_str k1) ++ "-" ++ n1 ++ "-"
            ++ DateTime.fmt_stamp t1)
      with ("ks-backup-" ++ (PyStr.lower (kind_str k1) ++ "-"
            ++ (n1 ++ "-" ++ DateTime.fmt_stamp t1))) in H.
    change ("ks-backup" ++ "-" ++ PyStr.lower (kind_str k2) ++ "-" ++ n2 ++ "-"
            ++ DateTime.fmt_stamp t2)
      with ("ks-backup-" ++ (PyStr.lower (kind_str k2) ++ "-"
            ++ (n2 ++ "-" ++ DateTime.fmt_stamp t2))) in H.
    injection H as H.
    apply kind_prefix_inj in H as [Hk H].
    apply append_inj_same_suffix_length in H as [Hn H]; [|reflexivity].
    apply string_tail_inj in H.
    split; [exact Hk|split; [exact Hn|]].
    exact (fmt_stamp_inj t1 t2 Hvalid1 Hvalid2 H).
  - intros (-> & -> & Hsec).
    unfold backup_cm_name.
    now rewrite (fmt_stamp_same_second _ _ Hsec).
Qed.

Lemma valid_example (y mo d h mi s us : Z) :
  1000 <= y <= 9999 -> 1 <= mo <= 12 -> 1 <= d <= DateTime.days_in_month y mo ->
  0 <= h <= 23 -> 0 <= mi <= 59 -> 0 <= s <= 59 -> 0 <= us <= 999999 ->
  DateTime.valid (mkdt y mo d h mi s us).
Proof. unfold DateTime.valid; simpl; intuition. Defined.

Lemma backup_name_collision_iff_witness :
  DateTime.valid (mkdt 2026 12 11 18 0 7 0) /\
  DateTime.valid (mkdt 2026 12 11 18 0 8 0) /\
  backup_cm_name Deployment "web" (mkdt 2026 12 11 18 0 7 0) <>
  backup_cm_name Deployment "web" (mkdt 2026 12 11 18 0 8 0).
Proof.
  assert (H1 : DateTime.valid (mkdt 2026 12 11 18 0 7 0))
    by (apply valid_example; vm_compute; split; discriminate).
  assert (H2 : DateTime.valid (mkdt 2026 12 11 18 0 8 0))
    by (apply valid_example; vm_compute; split; discriminate).
  split; [exact H1|split; [exact H2|]].
  intros Heq.
  apply (backup_name_collision_iff Deployment Deployment "web" "web" _ _ H1 H2) in Heq.
  destruct Heq as (_ & _ & (_ & _ & _ & _ & _ & Hs)).
  discriminate Hs.
Defined.

(* ================================================================= *)
(** ** State getters *)

(** C9 (code at the failing input): for a Deployment or StatefulSet
    whose replica count is set to 0, the getter returns [{replicas: 1}]:
    [or 1] replaces the falsy 0 as well as the unset field.  For set,
    non-zero counts the getter returns the count, for an unset count 1,
    and [get_cronjob_state] returns the suspend flag, [False] when
    unset. *)
Theorem get_state_defaults
    (namespace name : string) (annotations : option (Dict string)) (now : datetime) :
  (forall replicas,
     result_of (get_deployment_state namespace name
        (single (mkWorkload Deployment namespace name annotations (ReplicaSpec replicas)) now))
     = Ok (Some [("replicas",
                  VInt match replicas with
                       | Some 0 => 1
                       | Some n => n
                       | None => 1
                       end)])) /\
  (forall replicas,
     result_of (get_statefulset_state namespace name
        (single (mkWorkload StatefulSet namespace name annotations (ReplicaSpec replicas)) now))
     = Ok (Some [("replicas",
                  VInt match replicas with
                       | Some 0 => 1
                       | Some n => n
                       | None => 1
                       end)])) /\
  (forall suspend,
     result_of (get_cronjob_state namespace name
        (single (mkWorkload CronJob namespace name annotations (CronSpec suspend)) now))
     = Ok (Some [("suspend",
                  VBool match suspend with
                        | Some b => b
                        | None => false
                        end)])) /\
  result_of (get_deployment_state "prod" "web"
     (single (mkWorkload Deployment "prod" "web" None (ReplicaSpec (Some 0))) now))
  = Ok (Some [("replicas", VInt 1)]).
Proof.
  split; [|split; [|split]].
  - intros replicas.
    unfold get_deployment_state, try_api, bind, read_workload, api, single, result_of.
    cbn [faults workloads find].
    unfold same_workload; cbn [w_kind w_namespace w_name Kind_eqb].
    rewrite !String.eqb_refl. cbn.
    destruct replicas as [[| |]|]; reflexivity.
  - intros replicas.
    unfold get_statefulset_state, try_api, bind, read_workload, api, single, result_of.
    cbn [faults workloads find].
    unfold same_workload; cbn [w_kind w_namespace w_name Kind_eqb].
    rewrite !String.eqb_refl. cbn.
    destruct replicas as [[| |]|]; reflexivity.
  - intros suspend.
    unfold get_cronjob_state, try_api, bind, read_workload, api, single, result_of.
    cbn [faults workloads find].
    unfold same_workload; cbn [w_kind w_namespace w_name Kind_eqb].
    rewrite !String.eqb_refl. cbn.
    destruct suspend; reflexivity.
  - reflexivity.
Qed.

(* ================================================================= *)
(** ** Hibernating autoscalers *)

Lemma find_none_existsb {A} (p : A -> bool) (l : list A) :
  find p l = None -> existsb p l = false.
Proof.
  induction l as [|a l IH]; simpl; [reflexivity|].
  destruct (p a); [discriminate|exact IH].
Qed.

Lemma existsb_filter_negb {A} (p : A -> bool) (l : list A) :
  existsb p (filter (fun x => negb (p x)) l) = false.
Proof.
  induction l as [|a l IH]; simpl; [reflexivity|].
  destruct (p a) eqn:E; simpl; [exact IH|].
  now rewrite E.
Qed.

(** C7: [scale_hpa] never raises.  Scaling down issues exactly one
    call, the delete of the autoscaler: when it returns the autoscaler
    is gone; when it raises 404 a warning is logged and no error; on any
    other status an error is logged.  Scaling up from a restored state
    holding a spec issues exactly one call, the create with that spec:
    when it raises 409 a warning is logged and no error; on any other
    status an error is logged.  In the failing cases the cluster is
    unchanged.  Moreover an autoscaler that is there, with the delete
    not refused, is deleted by scale-down: the call returns, nothing is
    logged above the announcement, and the cluster holds every workload
    but that autoscaler; and an autoscaler that is not there, with the
    create not refused and the restored spec a dictionary, is created
    by scale-up with exactly that spec. *)
Theorem scale_hpa_error_handling
    (namespace name : string) (state : Dict Value) (spec : Value) (w : World)
    (Hstate : truthy (Some state) = true)
    (Hspec : get state "spec" = Some spec) :
  (forall any_state,
     let x := scale_hpa namespace name down any_state w in
     result_of x = Ok tt /\
     exists outcome,
       calls (events_of x) = [(DeleteAutoscaler name namespace, outcome)] /\
       levels (events_of x) = INFO :: handled_as 404 outcome /\
       match outcome with
       | None => has_autoscaler namespace name (world_of x) = false
       | Some _ => world_of x = w
       end) /\
  (let x := scale_hpa namespace name up (Some state) w in
   result_of x = Ok tt /\
   exists outcome,
     calls (events_of x) = [(CreateAutoscaler namespace name spec, outcome)] /\
     levels (events_of x) = INFO :: handled_as 409 outcome /\
     match outcome with
     | None => has_autoscaler namespace name (world_of x) = true
     | Some _ => world_of x = w
     end) /\
  (faults w (DeleteAutoscaler name namespace) = None ->
   has_autoscaler namespace name w = false ->
   levels (events_of (scale_hpa namespace name down None w)) = [INFO; WARNING]) /\
  (faults w (CreateAutoscaler namespace name spec) = None ->
   has_autoscaler namespace name w = true ->
   levels (events_of (scale_hpa namespace name up (Some state) w)) = [INFO; WARNING]) /\
  (faults w (DeleteAutoscaler name namespace) = None ->
   has_autoscaler namespace name w = true ->
   forall any_state,
     let x := scale_hpa namespace name down any_state w in
     calls (events_of x) = [(DeleteAutoscaler name namespace, None)] /\
     levels (events_of x) = [INFO] /\
     workloads (world_of x) =
       filter (fun y => negb (same_workload HorizontalPodAutoscaler namespace name y))
              (workloads w) /\
     config_maps (world_of x) = config_maps w) /\
  (faults w (CreateAutoscaler namespace name spec) = None ->
   has_autoscaler namespace name w = false ->
   forall d, spec = VDict d ->
     let x := scale_hpa namespace name up (Some state) w in
     calls (events_of x) = [(CreateAutoscaler namespace name spec, None)] /\
     levels (events_of x) = [INFO] /\
     workloads (world_of x) =
       (workloads w ++
        [mkWorkload HorizontalPodAutoscaler namespace name None (AutoscalerSpec d)])%list /\
     config_maps (world_of x) = config_maps w).
Proof.
  split; [|split; [|split; [|split; [|split]]]].
  - intros any_state x. subst x.
    unfold scale_hpa, try_api, bind, log, delete_autoscaler, api,
      result_of, events_of, world_of.
    destruct (faults w (DeleteAutoscaler name namespace)) as [st|] eqn:Hf.
    + cbn. destruct (st =? 404) eqn:E; cbn; (split; [reflexivity|]);
        exists (Some st); cbn; rewrite E; auto.
    + destruct (find (same_workload HorizontalPodAutoscaler namespace name) (workloads w))
        eqn:Hfind; cbn.
      * split; [reflexivity|]. exists None. cbn.
        repeat split. unfold has_autoscaler. cbn.
        apply existsb_filter_negb.
      * split; [reflexivity|]. exists (Some 404). cbn. auto.
  - intros x. subst x.
    unfold scale_hpa. rewrite Hstate, Hspec.
    unfold try_api, bind, log, create_autoscaler, api, result_of, events_of, world_of.
    destruct (faults w (CreateAutoscaler namespace name spec)) as [st|] eqn:Hf.
    + cbn. destruct (st =? 409) eqn:E; cbn; (split; [reflexivity|]);
        exists (Some st); cbn; rewrite E; auto.
    + destruct (find (same_workload HorizontalPodAutoscaler namespace name) (workloads w))
        eqn:Hfind; cbn.
      * split; [reflexivity|]. exists (Some 409). cbn. auto.
      * destruct spec; cbn; (split; [reflexivity|]);
          try (exists (Some 422); cbn; now auto).
        exists None. cbn. repeat split.
        unfold has_autoscaler. cbn.
        rewrite existsb_app. cbn.
        unfold same_workload at 2. cbn.
        rewrite !String.eqb_refl. cbn.
        apply orb_true_r.
  - intros Hf Habsent.
    unfold scale_hpa, try_api, bind, log, delete_autoscaler, api, events_of.
    rewrite Hf.
    unfold has_autoscaler in Habsent.
    destruct (find (same_workload HorizontalPodAutoscaler namespace name) (workloads w))
      eqn:Hfind; [|reflexivity].
    apply find_some in Hfind as [Hin Hsame].
    assert (Hex : existsb (same_workload HorizontalPodAutoscaler namespace name)
                    (workloads w) = true)
      by (apply existsb_exists; eauto).
    congruence.
  - intros Hf Hpresent.
    unfold scale_hpa. rewrite Hstate, Hspec.
    unfold try_api, bind, log, create_autoscaler, api, events_of.
    rewrite Hf.
    unfold has_autoscaler in Hpresent.
    destruct (find (same_workload HorizontalPodAutoscaler namespace name) (workloads w))
      eqn:Hfind; [reflexivity|].
    apply find_none_existsb in Hfind. congruence.
  - intros Hf Hpresent any_state x. subst x.
    unfold scale_hpa, try_api, bind, log, delete_autoscaler, api, events_of, world_of.
    rewrite Hf.
    unfold has_autoscaler in Hpresent.
    destruct (find (same_workload HorizontalPodAutoscaler namespace name) (workloads w))
      eqn:Hfind.
    + cbn. repeat split.
    + apply find_none_existsb in Hfind. congruence.
  - intros Hf Habsent d -> x. subst x.
    unfold scale_hpa. rewrite Hstate, Hspec.
    unfold try_api, bind, log, create_autoscaler, api, events_of, world_of.
    rewrite Hf.
    unfold has_autoscaler in Habsent.
    destruct (find (same_workload HorizontalPodAutoscaler namespace name) (workloads w))
      eqn:Hfind.
    + apply find_some in Hfind as [Hin Hsame].
      assert (Hex : existsb (same_workload HorizontalPodAutoscaler namespace name)
                      (workloads w) = true)
        by (apply existsb_exists; eauto).
      congruence.
    + cbn. repeat split.
Qed.

Lemma scale_hpa_error_handling_witness :
  let state := [("spec", VDict [("maxReplicas", VInt 10)])] in
  let asleep := world_of (scale_hpa "prod" "web" down None autoscaled_cluster) in
  let awake := world_of (scale_hpa "prod" "web" up (Some state) asleep) in
  workloads asleep = [] /\
  levels (events_of (scale_hpa "prod" "web" down None asleep)) = [INFO; WARNING] /\
  workloads awake =
    [mkWorkload HorizontalPodAutoscaler "prod" "web" None
       (AutoscalerSpec [("maxReplicas", VInt 10)])] /\
  levels (events_of (scale_hpa "prod" "web" up (Some state) awake)) = [INFO; WARNING].
Proof.
  intros state asleep awake.
  destruct (scale_hpa_error_handling "prod" "web" state (VDict [("maxReplicas", VInt 10)])
              autoscaled_cluster eq_refl eq_refl) as (_ & _ & _ & _ & Hdelete & _).
  destruct (Hdelete eq_refl eq_refl None) as (_ & _ & Hgone & _).
  destruct (scale_hpa_error_handling "prod" "web" state (VDict [("maxReplicas", VInt 10)])
              asleep eq_refl eq_refl) as (_ & _ & Hnot_found & _ & _ & Hcreate).
  destruct (Hcreate eq_refl eq_refl [("maxReplicas", VInt 10)] eq_refl)
    as (_ & _ & Hcreated & _).
  destruct (scale_hpa_error_handling "prod" "web" state (VDict [("maxReplicas", VInt 10)])
              awake eq_refl eq_refl) as (_ & _ & _ & Hconflict & _).
  split; [exact Hgone|].
  split; [exact (Hnot_found eq_refl eq_refl)|].
  split; [exact Hcreated|].
  exact (Hconflict eq_refl eq_refl).
Defined.

(* ================================================================= *)
(** ** Running computations *)

Lemma bind_ok {A B} (m : M A) (k : A -> M B) (w w1 : World) (a : A) (ev1 : list Event) :
  m w = (Ok a, w1, ev1) ->
  bind m k w = (result_of (k a w1), world_of (k a w1), (ev1 ++ events_of (k a w1))%list).
Proof.
  intros H. unfold bind, result_of, world_of, events_of. rewrite H.
  now destruct (k a w1) as [[r w2] ev2].
Qed.

Lemma bind_log {B} (lvl : Level) (msg : string) (k : unit -> M B) (w : World) :
  bind (log lvl msg) k w =
  (result_of (k tt w), world_of (k tt w), Logged lvl msg :: events_of (k tt w)).
Proof.
  now rewrite (bind_ok _ _ w w tt [Logged lvl msg]).
Qed.

Lemma try_exception_ok {A} (m h : M A) (w w1 : World) (a : A) (ev : list Event) :
  m w = (Ok a, w1, ev) -> try_exception m h w = (Ok a, w1, ev).
Proof.
  intros H. unfold try_exception. now rewrite H.
Qed.

Lemma try_api_ok {A} (m : M A) (h : Z -> M A) (w w1 : World) (a : A) (ev : list Event) :
  m w = (Ok a, w1, ev) -> try_api m h w = (Ok a, w1, ev).
Proof.
  intros H. unfold try_api. now rewrite H.
Qed.

Lemma surjective_triple {A} (x : Result A * World * list Event) :
  x = (result_of x, world_of x, events_of x).
Proof. now destruct x as [[r w] ev]. Qed.

(** the two branches of [process_single_resource] *)
Lemma process_single_resource_down
    (MAX : Z) (namespace : string) (resource : Workload) (kind : Kind) (now_utc : datetime)
    (scaler_func : Scaler) (state_getter_func : StateGetter) :
  get_is (annotations_of resource) ANNOTATION_NS_CONTROL "Disable" = false ->
  is_schedule_active (get (annotations_of resource) ANNOTATION_SCALE_DOWN) now_utc = true ->
  exists msg err,
    process_single_resource MAX namespace resource kind now_utc scaler_func state_getter_func =
    (log INFO msg ;;
     try_exception
       (current_state <- state_getter_func namespace (w_name resource) ;;
        match current_state with
        | Some (e :: d) =>
            backup_state MAX namespace kind (w_name resource) (e :: d) ;;
            scaler_func namespace (w_name resource) down None
        | _ => ret tt
        end)
       (log ERROR err)).
Proof.
  intros Hc Hd. unfold process_single_resource. rewrite Hc, Hd.
  eexists. eexists. reflexivity.
Qed.

Lemma process_single_resource_up
    (MAX : Z) (namespace : string) (resource : Workload) (kind : Kind) (now_utc : datetime)
    (scaler_func : Scaler) (state_getter_func : StateGetter) :
  get_is (annotations_of resource) ANNOTATION_NS_CONTROL "Disable" = false ->
  is_schedule_active (get (annotations_of resource) ANNOTATION_SCALE_DOWN) now_utc = false ->
  is_schedule_active (get (annotations_of resource) ANNOTATION_SCALE_UP) now_utc = true ->
  exists msg err,
    process_single_resource MAX namespace resource kind now_utc scaler_func state_getter_func =
    (log INFO msg ;;
     try_exception
       (restored_state <- find_latest_backup_state namespace kind (w_name resource) ;;
        if negb (truthy restored_state)
        then log WARNING ("No backup state found for " ++ kind_str kind ++ " "
                          ++ w_name resource ++ ". Cannot scale up.")
        else scaler_func namespace (w_name resource) up restored_state)
       (log ERROR err)).
Proof.
  intros Hc Hd Hu. unfold process_single_resource. rewrite Hc, Hd, Hu.
  eexists. eexists. reflexivity.
Qed.

(* ================================================================= *)
(** ** Scale-up without a backup *)

Lemma find_latest_backup_state_none (namespace : string) (kind : Kind) (name : string)
    (w : World) :
  filter (selected namespace kind name) (config_maps w) = [] ->
  exists lvl msg,
    find_latest_backup_state namespace kind name w =
    (Ok None, w,
     [Called (ListConfigMaps namespace kind name)
             (faults w (ListConfigMaps namespace kind name));
      Logged lvl msg]).
Proof.
  intros Hnone.
  unfold find_latest_backup_state, try_api_json, list_namespaced_config_map, api.
  unfold bind. cbv beta.
  destruct (faults w (ListConfigMaps namespace kind name)) as [st|] eqn:Hf.
  - eexists. eexists. reflexivity.
  - rewrite Hnone. eexists. eexists. reflexivity.
Qed.

(** C6: when the scale-up schedule fires for a resource that is not
    disabled and no ConfigMap carries the three labels of that kind and
    name in the namespace, the tick logs the warning that no backup state
    was found, its only API call is the listing of the backups (no patch,
    create or delete; the scaler is not invoked, whatever it is), and the
    cluster is left as it was. *)
Theorem scale_up_without_backup
    (MAX : Z) (namespace : string) (resource : Workload) (kind : Kind) (now_utc : datetime)
    (scaler_func : Scaler) (state_getter_func : StateGetter) (w : World)
    (Henabled : get_is (annotations_of resource) ANNOTATION_NS_CONTROL "Disable" = false)
    (Hdown : is_schedule_active (get (annotations_of resource) ANNOTATION_SCALE_DOWN) now_utc
             = false)
    (Hup : is_schedule_active (get (annotations_of resource) ANNOTATION_SCALE_UP) now_utc = true)
    (Hnone : filter (selected namespace kind (w_name resource)) (config_maps w) = []) :
  let x := process_single_resource MAX namespace resource kind now_utc
             scaler_func state_getter_func w in
  result_of x = Ok tt /\
  world_of x = w /\
  calls (events_of x) =
    [(ListConfigMaps namespace kind (w_name resource),
      faults w (ListConfigMaps namespace kind (w_name resource)))] /\
  last (events_of x) (Logged DEBUG "") =
    Logged WARNING ("No backup state found for " ++ kind_str kind ++ " "
                    ++ w_name resource ++ ". Cannot scale up.") /\
  Forall (fun e => is_scale_call e = false) (events_of x).
Proof.
  intros x. subst x.
  destruct (process_single_resource_up MAX namespace resource kind now_utc
              scaler_func state_getter_func Henabled Hdown Hup) as (msg & err & ->).
  destruct (find_latest_backup_state_none namespace kind (w_name resource) w Hnone)
    as (lvl & msg' & Hfind).
  rewrite bind_log.
  rewrite (try_exception_ok _ _ w w tt
             [Called (ListConfigMaps namespace kind (w_name resource))
                     (faults w (ListConfigMaps namespace kind (w_name resource)));
              Logged lvl msg';
              Logged WARNING ("No backup state found for " ++ kind_str kind ++ " "
                              ++ w_name resource ++ ". Cannot scale up.")]).
  - unfold result_of, world_of, events_of. cbn -[append].
    repeat split. repeat constructor.
  - now rewrite (bind_ok _ _ _ _ _ _ Hfind).
Qed.

Lemma scale_up_without_backup_witness :
  let x := process_single_resource 5 "prod" web Deployment (mkdt 2026 12 12 8 0 30 0)
             scale_deployment get_deployment_state (single web (mkdt 2026 12 12 8 0 30 0)) in
  world_of x = single web (mkdt 2026 12 12 8 0 30 0) /\
  calls (events_of x) = [(ListConfigMaps "prod" Deployment "web", None)].
Proof.
  destruct (scale_up_without_backup 5 "prod" web Deployment (mkdt 2026 12 12 8 0 30 0)
              scale_deployment get_deployment_state (single web (mkdt 2026 12 12 8 0 30 0))
              eq_refl eq_refl eq_refl eq_refl) as (_ & Hworld & Hcalls & _).
  split; [exact Hworld|exact Hcalls].
Defined.

(* ================================================================= *)
(** ** One direction per tick *)

(** C3: processing a resource depends on the scaler through one
    direction only, down when the scale-down schedule is active and up
    otherwise: a scaler that behaves differently in the other direction
    gives the same tick.  When the scale-down schedule is active the
    tick is moreover the same for any resource of that name with the
    same control and scale-down annotations, whatever its scale-up
    annotation: the scale-up schedule plays no part, even if it matches
    the same instant. *)
Theorem one_direction_per_tick
    (MAX : Z) (namespace : string) (kind : Kind) (now_utc : datetime)
    (state_getter_func : StateGetter) (r1 r2 : Workload) (f g : Scaler)
    (Hname : w_name r1 = w_name r2)
    (Hcontrol : get (annotations_of r1) ANNOTATION_NS_CONTROL =
                get (annotations_of r2) ANNOTATION_NS_CONTROL)
    (Hdown : get (annotations_of r1) ANNOTATION_SCALE_DOWN =
             get (annotations_of r2) ANNOTATION_SCALE_DOWN)
    (Hagree : forall ns name st w,
        g ns name
          (if is_schedule_active (get (annotations_of r1) ANNOTATION_SCALE_DOWN) now_utc
           then down else up) st w =
        f ns name
          (if is_schedule_active (get (annotations_of r1) ANNOTATION_SCALE_DOWN) now_utc
           then down else up) st w) :
  (forall w,
     process_single_resource MAX namespace r1 kind now_utc f state_getter_func w =
     process_single_resource MAX namespace r1 kind now_utc g state_getter_func w) /\
  (is_schedule_active (get (annotations_of r1) ANNOTATION_SCALE_DOWN) now_utc = true ->
   forall w,
     process_single_resource MAX namespace r1 kind now_utc f state_getter_func w =
     process_single_resource MAX namespace r2 kind now_utc g state_getter_func w).
Proof.
  assert (Hsame : forall w,
     process_single_resource MAX namespace r1 kind now_utc f state_getter_func w =
     process_single_resource MAX namespace r1 kind now_utc g state_getter_func w).
  { intros w. unfold process_single_resource.
    destruct (get_is (annotations_of r1) ANNOTATION_NS_CONTROL "Disable"); [reflexivity|].
    destruct (is_schedule_active (get (annotations_of r1) ANNOTATION_SCALE_DOWN) now_utc).
    - rewrite !bind_log. unfold try_exception, bind.
      destruct (state_getter_func namespace (w_name r1) w) as [[current_state w1] ev1].
      destruct current_state as [[[|e d]|]|exn]; try reflexivity.
      destruct (backup_state MAX namespace kind (w_name r1) (e :: d) w1) as [[saved w2] ev2].
      destruct saved; [|reflexivity].
      now rewrite Hagree.
    - destruct (is_schedule_active (get (annotations_of r1) ANNOTATION_SCALE_UP) now_utc);
        [|reflexivity].
      rewrite !bind_log. unfold try_exception, bind.
      destruct (find_latest_backup_state namespace kind (w_name r1) w)
        as [[found w1] ev1].
      destruct found as [restored|exn]; [|reflexivity].
      destruct (negb (truthy restored)); [reflexivity|].
      now rewrite Hagree. }
  split; [exact Hsame|].
  intros Hactive w.
  rewrite Hsame.
  unfold process_single_resource, get_is.
  rewrite <- Hcontrol, <- Hdown, <- Hname.
  rewrite Hactive.
  reflexivity.
Qed.

Lemma one_direction_per_tick_witness :
  let now := mkdt 2026 12 11 18 0 7 0 in
  is_schedule_active (get (annotations_of web_both) ANNOTATION_SCALE_DOWN) now = true /\
  is_schedule_active (get (annotations_of web_both) ANNOTATION_SCALE_UP) now = true /\
  process_single_resource 5 "prod" web_both Deployment now
    scale_deployment get_deployment_state (single web_both now) =
  process_single_resource 5 "prod" web_down_only Deployment now
    (down_only scale_deployment) get_deployment_state (single web_both now) /\
  filter is_scale_call
    (events_of (process_single_resource 5 "prod" web_both Deployment now
                  scale_deployment get_deployment_state (single web_both now))) =
  [Called (PatchReplicas Deployment "web" "prod" (VInt 0)) None].
Proof.
  intros now.
  split; [reflexivity|split; [reflexivity|split]].
  - apply (one_direction_per_tick 5 "prod" Deployment now get_deployment_state
             web_both web_down_only scale_deployment (down_only scale_deployment)
             eq_refl eq_refl eq_refl).
    + intros ns name st w. reflexivity.
    + reflexivity.
  - reflexivity.
Defined.

(* ================================================================= *)
(** ** Sorting by creation time *)

Section Sorting.

Context {A : Type} (key : A -> Z).

Lemma insert_sorted_permutation (reverse : bool) (x : A) (l : list A) :
  Permutation (insert_sorted key reverse x l) (x :: l).
Proof.
  induction l as [|y r IH]; simpl; [apply Permutation_refl|].
  destruct (if reverse then key y <=? key x else key x <=? key y).
  - apply Permutation_refl.
  - apply perm_trans with (y :: x :: r); [now apply perm_skip|apply perm_swap].
Qed.

Lemma sorted_permutation (reverse : bool) (l : list A) :
  Permutation (sorted key reverse l) l.
Proof.
  induction l as [|x l IH]; simpl; [apply perm_nil|].
  apply perm_trans with (x :: sorted key reverse l).
  - apply insert_sorted_permutation.
  - now apply perm_skip.
Qed.

Lemma sorted_length (reverse : bool) (l : list A) :
  List.length (sorted key reverse l) = List.length l.
Proof.
  apply Permutation_length, sorted_permutation.
Qed.

Lemma insert_sorted_ascending (x : A) (l : list A) :
  StronglySorted (key_le key) l -> StronglySorted (key_le key) (insert_sorted key false x l).
Proof.
  induction l as [|y r IH]; simpl; intros Hs.
  - constructor; constructor.
  - inversion Hs as [|? ? Hr Hy]; subst.
    destruct (key x <=? key y) eqn:E.
    + apply Z.leb_le in E.
      constructor; [assumption|].
      constructor; [exact E|].
      eapply Forall_impl; [|exact Hy].
      unfold key_le. intros a Ha. lia.
    + apply Z.leb_gt in E.
      constructor; [now apply IH|].
      eapply Permutation_Forall.
      * apply Permutation_sym, insert_sorted_permutation.
      * constructor; [unfold key_le; lia|assumption].
Qed.

Lemma sorted_ascending (l : list A) : StronglySorted (key_le key) (sorted key false l).
Proof.
  induction l as [|x l IH]; simpl; [constructor|].
  now apply insert_sorted_ascending.
Qed.

Lemma ascending_app (a b : list A) :
  StronglySorted (key_le key) (a ++ b) ->
  forall x y, In x a -> In y b -> key x <= key y.
Proof.
  induction a as [|h a IH]; simpl; intros Hs x y Hx Hy; [contradiction|].
  inversion Hs as [|? ? Hrest Hh]; subst.
  destruct Hx as [->|Hx].
  - rewrite Forall_forall in Hh. apply Hh, in_or_app. now right.
  - now apply IH.
Qed.

End Sorting.

Lemma filter_filter {A} (p q : A -> bool) (l : list A) :
  filter p (filter q l) = filter (fun x => q x && p x)%bool l.
Proof.
  induction l as [|a l IH]; simpl; [reflexivity|].
  destruct (q a); simpl; [|exact IH].
  destruct (p a); now rewrite IH.
Qed.

Lemma filter_permutation {A} (p : A -> bool) (l l' : list A) :
  Permutation l l' -> Permutation (filter p l) (filter p l').
Proof.
  induction 1 as [|x l l' H IH|x y l|l l' l'' H1 IH1 H2 IH2]; simpl.
  - apply perm_nil.
  - destruct (p x); [now apply perm_skip|assumption].
  - destruct (p x), (p y); try apply Permutation_refl. apply perm_swap.
  - now apply perm_trans with (filter p l').
Qed.

Lemma filter_all {A} (p : A -> bool) (l : list A) :
  (forall x, In x l -> p x = true) -> filter p l = l.
Proof.
  induction l as [|a l IH]; simpl; intros H; [reflexivity|].
  rewrite (H a) by now left.
  f_equal. apply IH. intros x Hx. apply H. now right.
Qed.

Lemma filter_none {A} (p : A -> bool) (l : list A) :
  (forall x, In x l -> p x = false) -> filter p l = [].
Proof.
  induction l as [|a l IH]; simpl; intros H; [reflexivity|].
  rewrite (H a) by now left.
  apply IH. intros x Hx. apply H. now right.
Qed.

(* ================================================================= *)
(** ** The pruning loop *)

Lemma filter_absent (namespace name : string) (cms : list ConfigMap) :
  existsb (same_config_map namespace name) cms = false ->
  filter (fun cm => negb (same_config_map namespace name cm)) cms = cms.
Proof.
  intros H. apply filter_all. intros x Hx.
  destruct (same_config_map namespace name x) eqn:E; [|reflexivity].
  assert (existsb (same_config_map namespace name) cms = true)
    by (apply existsb_exists; eauto).
  congruence.
Qed.

Lemma prune_one_spec (namespace : string) (cm : ConfigMap) (w : World) :
  exists outcome,
    result_of (prune_one namespace cm w) = Ok tt /\
    calls (events_of (prune_one namespace cm w)) =
      [(DeleteConfigMap (cm_name cm) namespace, outcome)] /\
    Forall (fun e => is_scale_call e = false) (events_of (prune_one namespace cm w)) /\
    workloads (world_of (prune_one namespace cm w)) = workloads w /\
    faults (world_of (prune_one namespace cm w)) = faults w /\
    config_maps (world_of (prune_one namespace cm w)) =
      if unrefused w namespace cm
      then filter (fun x => negb (same_config_map namespace (cm_name cm) x)) (config_maps w)
      else config_maps w.
Proof.
  unfold prune_one. rewrite bind_log.
  unfold try_api, delete_namespaced_config_map, api, unrefused, log,
    result_of, world_of, events_of.
  destruct (faults w (DeleteConfigMap (cm_name cm) namespace)) as [st|] eqn:Hf.
  - exists (Some st). cbn -[append]. repeat split. repeat constructor.
  - destruct (existsb (same_config_map namespace (cm_name cm)) (config_maps w)) eqn:Hex.
    + exists None. cbn -[append]. repeat split. repeat constructor.
    + exists (Some 404). cbn -[append]. repeat split; [repeat constructor|].
      symmetry. now apply filter_absent.
Qed.

Lemma calls_app (a b : list Event) : calls (a ++ b) = (calls a ++ calls b)%list.
Proof. apply flat_map_app. Qed.

Lemma prune_loop_spec (namespace : string) (doomed : list ConfigMap) :
  forall w,
    let x := for_each doomed (prune_one namespace) w in
    result_of x = Ok tt /\
    map fst (calls (events_of x)) =
      map (fun cm => DeleteConfigMap (cm_name cm) namespace) doomed /\
    Forall (fun e => is_scale_call e = false) (events_of x) /\
    workloads (world_of x) = workloads w /\
    faults (world_of x) = faults w /\
    config_maps (world_of x) =
      filter (fun cm => negb (named_in namespace (filter (unrefused w namespace) doomed) cm))
             (config_maps w).
Proof.
  induction doomed as [|d doomed IH]; intros w x; subst x.
  - cbn. repeat split; [constructor|].
    symmetry. now apply filter_all.
  - destruct (prune_one_spec namespace d w) as (o & Hr & Hc & Hs & Hw & Hf & Hcm).
    cbn [for_each].
    rewrite (bind_ok _ _ w (world_of (prune_one namespace d w)) tt
               (events_of (prune_one namespace d w)))
      by (rewrite (surjective_triple (prune_one namespace d w)) at 1; now rewrite Hr).
    destruct (IH (world_of (prune_one namespace d w))) as (Hr' & Hc' & Hs' & Hw' & Hf' & Hcm').
    unfold result_of, world_of, events_of in *. cbn [fst snd] in *.
    split; [exact Hr'|].
    split; [rewrite calls_app, map_app, Hc, Hc'; reflexivity|].
    split; [apply Forall_app; now split|].
    split; [congruence|].
    split; [congruence|].
    rewrite Hcm', Hcm.
    assert (Hun : forall c, unrefused (snd (fst (prune_one namespace d w))) namespace c
                            = unrefused w namespace c)
      by (intros c; unfold unrefused; now rewrite Hf).
    rewrite (filter_ext _ _ Hun).
    cbn [filter].
    destruct (unrefused w namespace d).
    + rewrite filter_filter. apply filter_ext.
      intros a. cbn. now rewrite negb_orb.
    + reflexivity.
Qed.

Lemma NoDup_app_disjoint {A} (l1 l2 : list A) (x : A) :
  NoDup (l1 ++ l2) -> In x l1 -> In x l2 -> False.
Proof.
  induction l1 as [|a l1 IH]; simpl; intros Hnd H1 H2; [contradiction|].
  inversion Hnd as [|? ? Hnotin Hnd']; subst.
  destruct H1 as [->|H1].
  - apply Hnotin, in_or_app. now right.
  - now apply IH.
Qed.

Lemma slice_to_negative {A} (k : Z) (l : list A) :
  0 < k -> slice_to (- k) l = firstn (Z.to_nat (Z.of_nat (List.length l) - k)) l.
Proof.
  intros Hk. unfold slice_to.
  assert ((- k <? 0) = true) as -> by (apply Z.ltb_lt; lia).
  f_equal.
Qed.

Lemma prune_old_backups_run (MAX : Z) (namespace : string) (kind : Kind) (name : string)
    (w : World) :
  0 < MAX ->
  faults w (ListConfigMaps namespace kind name) = None ->
  let items := filter (selected namespace kind name) (config_maps w) in
  let listing := Called (ListConfigMaps namespace kind name) None in
  prune_old_backups MAX namespace kind name w =
  if Z.of_nat (List.length items) <=? MAX then (Ok tt, w, [listing])
  else
    let x := for_each (cms_to_delete MAX items) (prune_one namespace) w in
    (Ok tt, world_of x, listing :: events_of x).
Proof.
  intros Hpos Hlist items listing.
  unfold prune_old_backups.
  assert ((MAX <=? 0) = false) as -> by (apply Z.leb_gt; lia).
  unfold try_api.
  rewrite (bind_ok _ _ w w items [listing])
    by (unfold list_namespaced_config_map, api; now rewrite Hlist).
  fold items.
  destruct (Z.of_nat (List.length items) <=? MAX); [reflexivity|].
  change (for_each (cms_to_delete MAX items) _) with
    (for_each (cms_to_delete MAX items) (prune_one namespace)).
  destruct (prune_loop_spec namespace (cms_to_delete MAX items) w) as (Hr & _).
  rewrite Hr. reflexivity.
Qed.

(* ================================================================= *)
(** ** Retention *)

(** C2: let [n] snapshots carry the labels of a resource and let the
    listing succeed.  With a limit of 0 or less, pruning does nothing.
    With a positive limit and [n] within it, nothing is deleted.  With
    [n] above a positive limit and every listed snapshot carrying its
    creation time (so that the sort compares them), the deletes issued
    are those of the first [n - MAX] snapshots in ascending order of
    creation time and of no other: every snapshot selected is at most as
    recent as every snapshot kept, and [MAX] are kept; when no delete is
    refused and snapshot names are unique, the snapshots of the resource
    left in the store are exactly the [MAX] kept ones. *)
Theorem prune_old_backups_retention
    (MAX : Z) (namespace : string) (kind : Kind) (name : string) (w : World)
    (Hlist : faults w (ListConfigMaps namespace kind name) = None) :
  let items := filter (selected namespace kind name) (config_maps w) in
  let n := Z.of_nat (List.length items) in
  let x := prune_old_backups MAX namespace kind name w in
  (MAX <= 0 -> x = (Ok tt, w, [])) /\
  (0 < MAX -> n <= MAX ->
   x = (Ok tt, w, [Called (ListConfigMaps namespace kind name) None])) /\
  (0 < MAX -> MAX < n -> dated items ->
   exists doomed kept,
     sorted creation_key false items = (doomed ++ kept)%list /\
     Permutation items (doomed ++ kept) /\
     Z.of_nat (List.length doomed) = n - MAX /\
     Z.of_nat (List.length kept) = MAX /\
     (forall d k, In d doomed -> In k kept -> creation_key d <= creation_key k) /\
     result_of x = Ok tt /\
     map fst (calls (events_of x)) =
       ListConfigMaps namespace kind name ::
       map (fun cm => DeleteConfigMap (cm_name cm) namespace) doomed /\
     ((forall d, In d doomed -> unrefused w namespace d = true) ->
      NoDup (map cm_name items) ->
      Permutation (filter (selected namespace kind name) (config_maps (world_of x))) kept)).
Proof.
  intros items n x.
  split; [|split].
  - intros Hoff. subst x. unfold prune_old_backups.
    assert ((MAX <=? 0) = true) as -> by (apply Z.leb_le; lia).
    reflexivity.
  - intros Hpos Hle. subst x.
    rewrite prune_old_backups_run by assumption.
    fold items. fold n.
    assert ((n <=? MAX) = true) as -> by (apply Z.leb_le; lia).
    reflexivity.
  - intros Hpos Hgt Hdated.
    set (k := Z.to_nat (n - MAX)).
    set (srt := sorted creation_key false items).
    exists (firstn k srt), (skipn k srt).
    assert (Hlen : List.length srt = List.length items) by apply sorted_length.
    assert (Hdoomed : cms_to_delete MAX items = firstn k srt).
    { unfold cms_to_delete. rewrite slice_to_negative by assumption.
      fold srt. rewrite Hlen. reflexivity. }
    assert (Hperm : Permutation items (firstn k srt ++ skipn k srt)).
    { rewrite firstn_skipn. apply Permutation_sym, sorted_permutation. }
    assert (Hrun : x = (Ok tt,
                        world_of (for_each (firstn k srt) (prune_one namespace) w),
                        Called (ListConfigMaps namespace kind name) None ::
                        events_of (for_each (firstn k srt) (prune_one namespace) w))).
    { subst x. rewrite prune_old_backups_run by assumption.
      fold items. fold n.
      assert ((n <=? MAX) = false) as -> by (apply Z.leb_gt; lia).
      cbv zeta. now rewrite Hdoomed. }
    destruct (prune_loop_spec namespace (firstn k srt) w) as (_ & Hcalls & _ & _ & _ & Hcms).
    split; [symmetry; apply firstn_skipn|].
    split; [exact Hperm|].
    split; [rewrite length_firstn, Hlen; subst k n; lia|].
    split; [rewrite length_skipn, Hlen; subst k n; lia|].
    split.
    { apply ascending_app. rewrite firstn_skipn. apply sorted_ascending. }
    rewrite Hrun.
    split; [reflexivity|].
    split.
    { unfold events_of at 1. cbn [snd calls flat_map app map fst].
      f_equal. exact Hcalls. }
    intros Hunrefused Hnames.
    unfold world_of at 1. cbn [fst snd].
    rewrite Hcms.
    rewrite (filter_all (unrefused w namespace)) by assumption.
    rewrite filter_filter.
    rewrite (filter_ext _ (fun cm => selected namespace kind name cm &&
                                     negb (named_in namespace (firstn k srt) cm))%bool)
      by (intros a; apply andb_comm).
    rewrite <- filter_filter. fold items.
    apply perm_trans with
      (filter (fun cm => negb (named_in namespace (firstn k srt) cm))
              (firstn k srt ++ skipn k srt)).
    { now apply filter_permutation. }
    rewrite filter_app.
    assert (Hitem : forall c, In c (firstn k srt ++ skipn k srt) ->
                              String.eqb (cm_namespace c) namespace = true).
    { intros c Hc.
      apply (Permutation_in _ (Permutation_sym Hperm)) in Hc.
      unfold items in Hc. apply filter_In in Hc as [_ Hsel].
      unfold selected in Hsel.
      now repeat (apply andb_true_iff in Hsel as [Hsel _]). }
    rewrite filter_none, filter_all; [apply Permutation_refl| |].
    + intros c Hc.
      destruct (named_in namespace (firstn k srt) c) eqn:E; [|reflexivity].
      exfalso.
      unfold named_in in E. apply existsb_exists in E as (d & Hd & Hsame).
      unfold same_config_map in Hsame.
      apply andb_true_iff in Hsame as [_ Hsame]. apply String.eqb_eq in Hsame.
      apply (NoDup_app_disjoint (map cm_name (firstn k srt)) (map cm_name (skipn k srt))
               (cm_name c)).
      * rewrite <- map_app.
        eapply Permutation_NoDup; [|exact Hnames].
        now apply Permutation_map.
      * rewrite Hsame. now apply in_map.
      * now apply in_map.
    + intros c Hc.
      apply negb_false_iff.
      unfold named_in. apply existsb_exists.
      exists c. split; [exact Hc|].
      unfold same_config_map. rewrite String.eqb_refl, andb_true_r.
      apply Hitem, in_or_app. now left.
Qed.

Lemma prune_old_backups_retention_witness :
  let x := prune_old_backups 5 "prod" Deployment "web" seven_snapshots in
  List.length (config_maps seven_snapshots) = 7%nat /\
  map fst (calls (events_of x)) =
    [ListConfigMaps "prod" Deployment "web";
     DeleteConfigMap "ks-backup-deployment-web-20261211-180100" "prod";
     DeleteConfigMap "ks-backup-deployment-web-20261211-180200" "prod"] /\
  map cm_name (config_maps (world_of x)) =
    ["ks-backup-deployment-web-20261211-180300"; "ks-backup-deployment-web-20261211-180700";
     "ks-backup-deployment-web-20261211-180600"; "ks-backup-deployment-web-20261211-180400";
     "ks-backup-deployment-web-20261211-180500"] /\
  exists doomed kept,
    Z.of_nat (List.length doomed) = 2 /\
    Z.of_nat (List.length kept) = 5 /\
    (forall d k, In d doomed -> In k kept -> creation_key d <= creation_key k) /\
    Permutation (filter (selected "prod" Deployment "web") (config_maps (world_of x))) kept.
Proof.
  intros x.
  split; [reflexivity|split; [reflexivity|split; [reflexivity|]]].
  destruct (prune_old_backups_retention 5 "prod" Deployment "web" seven_snapshots eq_refl)
    as (_ & _ & Hsurplus).
  destruct Hsurplus as (doomed & kept & _ & _ & Hd & Hk & Hord & _ & _ & Hleft);
    [reflexivity|reflexivity| |].
  { intros cm Hin. vm_compute in Hin.
    repeat (destruct Hin as [<-|Hin]; [discriminate|]).
    destruct Hin. }
  exists doomed, kept.
  split; [exact Hd|split; [exact Hk|split; [exact Hord|]]].
  apply Hleft.
  - intros d _. reflexivity.
  - vm_compute.
    repeat (constructor; [simpl; intuition discriminate|]).
    constructor.
Defined.

(* ================================================================= *)
(** ** Backup before scale-down *)

Lemma prune_old_backups_quiet (MAX : Z) (namespace : string) (kind : Kind) (name : string)
    (w : World) :
  let x := prune_old_backups MAX namespace kind name w in
  result_of x = Ok tt /\ quiet (events_of x) /\ workloads (world_of x) = workloads w.
Proof.
  intros x. subst x.
  destruct (Z.leb_spec MAX 0) as [Hoff|Hpos].
  - unfold prune_old_backups.
    assert ((MAX <=? 0) = true) as -> by (apply Z.leb_le; lia).
    cbn. repeat split. constructor.
  - destruct (faults w (ListConfigMaps namespace kind name)) as [st|] eqn:Hlist.
    + unfold prune_old_backups.
      assert ((MAX <=? 0) = false) as -> by (apply Z.leb_gt; lia).
      unfold try_api, bind, list_namespaced_config_map, api. rewrite Hlist.
      cbn -[append]. repeat split. repeat constructor.
    + rewrite prune_old_backups_run by assumption.
      destruct (Z.of_nat (List.length (filter (selected namespace kind name) (config_maps w)))
                <=? MAX).
      * cbn. repeat split. repeat constructor.
      * destruct (prune_loop_spec namespace
                    (cms_to_delete MAX (filter (selected namespace kind name) (config_maps w)))
                    w) as (_ & _ & Hq & Hw & _).
        cbn. repeat split; [|exact Hw].
        constructor; [reflexivity|exact Hq].
Qed.

Lemma bind_raise {A B} (m : M A) (k : A -> M B) (w w1 : World) (e : Exn)
    (ev1 : list Event) :
  m w = (Raise e, w1, ev1) -> bind m k w = (Raise e, w1, ev1).
Proof.
  intros H. unfold bind. now rewrite H.
Qed.

Lemma try_api_raise {A} (m : M A) (h : Z -> M A) (w w1 : World) (st : Z)
    (ev1 : list Event) :
  m w = (Raise (ApiException st), w1, ev1) ->
  try_api m h w = (result_of (h st w1), world_of (h st w1), (ev1 ++ events_of (h st w1))%list).
Proof.
  intros H. unfold try_api, result_of, world_of, events_of. rewrite H.
  now destruct (h st w1) as [[r w2] ev2].
Qed.

Lemma create_namespaced_config_map_cases (namespace : string) (body : ConfigMap) (w : World) :
  (exists st,
     create_namespaced_config_map namespace body w =
     (Raise (ApiException st), w, [Called (CreateConfigMap namespace body) (Some st)])) \/
  (exists w1,
     create_namespaced_config_map namespace body w =
     (Ok tt, w1, [Called (CreateConfigMap namespace body) None]) /\
     workloads w1 = workloads w).
Proof.
  unfold create_namespaced_config_map, api.
  destruct (faults w (CreateConfigMap namespace body)) as [st|].
  - left. now exists st.
  - destruct (existsb (same_config_map namespace (cm_name body)) (config_maps w)).
    + left. now exists 409.
    + right. eexists. split; reflexivity.
Qed.

Lemma backup_state_spec (MAX : Z) (namespace : string) (kind : Kind) (name : string)
    (state : Dict Value) (w : World) :
  let x := backup_state MAX namespace kind name state w in
  result_of x = Ok tt /\
  workloads (world_of x) = workloads w /\
  exists outcome rest,
    events_of x =
      Called (CreateConfigMap namespace (backup_body namespace kind name state (clock w)))
             outcome :: rest /\
    quiet rest.
Proof.
  intros x. subst x.
  unfold backup_state.
  rewrite (bind_ok _ _ w w (clock w) []) by reflexivity.
  cbv zeta.
  set (body := backup_body namespace kind name state (clock w)).
  destruct (create_namespaced_config_map_cases namespace body w)
    as [(st & Hcreate)|(w1 & Hcreate & Hw1)].
  - rewrite (try_api_raise _ _ w w st [Called (CreateConfigMap namespace body) (Some st)])
      by (now apply bind_raise).
    cbn -[append]. repeat split.
    eexists. eexists. split; [reflexivity|repeat constructor].
  - destruct (prune_old_backups_quiet MAX namespace kind name w1) as (Hr & Hq & Hw).
    pose proof (surjective_triple (prune_old_backups MAX namespace kind name w1)) as Hp.
    rewrite Hr in Hp.
    rewrite (try_api_ok _ _ w (world_of (prune_old_backups MAX namespace kind name w1)) tt
               (Called (CreateConfigMap namespace body) None ::
                Logged INFO ("State for " ++ kind_str kind ++ " " ++ name
                             ++ " saved in ConfigMap '" ++ cm_name body ++ "'.") ::
                events_of (prune_old_backups MAX namespace kind name w1))).
    + cbn -[append]. repeat split; [congruence|].
      eexists. eexists. split; [reflexivity|].
      constructor; [reflexivity|exact Hq].
    + rewrite (bind_ok _ _ _ _ _ _ Hcreate).
      rewrite bind_log.
      rewrite Hp at 1 2 3.
      reflexivity.
Qed.

Lemma state_getter_spec (kind : Kind) (namespace name : string) (w : World) :
  let x := snd (resource_processors kind) namespace name w in
  world_of x = w /\ quiet (events_of x) /\
  (result_of x = Ok None \/ exists e, result_of x = Ok (Some [e])).
Proof.
  intros x. subst x.
  destruct kind; cbn [snd resource_processors];
    unfold get_deployment_state, get_statefulset_state, get_hpa_state, get_cronjob_state,
      try_api, bind, read_workload, api;
    match goal with
    | |- context [faults w ?c] => destruct (faults w c) as [st|]
    end;
    try (destruct (st =? 404));
    try (match goal with
         | |- context [find ?p ?l] => destruct (find p l)
         end);
    cbn; (split; [reflexivity|split; [repeat constructor|]]);
    first [left; reflexivity|right; eexists; reflexivity].
Qed.

Lemma scaler_down_spec (kind : Kind) (namespace name : string)
    (state : option (Dict Value)) (w : World) :
  let x := fst (resource_processors kind) namespace name down state w in
  result_of x = Ok tt /\
  exists outcome,
    filter is_scale_call (events_of x) =
    [Called (scale_down_call kind name namespace) outcome].
Proof.
  intros x. subst x.
  destruct kind; cbn [fst resource_processors scale_down_call];
    unfold scale_deployment, scale_statefulset, scale_hpa, scale_cronjob,
      target_replicas, target_suspend, patch_replicas, patch_suspend, delete_autoscaler,
      patch_workload, try_api, bind, log, api;
    match goal with
    | |- context [faults w ?c] => destruct (faults w c) as [st|]
    end;
    try (destruct (st =? 403));
    try (destruct (st =? 404));
    try (match goal with
         | |- context [find ?p ?l] => destruct (find p l)
         end);
    cbn -[append]; split; eauto.
Qed.

Lemma filter_quiet (evs : list Event) : quiet evs -> filter is_scale_call evs = [].
Proof.
  intros H. apply filter_none. now apply Forall_forall.
Qed.

Lemma process_item_table (MAX : Z) (namespace : string) (item : Workload) (kind : Kind)
    (now_utc : datetime) :
  process_item MAX namespace item kind now_utc =
  process_single_resource MAX namespace item kind now_utc
    (fst (resource_processors kind)) (snd (resource_processors kind)).
Proof.
  unfold process_item. now destruct (resource_processors kind).
Qed.

(** what the state getter of a kind answers: the state of the workload
    it read, or nothing when the read is refused or finds no workload *)
Lemma state_getter_cases (kind : Kind) (namespace name : string) (w : World) :
  (exists e, snd (resource_processors kind) namespace name w =
             (Ok (Some [e]), w, [Called (ReadWorkload kind name namespace) None])) \/
  (exists st, snd (resource_processors kind) namespace name w =
              (Ok None, w, [Called (ReadWorkload kind name namespace) (Some st)])).
Proof.
  destruct kind; cbn [snd resource_processors];
    unfold get_deployment_state, get_statefulset_state, get_hpa_state, get_cronjob_state,
      try_api, bind, read_workload, api;
    match goal with
    | |- context [faults w ?c] => destruct (faults w c) as [st|]
    end;
    try (destruct (st =? 404));
    try (match goal with
         | |- context [find ?p ?l] => destruct (find p l)
         end);
    cbn;
    first [left; eexists; reflexivity|right; eexists; reflexivity].
Qed.

(** X22: the save precedes the scale-down call.  When the scale-down
    schedule of a resource that is not opted out is active, in a store
    whose backups of the resource all carry their creation time, the
    tick never raises.  If the state of the resource is read, the
    create of a backup ConfigMap holding that state is issued before
    any scale call, and exactly one scale call, the down-scaling one of
    the kind, follows it, whether or not the create succeeded.  If the
    state cannot be read, the refused read is the only call of the
    tick: neither a backup nor a scale call is issued. *)
Theorem backup_precedes_scale_down
    (MAX : Z) (namespace : string) (item : Workload) (kind : Kind) (now_utc : datetime)
    (w : World)
    (Henabled : get_is (annotations_of item) ANNOTATION_NS_CONTROL "Disable" = false)
    (Hactive : is_schedule_active (get (annotations_of item) ANNOTATION_SCALE_DOWN) now_utc
               = true)
    (Hdated : dated (filter (selected namespace kind (w_name item)) (config_maps w))) :
  let x := process_item MAX namespace item kind now_utc w in
  result_of x = Ok tt /\
  match result_of (snd (resource_processors kind) namespace (w_name item) w) with
  | Ok (Some state) =>
      exists pre outcome post scale_outcome,
        events_of x =
          (pre ++
           Called (CreateConfigMap namespace
                     (backup_body namespace kind (w_name item) state (clock w))) outcome
           :: post)%list /\
        calls pre = [(ReadWorkload kind (w_name item) namespace, None)] /\
        filter is_scale_call post =
          [Called (scale_down_call kind (w_name item) namespace) scale_outcome]
  | _ =>
      exists st,
        calls (events_of x) = [(ReadWorkload kind (w_name item) namespace, Some st)]
  end.
Proof.
  intros x. subst x.
  rewrite process_item_table.
  destruct (process_single_resource_down MAX namespace item kind now_utc
              (fst (resource_processors kind)) (snd (resource_processors kind))
              Henabled Hactive) as (msg & err & ->).
  rewrite bind_log.
  set (getter := snd (resource_processors kind)) in *.
  destruct (state_getter_cases kind namespace (w_name item) w) as [(e & Hg)|(st & Hg)];
    fold getter in Hg; rewrite Hg.
  - destruct (backup_state_spec MAX namespace kind (w_name item) [e] w)
      as (Hbr & _ & outcome & rest & Hbe & Hbq).
    pose proof (surjective_triple (backup_state MAX namespace kind (w_name item) [e] w)) as Hb.
    rewrite Hbr, Hbe in Hb.
    set (w1 := world_of (backup_state MAX namespace kind (w_name item) [e] w)) in *.
    destruct (scaler_down_spec kind namespace (w_name item) None w1)
      as (Hsr & scale_outcome & Hse).
    set (scaler := fst (resource_processors kind)) in *.
    pose proof (surjective_triple (scaler namespace (w_name item) down None w1)) as Hs.
    rewrite Hsr in Hs.
    rewrite (try_exception_ok _ _ w
               (world_of (scaler namespace (w_name item) down None w1)) tt
               ([Called (ReadWorkload kind (w_name item) namespace) None] ++
                (Called (CreateConfigMap namespace
                           (backup_body namespace kind (w_name item) [e] (clock w))) outcome
                 :: rest) ++
                events_of (scaler namespace (w_name item) down None w1))).
    + unfold result_of, events_of at 1. cbn [fst snd].
      split; [reflexivity|].
      exists [Logged INFO msg; Called (ReadWorkload kind (w_name item) namespace) None],
        outcome, (rest ++ events_of (scaler namespace (w_name item) down None w1))%list,
        scale_outcome.
      split; [reflexivity|].
      split; [reflexivity|].
      rewrite filter_app, (filter_quiet rest Hbq). exact Hse.
    + rewrite (bind_ok _ _ _ _ _ _ Hg).
      rewrite (bind_ok _ _ _ _ _ _ Hb).
      rewrite Hs at 1 2 3.
      unfold result_of, world_of, events_of. cbn [fst snd].
      reflexivity.
  - rewrite (try_exception_ok _ _ w w tt
               ([Called (ReadWorkload kind (w_name item) namespace) (Some st)] ++ []))
      by (now rewrite (bind_ok _ _ _ _ _ _ Hg)).
    unfold result_of, events_of. cbn [fst snd].
    split; [reflexivity|].
    exists st. reflexivity.
Qed.

Lemma backup_precedes_scale_down_witness :
  let now := mkdt 2026 12 11 18 0 7 0 in
  let x := process_item 5 "prod" web Deployment now (single web now) in
  result_of x = Ok tt /\
  exists pre outcome post scale_outcome,
    events_of x =
      (pre ++
       Called (CreateConfigMap "prod"
                 (backup_body "prod" Deployment "web" [("replicas", VInt 4)] now)) outcome
       :: post)%list /\
    calls pre = [(ReadWorkload Deployment "web" "prod", None)] /\
    filter is_scale_call post =
      [Called (PatchReplicas Deployment "web" "prod" (VInt 0)) scale_outcome].
Proof.
  intros now x.
  apply (backup_precedes_scale_down 5 "prod" web Deployment now (single web now)
           eq_refl eq_refl).
  intros cm [].
Defined.

(* ================================================================= *)
(** ** The end-to-end scenario *)

(** A Deployment with four replicas whose scale-down schedule matches
    the current minute is backed up as [{replicas: 4}] and patched to 0
    replicas; at the scale-up minute of the next morning it is patched
    back to 4 replicas. *)
Example deployment_hibernates_and_wakes :
  let evening := mkdt 2026 12 11 18 0 7 0 in
  let morning := mkdt 2026 12 12 8 0 7 0 in
  let night := world_of (process_item 5 "prod" web Deployment evening (single web evening)) in
  let day := process_item 5 "prod" web Deployment morning (set_clock morning night) in
  map cm_data (config_maps night) = [Some [("deployment-web", JsonText [("replicas", VInt 4)])]] /\
  map w_spec (workloads night) = [ReplicaSpec (Some 0)] /\
  map fst (calls (events_of day)) =
    [ListConfigMaps "prod" Deployment "web"; PatchReplicas Deployment "web" "prod" (VInt 4)] /\
  map w_spec (workloads (world_of day)) = [ReplicaSpec (Some 4)].
Proof.
  vm_compute. repeat split.
Qed.

(* ================================================================= *)
(** * Further properties of the operator *)

(** ** The time token *)

Lemma assign_time_spec (sp : ScheduleSpec) (part : string) :
  time_spec (assign sp part) = time_spec sp.
Proof.
  unfold assign. destruct (classify part) as [[]|]; reflexivity.
Qed.

Lemma fold_assign_time_spec (parts : list string) (sp : ScheduleSpec) :
  time_spec (fold_left assign parts sp) = time_spec sp.
Proof.
  revert sp. induction parts as [|p parts IH]; intros sp; simpl; [reflexivity|].
  now rewrite IH, assign_time_spec.
Qed.

Lemma split_not_nil (sep : ascii) (s : string) : PyStr.split sep s <> [].
Proof.
  destruct s as [|c r]; simpl; [discriminate|].
  destruct (Ascii.eqb c sep); [discriminate|].
  destruct (PyStr.split sep r); discriminate.
Qed.

Lemma parse_schedule_time_spec (s : string) :
  time_spec (parse_schedule s) =
  if PyStr.has_char ":" (final_token s) then Some (final_token s) else None.
Proof.
  rewrite parse_schedule_parts. unfold parse_parts, take_time, final_token.
  destruct (map normalise (PyStr.split ";" s)) as [|p ps] eqn:E.
  - apply map_eq_nil in E. now apply split_not_nil in E.
  - rewrite <- E, last_map_normalise.
    destruct (PyStr.has_char ":" (normalise (last (PyStr.split ";" s) "")));
      now rewrite fold_assign_time_spec.
Qed.

(** X1: a schedule fires only in the minute its final token names: if
    the annotation is active, its final token, trimmed and lower-cased,
    is the current time formatted [HH:MM]; an annotation whose final
    token holds no colon is never active. *)
Theorem active_only_at_its_minute (s : string) (now_utc : datetime) :
  (is_schedule_active (Some s) now_utc = true -> final_token s = DateTime.fmt_HM now_utc) /\
  (PyStr.has_char ":" (final_token s) = false -> is_schedule_active (Some s) now_utc = false).
Proof.
  assert (Hactive : is_schedule_active (Some s) now_utc = true ->
                    time_spec (parse_schedule s) = Some (DateTime.fmt_HM now_utc)).
  { destruct s as [|c r]; [discriminate|].
    unfold is_schedule_active, spec_active.
    destruct (time_spec (parse_schedule (String c r))) as [t|]; [|discriminate].
    destruct (String.eqb_spec (DateTime.fmt_HM now_utc) t) as [->|]; [reflexivity|].
    discriminate. }
  split.
  - intros H. apply Hactive in H. rewrite parse_schedule_time_spec in H.
    destruct (PyStr.has_char ":" (final_token s)); congruence.
  - intros Hcolon.
    apply not_true_is_false. intros E.
    apply Hactive in E. rewrite parse_schedule_time_spec, Hcolon in E. discriminate.
Qed.

Lemma active_only_at_its_minute_witness :
  final_token "Mon,Tue; 18:30 " = DateTime.fmt_HM (mkdt 2026 12 14 18 30 59 0) /\
  is_schedule_active (Some "2026;Dec;Fri") (mkdt 2026 12 11 9 0 0 0) = false.
Proof.
  split.
  - apply (proj1 (active_only_at_its_minute "Mon,Tue; 18:30 " (mkdt 2026 12 14 18 30 59 0))).
    reflexivity.
  - apply (proj2 (active_only_at_its_minute "2026;Dec;Fri" (mkdt 2026 12 11 9 0 0 0))).
    reflexivity.
Defined.

(** X2: the evaluator looks at the instant to the minute: two instants
    of the same minute of the same day get the same answer, whatever
    their seconds and microseconds. *)
Theorem active_throughout_the_minute
    (annotation : option string) (a b : datetime) (Hsame : same_minute a b) :
  is_schedule_active annotation a = is_schedule_active annotation b.
Proof.
  destruct Hsame as (Hy & Hmo & Hd & Hh & Hmi).
  destruct annotation as [[|c r]|]; try reflexivity.
  unfold is_schedule_active, spec_active.
  assert (DateTime.fmt_HM a = DateTime.fmt_HM b) as ->
    by (unfold DateTime.fmt_HM; now rewrite Hh, Hmi).
  assert (DateTime.fmt_Y a = DateTime.fmt_Y b) as ->
    by (unfold DateTime.fmt_Y; now rewrite Hy).
  assert (DateTime.fmt_b a = DateTime.fmt_b b) as ->
    by (unfold DateTime.fmt_b; now rewrite Hmo).
  assert (DateTime.fmt_a a = DateTime.fmt_a b) as ->
    by (unfold DateTime.fmt_a, DateTime.weekday, DateTime.toordinal; now rewrite Hy, Hmo, Hd).
  now rewrite Hd.
Qed.

Lemma active_throughout_the_minute_witness :
  is_schedule_active (Some "Mon,Tue;18:30") (mkdt 2026 12 14 18 30 59 999999) = true.
Proof.
  rewrite (active_throughout_the_minute (Some "Mon,Tue;18:30")
             (mkdt 2026 12 14 18 30 59 999999) (mkdt 2026 12 14 18 30 0 0)).
  - reflexivity.
  - repeat split.
Defined.

(** ** Schedules that hold a time only *)

Lemma parse_schedule_time_only (t : string) :
  PyStr.has_char ";" t = false ->
  PyStr.has_char ":" t = true ->
  normalise t = t ->
  parse_schedule t = mkSpec "*" "*" "*" "*" (Some t).
Proof.
  intros Hsemi Hcolon Hnorm.
  rewrite parse_schedule_parts, split_without_sep by assumption.
  cbn [map]. rewrite Hnorm.
  unfold parse_parts, take_time. cbn [last removelast].
  now rewrite Hcolon.
Qed.

Lemma digit_is_plain (d : Z) :
  0 <= d < 10 ->
  PyStr.isspace_c (PyStr.digit d) = false /\
  PyStr.lower_c (PyStr.digit d) = PyStr.digit d /\
  Ascii.eqb ";" (PyStr.digit d) = false.
Proof.
  intros Hd.
  assert (Hcases : d = 0 \/ d = 1 \/ d = 2 \/ d = 3 \/ d = 4 \/
                   d = 5 \/ d = 6 \/ d = 7 \/ d = 8 \/ d = 9) by lia.
  repeat (destruct Hcases as [->|Hcases]; [repeat split|]).
  subst d. repeat split.
Qed.

Lemma fmt_HM_is_a_time_token (now_utc : datetime) :
  PyStr.has_char ";" (DateTime.fmt_HM now_utc) = false /\
  PyStr.has_char ":" (DateTime.fmt_HM now_utc) = true /\
  normalise (DateTime.fmt_HM now_utc) = DateTime.fmt_HM now_utc.
Proof.
  unfold DateTime.fmt_HM, PyStr.pad2. cbn [append].
  destruct (digit_is_plain ((dt_hour now_utc / 10) mod 10)) as (Hs1 & Hl1 & He1);
    [apply Z.mod_pos_bound; lia|].
  destruct (digit_is_plain (dt_hour now_utc mod 10)) as (Hs2 & Hl2 & He2);
    [apply Z.mod_pos_bound; lia|].
  destruct (digit_is_plain ((dt_minute now_utc / 10) mod 10)) as (Hs3 & Hl3 & He3);
    [apply Z.mod_pos_bound; lia|].
  destruct (digit_is_plain (dt_minute now_utc mod 10)) as (Hs4 & Hl4 & He4);
    [apply Z.mod_pos_bound; lia|].
  set (a := PyStr.digit ((dt_hour now_utc / 10) mod 10)) in *.
  set (b := PyStr.digit (dt_hour now_utc mod 10)) in *.
  set (c := PyStr.digit ((dt_minute now_utc / 10) mod 10)) in *.
  set (d := PyStr.digit (dt_minute now_utc mod 10)) in *.
  split; [|split].
  - unfold PyStr.has_char. cbn [PyStr.existsb_s].
    rewrite He1, He2, He3, He4. reflexivity.
  - unfold PyStr.has_char. cbn [PyStr.existsb_s].
    rewrite Ascii.eqb_refl. now rewrite !orb_true_r.
  - unfold normalise, PyStr.strip.
    cbn [PyStr.lstrip]. rewrite Hs1.
    cbn [PyStr.rstrip]. rewrite Hs4.
    cbn [PyStr.lower]. rewrite Hl1, Hl2, Hl3, Hl4. reflexivity.
Qed.

(** X3: the current time formatted [HH:MM], taken as a schedule, is
    active now: an annotation that holds a time and nothing else leaves
    the year, month, weekday and day unconstrained and fires in that
    minute of every day. *)
Theorem time_only_schedule_fires_daily (now_utc : datetime) :
  parse_schedule (DateTime.fmt_HM now_utc) =
    mkSpec "*" "*" "*" "*" (Some (DateTime.fmt_HM now_utc)) /\
  is_schedule_active (Some (DateTime.fmt_HM now_utc)) now_utc = true.
Proof.
  destruct (fmt_HM_is_a_time_token now_utc) as (Hsemi & Hcolon & Hnorm).
  pose proof (parse_schedule_time_only _ Hsemi Hcolon Hnorm) as Hparse.
  split; [exact Hparse|].
  unfold is_schedule_active.
  rewrite Hparse.
  unfold spec_active. cbn [time_spec year_spec month_spec day_spec date_spec].
  rewrite String.eqb_refl. cbn.
  unfold DateTime.fmt_HM, PyStr.pad2. cbn [append]. reflexivity.
Qed.

(** ** Letter case *)

Lemma lower_c_facts (c : ascii) :
  PyStr.lower_c (PyStr.lower_c c) = PyStr.lower_c c /\
  PyStr.isspace_c (PyStr.lower_c c) = PyStr.isspace_c c /\
  Ascii.eqb (PyStr.lower_c c) ";" = Ascii.eqb c ";".
Proof.
  destruct c as [[] [] [] [] [] [] [] []]; repeat split.
Qed.

Lemma lower_idempotent (s : string) : PyStr.lower (PyStr.lower s) = PyStr.lower s.
Proof.
  induction s as [|c r IH]; simpl; [reflexivity|].
  rewrite IH. f_equal. apply lower_c_facts.
Qed.

Lemma lower_empty (s : string) : PyStr.lower s = "" <-> s = "".
Proof.
  destruct s; simpl; split; congruence.
Qed.

Lemma lstrip_lower (s : string) : PyStr.lstrip (PyStr.lower s) = PyStr.lower (PyStr.lstrip s).
Proof.
  induction s as [|c r IH]; simpl; [reflexivity|].
  destruct (lower_c_facts c) as (_ & -> & _).
  destruct (PyStr.isspace_c c); [exact IH|reflexivity].
Qed.

Lemma rstrip_lower (s : string) : PyStr.rstrip (PyStr.lower s) = PyStr.lower (PyStr.rstrip s).
Proof.
  induction s as [|c r IH]; simpl; [reflexivity|].
  rewrite IH.
  destruct (lower_c_facts c) as (_ & Hsp & _).
  destruct (PyStr.rstrip r) as [|c' r']; simpl.
  - rewrite Hsp. now destruct (PyStr.isspace_c c).
  - reflexivity.
Qed.

Lemma normalise_lower (p : string) : normalise (PyStr.lower p) = normalise p.
Proof.
  unfold normalise, PyStr.strip.
  now rewrite lstrip_lower, rstrip_lower, lower_idempotent.
Qed.

Lemma split_lower (s : string) :
  PyStr.split ";" (PyStr.lower s) = map PyStr.lower (PyStr.split ";" s).
Proof.
  induction s as [|c r IH]; simpl; [reflexivity|].
  destruct (lower_c_facts c) as (_ & _ & ->).
  rewrite IH.
  destruct (Ascii.eqb c ";"); [reflexivity|].
  now destruct (PyStr.split ";" r).
Qed.

(** X4: schedules are case-insensitive: two annotations that differ
    only in the case of their letters parse to the same schedule and are
    active at the same instants. *)
Theorem schedule_is_case_insensitive
    (s1 s2 : string) (now_utc : datetime) (Hcase : PyStr.lower s1 = PyStr.lower s2) :
  parse_schedule s1 = parse_schedule s2 /\
  is_schedule_active (Some s1) now_utc = is_schedule_active (Some s2) now_utc.
Proof.
  assert (Hlower : forall s, parse_schedule (PyStr.lower s) = parse_schedule s).
  { intros s. rewrite !parse_schedule_parts, split_lower, map_map.
    f_equal. apply map_ext. intros p. apply normalise_lower. }
  assert (Hparse : parse_schedule s1 = parse_schedule s2)
    by (rewrite <- (Hlower s1), <- (Hlower s2); now rewrite Hcase).
  split; [exact Hparse|].
  unfold is_schedule_active. rewrite Hparse.
  destruct s1, s2; try reflexivity; discriminate Hcase.
Qed.

Lemma schedule_is_case_insensitive_witness :
  parse_schedule "2026;DEC;FRI;11;09:00" = parse_schedule "2026;dec;Fri;11;09:00" /\
  is_schedule_active (Some "2026;DEC;FRI;11;09:00") fri_0900 = true.
Proof.
  destruct (schedule_is_case_insensitive "2026;DEC;FRI;11;09:00" "2026;dec;Fri;11;09:00"
              fri_0900 eq_refl) as [Hparse Hactive].
  split; [exact Hparse|].
  rewrite Hactive. reflexivity.
Defined.

(** ** Eligible namespaces *)

Lemma eligible_loop_spec (items : list Namespace) :
  forall (eligible_namespaces : list string) (w : World),
    let x := eligible_loop items eligible_namespaces w in
    result_of x = Ok (eligible_namespaces ++ map ns_name (filter eligible items))%list /\
    world_of x = w /\
    calls (events_of x) = [].
Proof.
  induction items as [|ns rest IH]; intros acc w x; subst x.
  - cbn. now rewrite app_nil_r.
  - cbn [eligible_loop filter]. unfold eligible at 1.
    destruct (PyStr.startswith (ns_name ns) "kube-").
    + rewrite bind_log. specialize (IH acc w). cbn in IH |- *. exact IH.
    + destruct (get_is match ns_annotations ns with
                       | Some a => a
                       | None => []
                       end ANNOTATION_NS_CONTROL "Disable").
      * rewrite bind_log. specialize (IH acc w). cbn in IH |- *. exact IH.
      * specialize (IH (acc ++ [ns_name ns])%list w).
        cbn [negb andb map]. rewrite <- app_assoc in IH. exact IH.
Qed.

Lemma get_eligible_namespaces_outcome (dir : Directory) (w : World) :
  let x := get_eligible_namespaces dir w in
  world_of x = w /\
  calls (events_of x) = [] /\
  match refused dir ListNamespaces with
  | None => result_of x = Ok (map ns_name (filter eligible (namespaces dir)))
  | Some _ => result_of x = Ok [] /\ levels (events_of x) = [ERROR]
  end.
Proof.
  intros x. subst x.
  unfold get_eligible_namespaces, list_namespace.
  destruct (refused dir ListNamespaces) as [st|] eqn:Hr.
  - unfold try_api, bind.
    destruct (st =? 403); cbn; repeat split.
  - destruct (eligible_loop_spec (namespaces dir) [] w) as (Hres & Hw & Hc).
    pose proof (surjective_triple (eligible_loop (namespaces dir) [] w)) as Hx.
    rewrite Hres, Hw in Hx. cbn [app] in Hx.
    rewrite (try_api_ok _ _ w w (map ns_name (filter eligible (namespaces dir)))
               (events_of (eligible_loop (namespaces dir) [] w))).
    + cbn. repeat split. exact Hc.
    + unfold bind. now rewrite Hx.
Qed.

(** X5: [get_eligible_namespaces] never raises and changes nothing.
    When the listing is answered it returns, in the order listed, the
    names of exactly the namespaces whose name does not start with
    [kube-] and whose control annotation is not [Disable]; when the
    listing is refused it returns the empty list and logs one error. *)
Theorem eligible_namespaces_are_the_opted_in (dir : Directory) (w : World) :
  let x := get_eligible_namespaces dir w in
  world_of x = w /\
  calls (events_of x) = [] /\
  match refused dir ListNamespaces with
  | None => result_of x = Ok (map ns_name (filter eligible (namespaces dir)))
  | Some _ => result_of x = Ok [] /\ levels (events_of x) = [ERROR]
  end.
Proof.
  exact (get_eligible_namespaces_outcome dir w).
Qed.


(** ** Restoring the latest backup *)

Section NewestFirst.

Context {A : Type} (key : A -> Z).

Lemma insert_sorted_descending (x : A) (l : list A) :
  StronglySorted (key_ge key) l -> StronglySorted (key_ge key) (insert_sorted key true x l).
Proof.
  induction l as [|y r IH]; simpl; intros Hs.
  - constructor; constructor.
  - inversion Hs as [|? ? Hr Hy]; subst.
    destruct (key y <=? key x) eqn:E.
    + apply Z.leb_le in E.
      constructor; [assumption|].
      constructor; [exact E|].
      eapply Forall_impl; [|exact Hy].
      unfold key_ge. intros a Ha. lia.
    + apply Z.leb_gt in E.
      constructor; [now apply IH|].
      eapply Permutation_Forall.
      * apply Permutation_sym, insert_sorted_permutation.
      * constructor; [unfold key_ge; lia|assumption].
Qed.

Lemma sorted_descending (l : list A) : StronglySorted (key_ge key) (sorted key true l).
Proof.
  induction l as [|x l IH]; simpl; [constructor|].
  now apply insert_sorted_descending.
Qed.

Lemma sorted_newest_first (l rest : list A) (latest : A) :
  sorted key true l = latest :: rest ->
  In latest l /\ forall x, In x l -> key x <= key latest.
Proof.
  intros Hs.
  pose proof (sorted_permutation key true l) as Hperm.
  pose proof (sorted_descending l) as Hdesc.
  rewrite Hs in Hperm, Hdesc.
  split.
  - apply (Permutation_in _ Hperm). now left.
  - intros x Hx.
    apply (Permutation_in _ (Permutation_sym Hperm)) in Hx.
    inversion Hdesc as [|? ? _ Hall]; subst.
    destruct Hx as [->|Hx]; [lia|].
    rewrite Forall_forall in Hall. now apply Hall.
Qed.

Lemma sorted_newest_first_snoc (l : list A) (x : A) :
  (forall y, In y l -> key y < key x) ->
  exists rest, sorted key true (l ++ [x]) = x :: rest.
Proof.
  induction l as [|a l IH]; intros Hlt.
  - now exists [].
  - destruct IH as [rest Hrest]; [intros y Hy; apply Hlt; now right|].
    cbn [app sorted fold_right]. fold (sorted key true (l ++ [x])).
    rewrite Hrest. cbn [insert_sorted].
    assert ((key x <=? key a) = false) as ->
      by (apply Z.leb_gt, Hlt; now left).
    eexists. reflexivity.
Qed.

Lemma insert_sorted_before_max (a x : A) (s : list A) :
  key a <= key x ->
  insert_sorted key false a (s ++ [x]) = (insert_sorted key false a s ++ [x])%list.
Proof.
  intros Hle.
  induction s as [|y r IH]; cbn [app insert_sorted].
  - assert ((key a <=? key x) = true) as -> by (now apply Z.leb_le). reflexivity.
  - destruct (key a <=? key y); [reflexivity|].
    now rewrite IH.
Qed.

Lemma sorted_oldest_first_snoc (l : list A) (x : A) :
  (forall y, In y l -> key y < key x) ->
  sorted key false (l ++ [x]) = (sorted key false l ++ [x])%list.
Proof.
  induction l as [|a l IH]; intros Hlt; [reflexivity|].
  cbn [app sorted fold_right].
  fold (sorted key false (l ++ [x])). fold (sorted key false l).
  rewrite IH by (intros y Hy; apply Hlt; now right).
  apply insert_sorted_before_max.
  assert (key a < key x) by (apply Hlt; now left). lia.
Qed.

End NewestFirst.

Lemma find_latest_backup_state_outcome
    (namespace : string) (kind : Kind) (name : string) (w : World) :
  let x := find_latest_backup_state namespace kind name w in
  let listing := ListConfigMaps namespace kind name in
  let items := filter (selected namespace kind name) (config_maps w) in
  world_of x = w /\
  calls (events_of x) = [(listing, faults w listing)] /\
  (result_of x, levels (events_of x)) =
    match faults w listing with
    | Some _ => (Ok None, [ERROR])
    | None =>
        match items, sorted creation_key true items with
        | [], _ => (Ok None, [INFO])
        | _, [] => (Raise OtherException, [])
        | _, latest_cm :: _ =>
            match backup_entry kind name latest_cm with
            | Some (JsonText d) => (Ok (Some d), [INFO])
            | Some (BadText (String _ _)) => (Ok None, [INFO; ERROR])
            | _ => (Ok None, [WARNING])
            end
        end
    end.
Proof.
  intros x listing items. subst x listing.
  unfold find_latest_backup_state, try_api_json, list_namespaced_config_map, api.
  unfold bind. cbv beta.
  destruct (faults w (ListConfigMaps namespace kind name)) as [st|].
  - cbn. repeat split.
  - fold items.
    destruct items as [|i0 items'] eqn:Hitems; [cbn; repeat split|].
    destruct (sorted creation_key true (i0 :: items')) as [|latest rest];
      [cbn; repeat split|].
    unfold backup_entry.
    destruct (cm_data latest) as [data|]; [|cbn; repeat split].
    destruct (get data (backup_key_name kind name)) as [[d|[|c s]]|]; cbn; repeat split.
Qed.

(** X6: on a store whose snapshots of the resource all carry their
    creation time, [find_latest_backup_state] returns and does not
    change the cluster; its only call is the listing of the backups of
    the resource.  When it returns a state, that state is the decoded
    entry of a snapshot of the resource that no other snapshot of the
    resource is more recent than. *)
Theorem restore_reads_a_newest_snapshot
    (namespace : string) (kind : Kind) (name : string) (w : World)
    (Hdated : dated (filter (selected namespace kind name) (config_maps w))) :
  let x := find_latest_backup_state namespace kind name w in
  let items := filter (selected namespace kind name) (config_maps w) in
  world_of x = w /\
  calls (events_of x) =
    [(ListConfigMaps namespace kind name, faults w (ListConfigMaps namespace kind name))] /\
  exists restored,
    result_of x = Ok restored /\
    match restored with
    | None => True
    | Some state =>
        exists cm,
          In cm items /\
          (forall other, In other items -> creation_key other <= creation_key cm) /\
          backup_entry kind name cm = Some (JsonText state)
    end.
Proof.
  intros x items.
  destruct (find_latest_backup_state_outcome namespace kind name w) as (Hw & Hc & Hout).
  fold x in Hw, Hc, Hout. fold items in Hout.
  split; [exact Hw|split; [exact Hc|]].
  destruct (faults w (ListConfigMaps namespace kind name)) as [st|].
  { exists None. split; [congruence|exact I]. }
  destruct items as [|i0 items'] eqn:Hitems.
  { exists None. split; [congruence|exact I]. }
  destruct (sorted creation_key true (i0 :: items')) as [|latest rest] eqn:Hsorted.
  { pose proof (sorted_length creation_key true (i0 :: items')) as Hlen.
    rewrite Hsorted in Hlen. discriminate Hlen. }
  destruct (sorted_newest_first creation_key _ _ _ Hsorted) as [Hin Hmax].
  destruct (backup_entry kind name latest) as [[d|[|c s]]|] eqn:Hentry;
    try (exists None; split; [congruence|exact I]).
  exists (Some d). split; [congruence|].
  exists latest. now repeat split.
Qed.

(** X7: only the newest snapshot counts.  With the listing answered and
    [latest_cm] first in the listing sorted newest first: if its entry
    is the JSON of a state, that state is returned; if its entry is
    text that does not decode, the decode error is caught, an error is
    logged and no state is returned; if it has no entry under the key
    of the resource, or an empty one, a warning is logged and no state
    is returned.  Older snapshots are not consulted. *)
Theorem restore_depends_on_the_newest_only
    (namespace : string) (kind : Kind) (name : string) (w : World)
    (latest_cm : ConfigMap) (older : list ConfigMap)
    (Hlist : faults w (ListConfigMaps namespace kind name) = None)
    (Hnewest : sorted creation_key true (filter (selected namespace kind name) (config_maps w))
               = latest_cm :: older) :
  let x := find_latest_backup_state namespace kind name w in
  (result_of x, levels (events_of x)) =
    match backup_entry kind name latest_cm with
    | Some (JsonText state) => (Ok (Some state), [INFO])
    | Some (BadText (String _ _)) => (Ok None, [INFO; ERROR])
    | _ => (Ok None, [WARNING])
    end.
Proof.
  intros x.
  destruct (find_latest_backup_state_outcome namespace kind name w) as (_ & _ & Hout).
  fold x in Hout. rewrite Hlist in Hout.
  destruct (filter (selected namespace kind name) (config_maps w)) as [|i0 items'];
    [discriminate Hnewest|].
  rewrite Hnewest in Hout.
  exact Hout.
Qed.

Lemma restore_reads_a_newest_snapshot_witness :
  result_of (find_latest_backup_state "prod" Deployment "web" seven_snapshots)
  = Ok (Some [("replicas", VInt 4)]).
Proof.
  destruct (restore_reads_a_newest_snapshot "prod" Deployment "web" seven_snapshots)
    as (_ & _ & restored & Hres & _).
  { intros cm Hin. vm_compute in Hin.
    repeat (destruct Hin as [<-|Hin]; [discriminate|]).
    destruct Hin. }
  rewrite Hres. f_equal.
  apply (f_equal (fun r => match r with Ok v => v | Raise _ => None end)) in Hres.
  symmetry. exact Hres.
Defined.

Lemma restore_depends_on_the_newest_only_witness :
  let x := find_latest_backup_state "prod" Deployment "web" good_then_garbled in
  (result_of x, levels (events_of x)) = (Ok None, [INFO; ERROR]).
Proof.
  exact (restore_depends_on_the_newest_only "prod" Deployment "web" good_then_garbled
           _ _ eq_refl eq_refl).
Defined.

(** ** Saving, then restoring *)

Lemma selected_saved_snapshot (namespace : string) (kind : Kind) (name : string)
    (state : Dict Value) (now : datetime) :
  selected namespace kind name (saved_snapshot namespace kind name state now) = true.
Proof.
  unfold selected, get_is, saved_snapshot.
  cbn [cm_namespace cm_labels].
  rewrite String.eqb_refl.
  cbn. now rewrite !String.eqb_refl.
Qed.

Lemma backup_entry_saved_snapshot (namespace : string) (kind : Kind) (name : string)
    (state : Dict Value) (now : datetime) :
  backup_entry kind name (saved_snapshot namespace kind name state now)
  = Some (JsonText state).
Proof.
  unfold backup_entry, saved_snapshot. cbn [cm_data get].
  now rewrite String.eqb_refl.
Qed.

Lemma firstn_incl {A} (n : nat) (l : list A) (x : A) : In x (firstn n l) -> In x l.
Proof.
  intros H. rewrite <- (firstn_skipn n l). apply in_or_app. now left.
Qed.

Lemma filter_true {A} (l : list A) : filter (fun _ => true) l = l.
Proof. now apply filter_all. Qed.

(** what pruning leaves in the store *)
Lemma prune_old_backups_store (MAX : Z) (namespace : string) (kind : Kind) (name : string)
    (w : World) :
  let x := prune_old_backups MAX namespace kind name w in
  let items := filter (selected namespace kind name) (config_maps w) in
  faults (world_of x) = faults w /\
  exists doomed,
    config_maps (world_of x) =
      filter (fun cm => negb (named_in namespace doomed cm)) (config_maps w) /\
    forall d, In d doomed ->
      0 < MAX /\
      In d (firstn (Z.to_nat (Z.of_nat (List.length items) - MAX))
                   (sorted creation_key false items)).
Proof.
  intros x items. subst x.
  assert (Hnothing : forall x : Result unit * World * list Event,
            world_of x = w ->
            faults (world_of x) = faults w /\
            exists doomed,
              config_maps (world_of x) =
                filter (fun cm => negb (named_in namespace doomed cm)) (config_maps w) /\
              forall d, In d doomed ->
                0 < MAX /\
                In d (firstn (Z.to_nat (Z.of_nat (List.length items) - MAX))
                             (sorted creation_key false items))).
  { intros x ->. split; [reflexivity|].
    exists []. split; [|intros d []].
    cbn. symmetry. apply filter_true. }
  destruct (Z.leb_spec MAX 0) as [Hoff|Hpos].
  - apply Hnothing. unfold prune_old_backups.
    assert ((MAX <=? 0) = true) as -> by (apply Z.leb_le; lia).
    reflexivity.
  - destruct (faults w (ListConfigMaps namespace kind name)) as [st|] eqn:Hlist.
    + apply Hnothing. unfold prune_old_backups.
      assert ((MAX <=? 0) = false) as -> by (apply Z.leb_gt; lia).
      unfold try_api, bind, list_namespaced_config_map, api. rewrite Hlist.
      reflexivity.
    + rewrite prune_old_backups_run by assumption. fold items.
      destruct (Z.of_nat (List.length items) <=? MAX); [now apply Hnothing|].
      destruct (prune_loop_spec namespace (cms_to_delete MAX items) w)
        as (_ & _ & _ & _ & Hf & Hcm).
      cbv zeta. unfold world_of at 1 2. cbn [fst snd].
      split; [exact Hf|].
      exists (filter (unrefused w namespace) (cms_to_delete MAX items)).
      split; [exact Hcm|].
      intros d Hd. apply filter_In in Hd as [Hd _].
      split; [exact Hpos|].
      unfold cms_to_delete in Hd.
      rewrite slice_to_negative, sorted_length in Hd by assumption.
      exact Hd.
Qed.

Lemma backup_state_store (MAX : Z) (namespace : string) (kind : Kind) (name : string)
    (state : Dict Value) (w : World) :
  faults w (CreateConfigMap namespace (backup_body namespace kind name state (clock w))) = None ->
  existsb (same_config_map namespace (backup_cm_name kind name (clock w))) (config_maps w)
    = false ->
  world_of (backup_state MAX namespace kind name state w) =
  world_of (prune_old_backups MAX namespace kind name
              (set_config_maps
                 (config_maps w ++ [saved_snapshot namespace kind name state (clock w)]) w)).
Proof.
  intros Hcreate Hfree.
  set (w1 := set_config_maps
               (config_maps w ++ [saved_snapshot namespace kind name state (clock w)]) w).
  unfold backup_state.
  rewrite (bind_ok _ _ w w (clock w) []) by reflexivity.
  cbv zeta.
  set (body := backup_body namespace kind name state (clock w)) in *.
  assert (Hc : create_namespaced_config_map namespace body w =
               (Ok tt, w1, [Called (CreateConfigMap namespace body) None])).
  { unfold create_namespaced_config_map, api. rewrite Hcreate.
    cbn [cm_name body backup_body]. rewrite Hfree. reflexivity. }
  destruct (prune_old_backups_quiet MAX namespace kind name w1) as (Hr & _ & _).
  pose proof (surjective_triple (prune_old_backups MAX namespace kind name w1)) as Hp.
  rewrite Hr in Hp.
  rewrite (try_api_ok _ _ w (world_of (prune_old_backups MAX namespace kind name w1)) tt
             (Called (CreateConfigMap namespace body) None ::
              Logged INFO ("State for " ++ kind_str kind ++ " " ++ name
                           ++ " saved in ConfigMap '" ++ cm_name body ++ "'.") ::
              events_of (prune_old_backups MAX namespace kind name w1))).
  - reflexivity.
  - rewrite (bind_ok _ _ _ _ _ _ Hc).
    rewrite bind_log.
    rewrite Hp at 1 2 3.
    reflexivity.
Qed.

Lemma backup_state_then_find_latest
    (MAX : Z) (namespace : string) (kind : Kind) (name : string) (state : Dict Value)
    (w : World)
    (Hcreate : faults w (CreateConfigMap namespace
                           (backup_body namespace kind name state (clock w))) = None)
    (Hfree : existsb (same_config_map namespace (backup_cm_name kind name (clock w)))
                     (config_maps w) = false)
    (Hlist : faults w (ListConfigMaps namespace kind name) = None)
    (Holder : forall cm, In cm (config_maps w) -> selected namespace kind name cm = true ->
                         creation_key cm < timestamp (clock w)) :
  result_of (find_latest_backup_state namespace kind name
               (world_of (backup_state MAX namespace kind name state w)))
  = Ok (Some state).
Proof.
  set (new := saved_snapshot namespace kind name state (clock w)).
  set (olds := filter (selected namespace kind name) (config_maps w)).
  rewrite backup_state_store by assumption. fold new.
  set (w1 := set_config_maps (config_maps w ++ [new]) w).
  destruct (prune_old_backups_store MAX namespace kind name w1) as (Hf & doomed & Hcm & Hd).
  set (w2 := world_of (prune_old_backups MAX namespace kind name w1)) in *.
  assert (Hitems1 : filter (selected namespace kind name) (config_maps w1) = (olds ++ [new])%list).
  { unfold w1. cbn [config_maps set_config_maps].
    rewrite filter_app. cbn [filter].
    unfold new at 1. now rewrite selected_saved_snapshot. }
  assert (Hnew_key : creation_key new = timestamp (clock w)) by reflexivity.
  assert (Holds : forall y, In y olds -> creation_key y < creation_key new).
  { intros y Hy. apply filter_In in Hy as [Hy Hsel]. rewrite Hnew_key. now apply Holder. }
  assert (Hkeep : named_in namespace doomed new = false).
  { destruct (named_in namespace doomed new) eqn:E; [|reflexivity].
    exfalso.
    unfold named_in in E. apply existsb_exists in E as (d & Hdin & Hsame).
    destruct (Hd d Hdin) as [Hpos Hfirst].
    rewrite Hitems1 in Hfirst.
    rewrite sorted_oldest_first_snoc in Hfirst by exact Holds.
    rewrite firstn_app in Hfirst.
    rewrite length_app, sorted_length in Hfirst. cbn [List.length] in Hfirst.
    replace (Z.to_nat (Z.of_nat (List.length olds + 1) - MAX) - List.length olds)%nat
      with 0%nat in Hfirst by lia.
    cbn [firstn] in Hfirst. rewrite app_nil_r in Hfirst.
    apply firstn_incl in Hfirst.
    apply (Permutation_in _ (sorted_permutation creation_key false olds)) in Hfirst.
    apply filter_In in Hfirst as [Hin Hsel].
    assert (Hex : existsb (same_config_map namespace (backup_cm_name kind name (clock w)))
                          (config_maps w) = true).
    { apply existsb_exists. exists d. split; [exact Hin|].
      unfold same_config_map in Hsame |- *.
      apply andb_true_iff in Hsame as [_ Hname].
      apply String.eqb_eq in Hname. cbn [cm_name new saved_snapshot] in Hname.
      rewrite Hname, String.eqb_refl, andb_true_r.
      unfold selected in Hsel.
      now repeat (apply andb_true_iff in Hsel as [Hsel _]). }
    congruence. }
  assert (Hitems2 : exists before,
             filter (selected namespace kind name) (config_maps w2) = (before ++ [new])%list /\
             forall y, In y before -> creation_key y < creation_key new).
  { exists (filter (selected namespace kind name)
              (filter (fun cm => negb (named_in namespace doomed cm)) (config_maps w))).
    split.
    - rewrite Hcm. unfold w1. cbn [config_maps set_config_maps].
      rewrite !filter_app. cbn [filter].
      rewrite Hkeep. cbn [negb filter].
      unfold new at 1. now rewrite selected_saved_snapshot.
    - intros y Hy. apply filter_In in Hy as [Hy Hsel].
      apply filter_In in Hy as [Hy _].
      rewrite Hnew_key. now apply Holder. }
  destruct Hitems2 as (before & Hitems2 & Hbefore).
  destruct (sorted_newest_first_snoc creation_key before new Hbefore) as [rest Hsorted].
  destruct (find_latest_backup_state_outcome namespace kind name w2) as (_ & _ & Hout).
  rewrite Hf in Hout. unfold w1 at 1 in Hout. cbn [faults set_config_maps] in Hout.
  rewrite Hlist, Hitems2 in Hout.
  destruct (before ++ [new])%list as [|i0 l0] eqn:E; [now destruct before|].
  rewrite Hsorted in Hout.
  unfold new at 1 in Hout. rewrite backup_entry_saved_snapshot in Hout.
  now injection Hout as Hres _.
Qed.

(** X8: saving then restoring gives the state back.  If the create of
    the backup is accepted (not refused, name free), the listing of the
    backups is answered and every snapshot of the resource already in
    the store carries a creation time earlier than the clock, then after
    [backup_state], with any retention limit,
    [find_latest_backup_state] returns the state that was saved. *)
Theorem save_then_restore
    (MAX : Z) (namespace : string) (kind : Kind) (name : string) (state : Dict Value)
    (w : World)
    (Hcreate : faults w (CreateConfigMap namespace
                           (backup_body namespace kind name state (clock w))) = None)
    (Hfree : existsb (same_config_map namespace (backup_cm_name kind name (clock w)))
                     (config_maps w) = false)
    (Hlist : faults w (ListConfigMaps namespace kind name) = None)
    (Holder : forall cm, In cm (config_maps w) -> selected namespace kind name cm = true ->
                         stamped_before (clock w) cm) :
  result_of (find_latest_backup_state namespace kind name
               (world_of (backup_state MAX namespace kind name state w)))
  = Ok (Some state).
Proof.
  apply backup_state_then_find_latest; try assumption.
  intros cm Hin Hsel. destruct (Holder cm Hin Hsel) as (t & Ht & Hlt).
  unfold creation_key. now rewrite Ht.
Qed.

Lemma save_then_restore_witness :
  let w := set_clock (mkdt 2026 12 11 18 9 0 0) seven_snapshots in
  List.length (config_maps (world_of (backup_state 5 "prod" Deployment "web"
                                        [("replicas", VInt 2)] w))) = 5%nat /\
  result_of (find_latest_backup_state "prod" Deployment "web"
               (world_of (backup_state 5 "prod" Deployment "web" [("replicas", VInt 2)] w)))
  = Ok (Some [("replicas", VInt 2)]).
Proof.
  intros w. split; [reflexivity|].
  apply save_then_restore; try reflexivity.
  intros cm Hin _.
  vm_compute in Hin.
  repeat (destruct Hin as [<-|Hin]; [eexists; split; reflexivity|]).
  destruct Hin.
Defined.

(** ** Hibernating and waking a workload *)

Lemma same_workload_set_spec (k : Kind) (namespace name : string) (sp : Spec) (x : Workload) :
  same_workload k namespace name (set_spec sp x) = same_workload k namespace name x.
Proof. reflexivity. Qed.

Lemma find_patched (k : Kind) (namespace name : string) (sp : Spec) (l : list Workload) :
  find (same_workload k namespace name)
       (map (fun x => if same_workload k namespace name x then set_spec sp x else x) l)
  = option_map (set_spec sp) (find (same_workload k namespace name) l).
Proof.
  induction l as [|a l IH]; cbn [map find]; [reflexivity|].
  destruct (same_workload k namespace name a) eqn:E.
  - now rewrite same_workload_set_spec, E.
  - now rewrite E.
Qed.

Lemma find_filter_negb {A} (p : A -> bool) (l : list A) :
  find p (filter (fun x => negb (p x)) l) = None.
Proof.
  induction l as [|a l IH]; cbn [filter find]; [reflexivity|].
  destruct (p a) eqn:E; cbn [negb find]; [exact IH|].
  now rewrite E.
Qed.

Lemma find_app_none {A} (p : A -> bool) (l l' : list A) :
  find p l = None -> find p (l ++ l') = find p l'.
Proof.
  induction l as [|a l IH]; cbn [app find]; [reflexivity|].
  destruct (p a); [discriminate|exact IH].
Qed.

Lemma read_workload_run (k : Kind) (name namespace : string) (w : World) (item : Workload) :
  faults w (ReadWorkload k name namespace) = None ->
  find (same_workload k namespace name) (workloads w) = Some item ->
  read_workload k name namespace w = (Ok item, w, [Called (ReadWorkload k name namespace) None]).
Proof.
  intros Hf Hfind. unfold read_workload, api. now rewrite Hf, Hfind.
Qed.

Lemma patch_workload_run (c : Call) (k : Kind) (name namespace : string) (sp : Spec)
    (w : World) (item : Workload) :
  faults w c = None ->
  find (same_workload k namespace name) (workloads w) = Some item ->
  patch_workload c k name namespace (Some sp) w =
  (Ok tt,
   set_workloads (map (fun x => if same_workload k namespace name x then set_spec sp x else x)
                      (workloads w)) w,
   [Called c None]).
Proof.
  intros Hf Hfind. unfold patch_workload, api. now rewrite Hf, Hfind.
Qed.

Ltac run_patch Hfaults Hfind :=
  unfold try_api;
  rewrite (bind_ok _ _ _ _ _ _ (patch_workload_run _ _ _ _ _ _ _ (Hfaults _) Hfind));
  reflexivity.

Lemma scale_replicas_run (k : Kind) (namespace name : string) (direction : Direction)
    (state : option (Dict Value)) (n : Z) (w : World) (item : Workload) :
  k = Deployment \/ k = StatefulSet ->
  (forall c, faults w c = None) ->
  find (same_workload k namespace name) (workloads w) = Some item ->
  target_replicas direction state = VInt n ->
  0 <= n ->
  world_of (fst (resource_processors k) namespace name direction state w) =
  set_workloads
    (map (fun x => if same_workload k namespace name x
                   then set_spec (ReplicaSpec (Some n)) x else x) (workloads w)) w.
Proof.
  intros Hk Hfaults Hfind Htarget Hn.
  assert (Hle : (0 <=? n) = true) by (now apply Z.leb_le).
  destruct Hk as [-> | ->]; cbn [fst resource_processors];
    unfold scale_deployment, scale_statefulset; cbv zeta;
    rewrite Htarget; unfold patch_replicas; rewrite Hle;
    run_patch Hfaults Hfind.
Qed.

Lemma scale_cronjob_run (namespace name : string) (direction : Direction)
    (state : option (Dict Value)) (b : bool) (w : World) (item : Workload) :
  (forall c, faults w c = None) ->
  find (same_workload CronJob namespace name) (workloads w) = Some item ->
  target_suspend direction state = VBool b ->
  world_of (scale_cronjob namespace name direction state w) =
  set_workloads
    (map (fun x => if same_workload CronJob namespace name x
                   then set_spec (CronSpec (Some b)) x else x) (workloads w)) w.
Proof.
  intros Hfaults Hfind Htarget.
  unfold scale_cronjob; cbv zeta; rewrite Htarget; unfold patch_suspend.
  run_patch Hfaults Hfind.
Qed.

Lemma getter_run (k : Kind) (namespace name : string) (w : World) (item : Workload) :
  (forall c, faults w c = None) ->
  find (same_workload k namespace name) (workloads w) = Some item ->
  result_of (snd (resource_processors k) namespace name w) =
  Ok (Some match k with
           | Deployment | StatefulSet =>
               [("replicas", VInt (or_int (spec_replicas (w_spec item)) 1))]
           | HorizontalPodAutoscaler => [("spec", VDict (spec_to_dict (w_spec item)))]
           | CronJob => [("suspend", VBool (or_false (spec_suspend (w_spec item))))]
           end).
Proof.
  intros Hfaults Hfind.
  destruct k; cbn [snd resource_processors];
    unfold get_deployment_state, get_statefulset_state, get_hpa_state, get_cronjob_state,
      try_api;
    rewrite (bind_ok _ _ _ _ _ _ (read_workload_run _ _ _ _ _ (Hfaults _) Hfind));
    reflexivity.
Qed.

(* ================================================================= *)
(** ** What a computation leaves alone *)

Section Carrying.

Variable R : World -> World -> Prop.
Hypothesis R_refl : forall w, R w w.
Hypothesis R_trans : forall a b c, R a b -> R b c -> R a c.

Lemma carries_ret {A} (a : A) : carries R (ret a).
Proof. intros w. apply R_refl. Qed.

Lemma carries_raise {A} (e : Exn) : carries R (@raise A e).
Proof. intros w. apply R_refl. Qed.

Lemma carries_log (lvl : Level) (msg : string) : carries R (log lvl msg).
Proof. intros w. apply R_refl. Qed.

Lemma carries_clock : carries R now_utc_clock.
Proof. intros w. apply R_refl. Qed.

Lemma carries_bind {A B} (m : M A) (k : A -> M B) :
  carries R m -> (forall a, carries R (k a)) -> carries R (bind m k).
Proof.
  intros Hm Hk w. specialize (Hm w).
  unfold bind, world_of in *.
  destruct (m w) as [[[a|e] w1] ev1]; cbn [fst snd] in *; [|exact Hm].
  specialize (Hk a w1). unfold world_of in Hk.
  destruct (k a w1) as [[r w2] ev2]; cbn [fst snd] in *.
  eapply R_trans; eassumption.
Qed.

Lemma carries_try_api {A} (m : M A) (h : Z -> M A) :
  carries R m -> (forall st, carries R (h st)) -> carries R (try_api m h).
Proof.
  intros Hm Hh w. specialize (Hm w).
  unfold try_api, world_of in *.
  destruct (m w) as [[[a|[st| |]] w1] ev1]; cbn [fst snd] in *; try exact Hm.
  specialize (Hh st w1). unfold world_of in Hh.
  destruct (h st w1) as [[r w2] ev2]; cbn [fst snd] in *.
  eapply R_trans; eassumption.
Qed.

Lemma carries_try_exception {A} (m h : M A) :
  carries R m -> carries R h -> carries R (try_exception m h).
Proof.
  intros Hm Hh w. specialize (Hm w).
  unfold try_exception, world_of in *.
  destruct (m w) as [[[a|e] w1] ev1]; cbn [fst snd] in *; [exact Hm|].
  specialize (Hh w1). unfold world_of in Hh.
  destruct (h w1) as [[r w2] ev2]; cbn [fst snd] in *.
  eapply R_trans; eassumption.
Qed.

Lemma carries_try_api_json {A} (m : M A) (h : Z -> M A) (j : M A) :
  carries R m -> (forall st, carries R (h st)) -> carries R j ->
  carries R (try_api_json m h j).
Proof.
  intros Hm Hh Hj w. specialize (Hm w).
  unfold try_api_json, world_of in *.
  destruct (m w) as [[[a|[st| |]] w1] ev1]; cbn [fst snd] in *; try exact Hm.
  - specialize (Hh st w1). unfold world_of in Hh.
    destruct (h st w1) as [[r w2] ev2]; cbn [fst snd] in *.
    eapply R_trans; eassumption.
  - specialize (Hj w1). unfold world_of in Hj.
    destruct (j w1) as [[r w2] ev2]; cbn [fst snd] in *.
    eapply R_trans; eassumption.
Qed.

Lemma carries_try_api_else {A} (m : M A) (h : Z -> M A) (o : M A) :
  carries R m -> (forall st, carries R (h st)) -> carries R o ->
  carries R (try_api_else m h o).
Proof.
  intros Hm Hh Ho w. specialize (Hm w).
  unfold try_api_else, world_of in *.
  destruct (m w) as [[[a|[st| |]] w1] ev1]; cbn [fst snd] in *; try exact Hm.
  - specialize (Hh st w1). unfold world_of in Hh.
    destruct (h st w1) as [[r w2] ev2]; cbn [fst snd] in *.
    eapply R_trans; eassumption.
  - specialize (Ho w1). unfold world_of in Ho.
    destruct (o w1) as [[r w2] ev2]; cbn [fst snd] in *.
    eapply R_trans; eassumption.
  - specialize (Ho w1). unfold world_of in Ho.
    destruct (o w1) as [[r w2] ev2]; cbn [fst snd] in *.
    eapply R_trans; eassumption.
Qed.

Lemma carries_for_each {A} (l : list A) (body : A -> M unit) :
  (forall x, In x l -> carries R (body x)) -> carries R (for_each l body).
Proof.
  induction l as [|a l IH]; intros Hbody; cbn [for_each].
  - apply carries_ret.
  - apply carries_bind.
    + apply Hbody. now left.
    + intros _. apply IH. intros x Hx. apply Hbody. now right.
Qed.

Lemma carries_api {A} (c : Call) (serve : World -> (A + Z) * World) :
  (forall w, R w (snd (serve w))) -> carries R (api c serve).
Proof.
  intros Hs w. unfold api, world_of.
  destruct (faults w c); [apply R_refl|].
  specialize (Hs w).
  destruct (serve w) as [[a|st] w1]; exact Hs.
Qed.

End Carrying.

Lemma keeps_refl (pw : Workload -> bool) (pc : ConfigMap -> bool) (w : World) :
  keeps pw pc w w.
Proof. now repeat split. Qed.

Lemma keeps_trans (pw : Workload -> bool) (pc : ConfigMap -> bool) (a b c : World) :
  keeps pw pc a b -> keeps pw pc b c -> keeps pw pc a c.
Proof.
  intros (H1 & H2 & H3 & H4) (H1' & H2' & H3' & H4').
  repeat split; congruence.
Qed.

Lemma filter_after_filter {A} (p q : A -> bool) (l : list A) :
  (forall x, q x = false -> p x = false) ->
  filter p (filter q l) = filter p l.
Proof.
  intros H. rewrite filter_filter. apply filter_ext.
  intros x. destruct (q x) eqn:E; [reflexivity|].
  now rewrite (H x E).
Qed.

Lemma filter_patched (pw : Workload -> bool) (k : Kind) (namespace name : string)
    (sp : Spec) (l : list Workload) :
  misses pw k namespace name ->
  filter pw (map (fun x => if same_workload k namespace name x then set_spec sp x else x) l)
  = filter pw l.
Proof.
  intros Hmiss.
  induction l as [|a l IH]; cbn [map filter]; [reflexivity|].
  destruct (same_workload k namespace name a) eqn:E.
  - rewrite (Hmiss (set_spec sp a)) by (now rewrite same_workload_set_spec).
    now rewrite (Hmiss a E).
  - now rewrite IH.
Qed.

Lemma carries_bind_ok (R : World -> World -> Prop)
    (R_trans : forall a b c, R a b -> R b c -> R a c)
    {A B} (m : M A) (k : A -> M B) :
  carries R m ->
  (forall a, (exists w, result_of (m w) = Ok a) -> carries R (k a)) ->
  carries R (bind m k).
Proof.
  intros Hm Hk w. specialize (Hm w).
  unfold bind, world_of in *.
  destruct (m w) as [[[a|e] w1] ev1] eqn:E; cbn [fst snd] in *; [|exact Hm].
  assert (Hka : carries R (k a)) by (apply Hk; exists w; now rewrite E).
  specialize (Hka w1). unfold world_of in Hka.
  destruct (k a w1) as [[r w2] ev2]; cbn [fst snd] in *.
  eapply R_trans; eassumption.
Qed.

Ltac carry_with pw pc leaf :=
  repeat (intros; first
    [ assumption
    | leaf
    | apply (carries_ret _ (keeps_refl pw pc))
    | apply (carries_log _ (keeps_refl pw pc))
    | apply (carries_raise _ (keeps_refl pw pc))
    | apply (carries_clock _ (keeps_refl pw pc))
    | apply (carries_bind _ (keeps_trans pw pc))
    | apply (carries_try_api _ (keeps_trans pw pc))
    | apply (carries_try_exception _ (keeps_trans pw pc))
    | apply (carries_try_api_json _ (keeps_trans pw pc))
    | apply (carries_try_api_else _ (keeps_trans pw pc)) ]).

Ltac carry pw pc := carry_with pw pc fail.

Section Frames.

Variable pw : Workload -> bool.
Variable pc : ConfigMap -> bool.

Lemma read_workload_keeps (k : Kind) (name namespace : string) :
  carries (keeps pw pc) (read_workload k name namespace).
Proof.
  apply carries_api; [apply keeps_refl|].
  intros w. destruct (find _ _); apply keeps_refl.
Qed.

Lemma patch_workload_keeps (c : Call) (k : Kind) (name namespace : string)
    (new_spec : option Spec) :
  misses pw k namespace name ->
  carries (keeps pw pc) (patch_workload c k name namespace new_spec).
Proof.
  intros Hmiss.
  apply carries_api; [apply keeps_refl|].
  intros w. destruct (find _ _); [|apply keeps_refl].
  destruct new_spec as [sp|]; [|apply keeps_refl].
  cbn [snd]. repeat split. cbn [workloads set_workloads].
  now apply filter_patched.
Qed.

Lemma delete_autoscaler_keeps (name namespace : string) :
  misses pw HorizontalPodAutoscaler namespace name ->
  carries (keeps pw pc) (delete_autoscaler name namespace).
Proof.
  intros Hmiss.
  apply carries_api; [apply keeps_refl|].
  intros w. destruct (find _ _); [|apply keeps_refl].
  cbn [snd]. repeat split. cbn [workloads set_workloads].
  apply filter_after_filter.
  intros x Hx. apply Hmiss. now apply negb_false_iff.
Qed.

Lemma create_autoscaler_keeps (namespace name : string) (spec : Value) :
  misses pw HorizontalPodAutoscaler namespace name ->
  carries (keeps pw pc) (create_autoscaler namespace name spec).
Proof.
  intros Hmiss.
  apply carries_api; [apply keeps_refl|].
  intros w. destruct (find _ _); [apply keeps_refl|].
  destruct spec; try apply keeps_refl.
  cbn [snd]. repeat split. cbn [workloads set_workloads].
  rewrite filter_app. cbn [filter].
  rewrite Hmiss; [apply app_nil_r|].
  unfold same_workload. cbn [w_kind w_namespace w_name Kind_eqb].
  now rewrite !String.eqb_refl.
Qed.

Lemma list_namespaced_config_map_keeps (namespace : string) (kind : Kind) (name : string) :
  carries (keeps pw pc) (list_namespaced_config_map namespace kind name).
Proof.
  apply carries_api; [apply keeps_refl|].
  intros w. apply keeps_refl.
Qed.

Lemma create_namespaced_config_map_keeps (namespace : string) (body : ConfigMap) :
  avoids pc namespace ->
  carries (keeps pw pc) (create_namespaced_config_map namespace body).
Proof.
  intros Hav.
  apply carries_api; [apply keeps_refl|].
  intros w. destruct (existsb _ _); [apply keeps_refl|].
  cbn [snd]. repeat split. cbn [config_maps set_config_maps].
  rewrite filter_app. cbn [filter].
  rewrite Hav; [apply app_nil_r|].
  cbn [cm_namespace]. apply String.eqb_refl.
Qed.

Lemma delete_namespaced_config_map_keeps (name namespace : string) :
  avoids pc namespace ->
  carries (keeps pw pc) (delete_namespaced_config_map name namespace).
Proof.
  intros Hav.
  apply carries_api; [apply keeps_refl|].
  intros w. destruct (existsb _ _); [|apply keeps_refl].
  cbn [snd]. repeat split. cbn [config_maps set_config_maps].
  apply filter_after_filter.
  intros x Hx. apply Hav.
  apply negb_false_iff in Hx. unfold same_config_map in Hx.
  now apply andb_true_iff in Hx as [Hx _].
Qed.

Lemma prune_old_backups_keeps (MAX : Z) (namespace : string) (kind : Kind) (name : string) :
  avoids pc namespace ->
  carries (keeps pw pc) (prune_old_backups MAX namespace kind name).
Proof.
  intros Hav. unfold prune_old_backups.
  destruct (MAX <=? 0); [carry pw pc|].
  carry pw pc.
  - apply list_namespaced_config_map_keeps.
  - intros items.
    destruct (Z.of_nat (List.length items) <=? MAX); [carry pw pc|].
    apply carries_for_each; [apply keeps_refl|apply keeps_trans|].
    carry pw pc.
    now apply delete_namespaced_config_map_keeps.
Qed.

Lemma backup_state_keeps (MAX : Z) (namespace : string) (kind : Kind) (name : string)
    (state : Dict Value) :
  avoids pc namespace ->
  carries (keeps pw pc) (backup_state MAX namespace kind name state).
Proof.
  intros Hav. unfold backup_state.
  carry pw pc.
  - now apply create_namespaced_config_map_keeps.
  - intros _. now apply prune_old_backups_keeps.
Qed.

Lemma find_latest_backup_state_keeps (namespace : string) (kind : Kind) (name : string) :
  carries (keeps pw pc) (find_latest_backup_state namespace kind name).
Proof.
  unfold find_latest_backup_state.
  carry pw pc.
  - apply list_namespaced_config_map_keeps.
  - intros [|i0 items]; [carry pw pc|].
    destruct (sorted creation_key true (i0 :: items)) as [|latest rest]; [carry pw pc|].
    destruct (match cm_data latest with
              | Some data => get data (backup_key_name kind name)
              | None => None
              end) as [[d|[|c s]]|]; carry pw pc.
Qed.

Lemma state_getter_keeps (kind : Kind) (namespace name : string) :
  carries (keeps pw pc) (snd (resource_processors kind) namespace name).
Proof.
  destruct kind; cbn [snd resource_processors];
    unfold get_deployment_state, get_statefulset_state, get_hpa_state, get_cronjob_state;
    carry pw pc; try apply read_workload_keeps.
  intros st. destruct (st =? 404); carry pw pc.
Qed.

Lemma scaler_keeps (kind : Kind) (namespace name : string) (direction : Direction)
    (state : option (Dict Value)) :
  misses pw kind namespace name ->
  carries (keeps pw pc) (fst (resource_processors kind) namespace name direction state).
Proof.
  intros Hmiss.
  destruct kind; cbn [fst resource_processors];
    unfold scale_deployment, scale_statefulset, scale_hpa, scale_cronjob,
      patch_replicas, patch_suspend.
  - carry pw pc; [intros; now apply patch_workload_keeps|].
    intros st. destruct (st =? 403); carry pw pc.
  - carry pw pc. intros; now apply patch_workload_keeps.
  - destruct direction.
    + destruct (if truthy state
                then get match state with Some d => d | None => [] end "spec"
                else None) as [spec|]; carry pw pc.
      * intros; now apply create_autoscaler_keeps.
      * intros st. destruct (st =? 409); carry pw pc.
    + carry pw pc; [intros; now apply delete_autoscaler_keeps|].
      intros st. destruct (st =? 404); carry pw pc.
  - carry pw pc. intros; now apply patch_workload_keeps.
Qed.

Lemma process_item_keeps (MAX : Z) (namespace : string) (item : Workload) (kind : Kind)
    (now_utc : datetime) :
  misses pw kind namespace (w_name item) ->
  avoids pc namespace ->
  carries (keeps pw pc) (process_item MAX namespace item kind now_utc).
Proof.
  intros Hmiss Hav.
  rewrite process_item_table. unfold process_single_resource.
  destruct (get_is (annotations_of item) ANNOTATION_NS_CONTROL "Disable"); [carry pw pc|].
  destruct (is_schedule_active (get (annotations_of item) ANNOTATION_SCALE_DOWN) now_utc).
  - carry_with pw pc ltac:(apply state_getter_keeps).
    intros [[|e d]|];
      carry_with pw pc ltac:(first [ apply backup_state_keeps; assumption
                                   | apply scaler_keeps; assumption ]).
  - destruct (is_schedule_active (get (annotations_of item) ANNOTATION_SCALE_UP) now_utc);
      [|carry pw pc].
    carry_with pw pc ltac:(apply find_latest_backup_state_keeps).
    intros restored. destruct (negb (truthy restored));
      carry_with pw pc ltac:(apply scaler_keeps; assumption).
Qed.

End Frames.

(* ================================================================= *)
(** ** The scalers *)

(** every exception the computation raises is an [ApiException] *)
Lemma api_raises_api_only {A} (c : Call) (serve : World -> (A + Z) * World) (w : World)
    (e : Exn) :
  result_of (api c serve w) = Raise e -> exists st, e = ApiException st.
Proof.
  unfold api, result_of.
  destruct (faults w c) as [st|]; cbn.
  - intros H. injection H as <-. now exists st.
  - destruct (serve w) as [[a|st] w1]; cbn; intros H; [discriminate|].
    injection H as <-. now exists st.
Qed.

Lemma try_api_call_then_log_returns {A} (c : Call) (serve : World -> (A + Z) * World)
    (after : A -> M unit) (h : Z -> M unit) (w : World) :
  (forall a w0, result_of (after a w0) = Ok tt) ->
  (forall st w0, result_of (h st w0) = Ok tt) ->
  result_of (try_api (a <- api c serve ;; after a) h w) = Ok tt.
Proof.
  intros Ha Hh.
  unfold try_api, bind.
  pose proof (api_raises_api_only c serve w) as Hapi. unfold result_of in Hapi.
  destruct (api c serve w) as [[[a|e] w1] ev1]; cbn [fst] in Hapi.
  - specialize (Ha a w1). unfold result_of in Ha.
    destruct (after a w1) as [[ra w2] ev2]; cbn [fst] in Ha; subst ra. reflexivity.
  - destruct (Hapi e eq_refl) as [st ->].
    specialize (Hh st w1). unfold result_of in Hh |- *.
    destruct (h st w1) as [[rh w2] ev2]; cbn [fst] in Hh |- *. exact Hh.
Qed.

Lemma try_api_log_then_call_returns (lvl : Level) (msg : string) (c : Call)
    (serve : World -> (unit + Z) * World) (h : Z -> M unit) (w : World) :
  (forall st w0, result_of (h st w0) = Ok tt) ->
  result_of (try_api (log lvl msg ;; api c serve) h w) = Ok tt.
Proof.
  intros Hh.
  unfold try_api. rewrite bind_log.
  pose proof (api_raises_api_only c serve w) as Hapi.
  unfold result_of, world_of, events_of in *.
  destruct (api c serve w) as [[[[]|e] w1] ev1]; cbn [fst snd] in *; [reflexivity|].
  destruct e as [st| |];
    try (destruct (Hapi _ eq_refl) as [st' Hst]; discriminate Hst).
  specialize (Hh st w1).
  destruct (h st w1) as [[rh w2] ev2]; cbn [fst] in Hh |- *. exact Hh.
Qed.

Lemma scaler_returns (kind : Kind) (namespace name : string) (direction : Direction)
    (state : option (Dict Value)) (w : World) :
  result_of (fst (resource_processors kind) namespace name direction state w) = Ok tt.
Proof.
  assert (Hlog : forall lvl msg w0, result_of (log lvl msg w0) = Ok tt) by reflexivity.
  assert (Hif : forall (b : bool) l1 m1 l2 m2 w0,
             result_of ((if b then log l1 m1 else log l2 m2) w0) = Ok tt)
    by (intros []; reflexivity).
  destruct kind; cbn [fst resource_processors].
  - unfold scale_deployment, patch_replicas, patch_workload. cbv zeta.
    apply try_api_call_then_log_returns; auto.
  - unfold scale_statefulset, patch_replicas, patch_workload. cbv zeta.
    apply try_api_call_then_log_returns; auto.
  - unfold scale_hpa, delete_autoscaler, create_autoscaler.
    destruct direction.
    + destruct (if truthy state
                then get match state with Some d => d | None => [] end "spec"
                else None) as [spec|]; [|reflexivity].
      apply try_api_log_then_call_returns; auto.
    + apply try_api_log_then_call_returns; auto.
  - unfold scale_cronjob, patch_suspend, patch_workload. cbv zeta.
    apply try_api_call_then_log_returns; auto.
Qed.

(** X10: the scaler of a kind, in either direction and whatever the
    state handed to it, never raises, leaves every workload other than
    the one it is called for exactly as it was, and touches no
    ConfigMap. *)
Theorem scaler_touches_only_its_target
    (kind : Kind) (namespace name : string) (direction : Direction)
    (state : option (Dict Value)) (w : World) :
  let x := fst (resource_processors kind) namespace name direction state w in
  result_of x = Ok tt /\
  filter (other_than kind namespace name) (workloads (world_of x)) =
    filter (other_than kind namespace name) (workloads w) /\
  config_maps (world_of x) = config_maps w.
Proof.
  intros x. subst x.
  split; [apply scaler_returns|].
  destruct (scaler_keeps (other_than kind namespace name) (fun _ => true)
              kind namespace name direction state) with (w := w) as (Hw & Hc & _).
  - intros y Hy. unfold other_than. now rewrite Hy.
  - split; [exact Hw|].
    now rewrite !filter_true in Hc.
Qed.

(* ================================================================= *)
(** ** What a pass leaves alone *)

Lemma eligible_names (dir : Directory) (w : World) (names : list string) :
  result_of (get_eligible_namespaces dir w) = Ok names ->
  forall n, In n names ->
    exists ns, In ns (namespaces dir) /\ ns_name ns = n /\ eligible ns = true.
Proof.
  intros Hres n Hn.
  destruct (get_eligible_namespaces_outcome dir w) as (_ & _ & Hout).
  destruct (refused dir ListNamespaces).
  - destruct Hout as [Hout _]. rewrite Hout in Hres. injection Hres as <-. destruct Hn.
  - rewrite Hout in Hres. injection Hres as <-.
    apply in_map_iff in Hn as (ns & Hname & Hin).
    apply filter_In in Hin as [Hin Hel].
    now exists ns.
Qed.

Section PassFrames.

Variable pw : Workload -> bool.
Variable pc : ConfigMap -> bool.

Lemma list_kind_keeps (dir : Directory) (kind : Kind) (namespace : string) :
  carries (keeps pw pc) (list_kind dir kind namespace).
Proof.
  intros w. unfold list_kind, world_of.
  destruct (refused dir (ListKind kind namespace)); apply keeps_refl.
Qed.

Lemma get_eligible_namespaces_keeps (dir : Directory) :
  carries (keeps pw pc) (get_eligible_namespaces dir).
Proof.
  intros w.
  destruct (get_eligible_namespaces_outcome dir w) as (-> & _).
  apply keeps_refl.
Qed.

Lemma process_resources_keeps (MAX : Z) (dir : Directory) (namespace : string)
    (now_utc : datetime) :
  (forall kind name, misses pw kind namespace name) ->
  avoids pc namespace ->
  carries (keeps pw pc) (process_resources MAX dir namespace now_utc).
Proof.
  intros Hmiss Hav. unfold process_resources.
  apply carries_for_each; [apply keeps_refl|apply keeps_trans|].
  intros kind _.
  apply (carries_try_api_else _ (keeps_trans pw pc)).
  - apply (carries_bind _ (keeps_trans pw pc)); [apply list_kind_keeps|].
    intros resources.
    apply carries_for_each; [apply keeps_refl|apply keeps_trans|].
    intros item _. now apply process_item_keeps.
  - intros st. destruct (st =? 403); apply carries_log; apply keeps_refl.
  - apply carries_log. apply keeps_refl.
Qed.

Lemma run_reconciliation_keeps (MAX : Z) (dir : Directory) :
  (forall ns, In ns (namespaces dir) -> eligible ns = true ->
     (forall kind name, misses pw kind (ns_name ns) name) /\ avoids pc (ns_name ns)) ->
  carries (keeps pw pc) (run_reconciliation MAX dir).
Proof.
  intros Hns. unfold run_reconciliation.
  apply (carries_bind _ (keeps_trans pw pc)); [apply carries_clock; apply keeps_refl|].
  intros now_utc.
  apply (carries_try_exception _ (keeps_trans pw pc));
    [|apply carries_log; apply keeps_refl].
  apply (carries_bind_ok _ (keeps_trans pw pc)); [apply get_eligible_namespaces_keeps|].
  intros names [w Hres].
  apply carries_for_each; [apply keeps_refl|apply keeps_trans|].
  intros n Hn.
  destruct (eligible_names dir w names Hres n Hn) as (ns & Hin & <- & Hel).
  destruct (Hns ns Hin Hel) as [Hmiss Hav].
  apply (carries_bind _ (keeps_trans pw pc)); [apply carries_log; apply keeps_refl|].
  intros _. now apply process_resources_keeps.
Qed.

End PassFrames.

(** X11: a pass leaves excluded namespaces alone.  If no namespace
    named [n] is eligible (because none is listed under that name, or
    its name starts with [kube-], or it carries the control annotation
    [Disable]), then after [run_reconciliation] the workloads and the
    ConfigMaps of namespace [n] are exactly what they were. *)
Theorem excluded_namespace_is_untouched
    (MAX : Z) (dir : Directory) (w : World) (n : string)
    (Hexcluded : forall ns, In ns (namespaces dir) -> ns_name ns = n -> eligible ns = false) :
  let after := world_of (run_reconciliation MAX dir w) in
  filter (in_namespace n) (workloads after) = filter (in_namespace n) (workloads w) /\
  filter (cm_in_namespace n) (config_maps after) = filter (cm_in_namespace n) (config_maps w).
Proof.
  intros after.
  destruct (run_reconciliation_keeps (in_namespace n) (cm_in_namespace n) MAX dir)
    with (w := w) as (Hw & Hc & _); [|split; assumption].
  intros ns Hin Hel.
  assert (Hneq : String.eqb (ns_name ns) n = false).
  { destruct (String.eqb_spec (ns_name ns) n) as [Heq|]; [|reflexivity].
    rewrite (Hexcluded ns Hin Heq) in Hel. discriminate. }
  split.
  - intros kind name x Hx. unfold in_namespace.
    unfold same_workload in Hx.
    apply andb_true_iff in Hx as [Hx _]. apply andb_true_iff in Hx as [_ Hx].
    apply String.eqb_eq in Hx. now rewrite Hx.
  - intros cm Hcm. unfold cm_in_namespace.
    apply String.eqb_eq in Hcm. now rewrite Hcm.
Qed.

Lemma excluded_namespace_is_untouched_witness :
  let after := world_of (run_reconciliation 5 three_namespaces busy_cluster) in
  filter (in_namespace "kube-system") (workloads after) =
    filter (in_namespace "kube-system") (workloads busy_cluster) /\
  filter (in_namespace "staging") (workloads after) =
    filter (in_namespace "staging") (workloads busy_cluster) /\
  map w_spec (filter (in_namespace "prod") (workloads after)) = [ReplicaSpec (Some 0)].
Proof.
  intros after.
  split; [|split; [|reflexivity]].
  - apply (excluded_namespace_is_untouched 5 three_namespaces busy_cluster "kube-system").
    intros ns Hin Hname. cbn in Hin.
    destruct Hin as [<-|[<-|[<-|[]]]]; try discriminate Hname. reflexivity.
  - apply (excluded_namespace_is_untouched 5 three_namespaces busy_cluster "staging").
    intros ns Hin Hname. cbn in Hin.
    destruct Hin as [<-|[<-|[<-|[]]]]; try discriminate Hname. reflexivity.
Defined.

(* ================================================================= *)
(** ** Outside the scheduled minutes *)

Lemma events_of_triple {A} (r : Result A) (w : World) (evs : list Event) :
  events_of (r, w, evs) = evs.
Proof. reflexivity. Qed.

Lemma process_item_inert (MAX : Z) (namespace : string) (item : Workload) (kind : Kind)
    (now_utc : datetime) (w : World) :
  inert now_utc item ->
  process_item MAX namespace item kind now_utc w = (Ok tt, w, []).
Proof.
  intros Hinert. rewrite process_item_table. unfold process_single_resource.
  destruct Hinert as [Hoff|[Hdown Hup]].
  - now rewrite Hoff.
  - rewrite Hdown, Hup.
    now destruct (get_is (annotations_of item) ANNOTATION_NS_CONTROL "Disable").
Qed.

Lemma leaves_for_each {A} (l : list A) (body : A -> M unit) (w : World) :
  (forall x, In x l -> leaves w (body x)) -> leaves w (for_each l body).
Proof.
  induction l as [|a l IH]; intros Hbody; cbn [for_each].
  - now repeat split.
  - destruct (Hbody a (or_introl eq_refl)) as (Hr & Hw & Hc).
    destruct IH as (Hr' & Hw' & Hc'); [intros x Hx; apply Hbody; now right|].
    pose proof (surjective_triple (body a w)) as Ha. rewrite Hr, Hw in Ha.
    unfold leaves. rewrite (bind_ok _ _ _ _ _ _ Ha).
    split; [exact Hr'|split; [exact Hw'|]].
    unfold events_of at 1. cbn [snd].
    now rewrite calls_app, Hc, Hc'.
Qed.

Lemma process_resources_idle (MAX : Z) (dir : Directory) (namespace : string) (w : World) :
  (forall x, In x (workloads w) -> inert (clock w) x) ->
  leaves w (process_resources MAX dir namespace (clock w)).
Proof.
  intros Hinert. unfold process_resources.
  apply leaves_for_each. intros kind _.
  unfold leaves, try_api_else, bind, list_kind.
  destruct (refused dir (ListKind kind namespace)) as [st|].
  - destruct (st =? 403); now repeat split.
  - assert (Hloop : leaves w (for_each
              (filter (fun x => (Kind_eqb (w_kind x) kind &&
                                 String.eqb (w_namespace x) namespace)%bool) (workloads w))
              (fun item => process_item MAX namespace item kind (clock w)))).
    { apply leaves_for_each. intros item Hitem.
      apply filter_In in Hitem as [Hitem _].
      unfold leaves. rewrite process_item_inert by now apply Hinert.
      now repeat split. }
    destruct Hloop as (Hr & Hw & Hc).
    pose proof (surjective_triple
                  (for_each
                     (filter (fun x => (Kind_eqb (w_kind x) kind &&
                                        String.eqb (w_namespace x) namespace)%bool)
                             (workloads w))
                     (fun item => process_item MAX namespace item kind (clock w)) w)) as Hx.
    rewrite Hr, Hw in Hx. rewrite Hx.
    now repeat split.
Qed.

(** X12: outside the scheduled minutes a pass does nothing.  If every
    workload of the cluster is opted out or has neither of its schedules
    active at the clock, [run_reconciliation] returns, leaves the cluster
    as it was and makes no call other than listings, whatever the
    namespaces and whichever listings are refused. *)
Theorem idle_pass_changes_nothing
    (MAX : Z) (dir : Directory) (w : World)
    (Hinert : forall x, In x (workloads w) -> inert (clock w) x) :
  let x := run_reconciliation MAX dir w in
  result_of x = Ok tt /\ world_of x = w /\ calls (events_of x) = [].
Proof.
  intros x. subst x. unfold run_reconciliation.
  rewrite (bind_ok _ _ w w (clock w) []) by reflexivity.
  destruct (get_eligible_namespaces_outcome dir w) as (Hw & Hc & Hout).
  assert (Hres : exists names, result_of (get_eligible_namespaces dir w) = Ok names).
  { destruct (refused dir ListNamespaces); [destruct Hout as [Hout _]|]; eauto. }
  destruct Hres as [names Hres].
  pose proof (surjective_triple (get_eligible_namespaces dir w)) as Hx.
  rewrite Hres, Hw in Hx.
  assert (Hloop : leaves w (for_each names
            (fun ns_name => log DEBUG ("Processing namespace: " ++ ns_name) ;;
                            process_resources MAX dir ns_name (clock w)))).
  { apply leaves_for_each. intros n _.
    destruct (process_resources_idle MAX dir n w Hinert) as (Hr' & Hw' & Hc').
    unfold leaves. rewrite bind_log.
    split; [exact Hr'|split; [exact Hw'|]].
    unfold events_of at 1. cbn [snd calls flat_map app]. exact Hc'. }
  destruct Hloop as (Hr' & Hw' & Hc').
  set (loop := for_each names _) in *.
  pose proof (surjective_triple (loop w)) as Hl. rewrite Hr', Hw' in Hl.
  rewrite (try_exception_ok _ _ w w tt
             (events_of (get_eligible_namespaces dir w) ++ events_of (loop w))).
  - split; [reflexivity|split; [reflexivity|]].
    rewrite !events_of_triple. cbn [app]. now rewrite calls_app, Hc, Hc'.
  - rewrite (bind_ok _ _ _ _ _ _ Hx). unfold loop in *. now rewrite Hr', Hw'.
Qed.

Lemma idle_pass_changes_nothing_witness :
  world_of (run_reconciliation 5 three_namespaces
              (set_clock (mkdt 2026 12 11 17 59 59 0) busy_cluster))
  = set_clock (mkdt 2026 12 11 17 59 59 0) busy_cluster.
Proof.
  apply (idle_pass_changes_nothing 5 three_namespaces
           (set_clock (mkdt 2026 12 11 17 59 59 0) busy_cluster)).
  intros x Hin. right. cbn in Hin.
  destruct Hin as [<-|[<-|[<-|[]]]]; split; reflexivity.
Defined.

(* ================================================================= *)
(** ** Workloads that are not due *)

Section NotDue.

Variable now_utc : datetime.
Variable k : Kind.
Variables namespace name : string.

Let T := same_workload k namespace name.
Let R := keeps_if_not_due now_utc k namespace name.

Lemma keeps_if_not_due_refl (w : World) : R w w.
Proof. intros _. apply keeps_refl. Qed.

Lemma keeps_if_not_due_trans (a b c : World) : R a b -> R b c -> R a c.
Proof.
  intros Hab Hbc Ha.
  specialize (Hab Ha).
  apply (keeps_trans _ _ a b c Hab). apply Hbc.
  intros x Hx HT.
  destruct Hab as (Hw & _).
  apply Ha; [|exact HT].
  assert (Hin : In x (filter (same_workload k namespace name) (workloads b)))
    by (apply filter_In; now split).
  rewrite Hw in Hin. now apply filter_In in Hin as [Hin _].
Qed.

Lemma keeps_weaken {A} (m : M A) :
  carries (keeps T (fun _ => false)) m -> carries R m.
Proof. intros H w _. apply H. Qed.

Lemma same_workload_of_listed (kind : Kind) (ns nm : string) (x : Workload) :
  same_workload kind ns nm x = true ->
  T x = (Kind_eqb kind k && String.eqb ns namespace && String.eqb nm name)%bool.
Proof.
  unfold T, same_workload. intros H.
  apply andb_true_iff in H as [H Hn]. apply andb_true_iff in H as [Hk Hns].
  apply String.eqb_eq in Hn, Hns. subst ns nm.
  now destruct (w_kind x), kind.
Qed.

Lemma process_listed_item_keeps (MAX : Z) (kind : Kind) (ns : string) (item : Workload) :
  same_workload kind ns (w_name item) item = true ->
  (T item = true -> inert now_utc item) ->
  carries (keeps T (fun _ => false)) (process_item MAX ns item kind now_utc).
Proof.
  intros Hlisted Hinert.
  destruct (T item) eqn:HT.
  - intros w. rewrite process_item_inert by auto. apply keeps_refl.
  - apply process_item_keeps; [|intros cm _; reflexivity].
    intros x Hx.
    change (T x = false).
    rewrite (same_workload_of_listed _ _ _ _ Hx).
    now rewrite <- (same_workload_of_listed _ _ _ _ Hlisted).
Qed.

Lemma process_resources_not_due (MAX : Z) (dir : Directory) (ns : string) :
  carries R (process_resources MAX dir ns now_utc).
Proof.
  unfold process_resources.
  apply carries_for_each; [apply keeps_if_not_due_refl|apply keeps_if_not_due_trans|].
  intros kind _ w Hnot.
  assert (Hstep : carries (keeps T (fun _ => false))
            (for_each
               (filter (fun x => (Kind_eqb (w_kind x) kind &&
                                  String.eqb (w_namespace x) ns)%bool) (workloads w))
               (fun item => process_item MAX ns item kind now_utc))).
  { apply carries_for_each; [apply keeps_refl|apply keeps_trans|].
    intros item Hitem. apply filter_In in Hitem as [Hin Hsel].
    apply process_listed_item_keeps.
    - unfold same_workload. now rewrite Hsel, String.eqb_refl.
    - intros HT. now apply Hnot. }
  unfold try_api_else, bind, list_kind, world_of.
  destruct (refused dir (ListKind kind ns)) as [st|].
  - destruct (st =? 403); apply keeps_refl.
  - specialize (Hstep w). unfold world_of in Hstep.
    destruct (for_each _ _ w) as [[[[]|[st| |]] w1] ev1]; cbn [fst snd] in *;
      try exact Hstep.
    destruct (st =? 403); exact Hstep.
Qed.

End NotDue.

Lemma run_reconciliation_not_due
    (MAX : Z) (dir : Directory) (w : World) (k : Kind) (namespace name : string) :
  not_due (clock w) k namespace name w ->
  filter (same_workload k namespace name) (workloads (world_of (run_reconciliation MAX dir w)))
  = filter (same_workload k namespace name) (workloads w).
Proof.
  unfold run_reconciliation.
  rewrite (bind_ok _ _ w w (clock w) []) by reflexivity.
  unfold world_of at 1. cbn [fst snd].
  assert (Hrest : carries (keeps_if_not_due (clock w) k namespace name)
            (try_exception
               (namespaces <- get_eligible_namespaces dir ;;
                for_each namespaces
                  (fun ns_name =>
                     log DEBUG ("Processing namespace: " ++ ns_name) ;;
                     process_resources MAX dir ns_name (clock w)))
               (log ERROR "An error occurred during reconciliation"))).
  { apply carries_try_exception; [apply keeps_if_not_due_trans| |].
    - apply carries_bind; [apply keeps_if_not_due_trans| |].
      + apply keeps_weaken. apply get_eligible_namespaces_keeps.
      + intros names.
        apply carries_for_each;
          [apply keeps_if_not_due_refl|apply keeps_if_not_due_trans|].
        intros n _.
        apply carries_bind; [apply keeps_if_not_due_trans| |].
        * apply carries_log. apply keeps_if_not_due_refl.
        * intros _. apply process_resources_not_due.
    - apply carries_log. apply keeps_if_not_due_refl. }
  intros Hnot_due. now destruct (Hrest w Hnot_due) as (Hw & _).
Qed.


(** X13: a pass touches only the workloads it finds due.  If every
    workload of a given kind, namespace and name is opted out with the
    control annotation [Disable], or has neither schedule active at the
    clock, then after [run_reconciliation] the workloads of that kind,
    namespace and name are exactly what they were, whatever the pass
    does to the others. *)
Theorem workload_not_due_is_untouched
    (MAX : Z) (dir : Directory) (w : World) (k : Kind) (namespace name : string)
    (Hnot_due : not_due (clock w) k namespace name w) :
  filter (same_workload k namespace name) (workloads (world_of (run_reconciliation MAX dir w)))
  = filter (same_workload k namespace name) (workloads w).
Proof.
  now apply run_reconciliation_not_due.
Qed.

Lemma workload_not_due_is_untouched_witness :
  let after := world_of (run_reconciliation 5 three_namespaces mixed_cluster) in
  filter (same_workload Deployment "prod" "db") (workloads after) =
    filter (same_workload Deployment "prod" "db") (workloads mixed_cluster) /\
  map w_spec (workloads after) = [ReplicaSpec (Some 0); ReplicaSpec (Some 2)].
Proof.
  intros after. split; [|reflexivity].
  apply (workload_not_due_is_untouched 5 three_namespaces mixed_cluster Deployment "prod" "db").
  intros x Hin Hsame. cbn in Hin.
  destruct Hin as [<-|[<-|[]]]; [discriminate Hsame|].
  left. reflexivity.
Defined.

Lemma find_none_filter {A} (p : A -> bool) (l : list A) :
  find p l = None <-> filter p l = [].
Proof.
  induction l as [|a l IH]; cbn [find filter]; [tauto|].
  destruct (p a); [split; discriminate|exact IH].
Qed.

(** X14: a pass never brings a workload into being.  If the cluster
    holds no workload of a given kind, namespace and name, it holds none
    after [run_reconciliation]: in particular an autoscaler that
    scale-down deleted is not listed by later passes, so no pass
    re-creates it, whatever its backup and whatever the schedules. *)
Theorem absent_workload_stays_absent
    (MAX : Z) (dir : Directory) (w : World) (k : Kind) (namespace name : string)
    (Habsent : find (same_workload k namespace name) (workloads w) = None) :
  find (same_workload k namespace name) (workloads (world_of (run_reconciliation MAX dir w)))
  = None.
Proof.
  apply find_none_filter in Habsent. apply find_none_filter.
  rewrite run_reconciliation_not_due; [exact Habsent|].
  intros x Hin Hsame.
  assert (Hx : In x (filter (same_workload k namespace name) (workloads w)))
    by (apply filter_In; now split).
  rewrite Habsent in Hx. destruct Hx.
Qed.

Lemma absent_workload_stays_absent_witness :
  let asleep := world_of (run_reconciliation 5 three_namespaces autoscaled_cluster) in
  let morning := set_clock (mkdt 2026 12 12 8 0 3 0) asleep in
  has_autoscaler "prod" "web" autoscaled_cluster = true /\
  List.length (config_maps asleep) = 1%nat /\
  find (same_workload HorizontalPodAutoscaler "prod" "web")
       (workloads (world_of (run_reconciliation 5 three_namespaces morning))) = None.
Proof.
  intros asleep morning.
  split; [reflexivity|split; [reflexivity|]].
  apply (absent_workload_stays_absent 5 three_namespaces morning
           HorizontalPodAutoscaler "prod" "web").
  reflexivity.
Defined.

(* ================================================================= *)
(** ** What pruning and a failed save leave in the store *)

(** X15: pruning the backups of one resource never deletes the backup
    of another.  In a store where no two ConfigMaps share a namespace
    and a name, the ConfigMaps that the label selector of the resource
    does not pick are the same, in the same order, after
    [prune_old_backups], whatever the retention count and whichever
    delete calls are refused. *)
Theorem prune_spares_other_resources
    (MAX : Z) (namespace : string) (kind : Kind) (name : string) (w : World)
    (Hnames : distinctly_named (config_maps w)) :
  filter (unselected namespace kind name)
         (config_maps (world_of (prune_old_backups MAX namespace kind name w)))
  = filter (unselected namespace kind name) (config_maps w).
Proof.
  destruct (prune_old_backups_store MAX namespace kind name w)
    as (_ & doomed & Hstore & Hdoomed).
  rewrite Hstore, filter_filter.
  apply filter_ext_in. intros cm Hcm.
  destruct (named_in namespace doomed cm) eqn:E; [|reflexivity].
  cbn [negb andb].
  apply existsb_exists in E as (d & Hd & Hsame).
  destruct (Hdoomed d Hd) as (_ & Hin).
  apply firstn_incl in Hin.
  eapply Permutation_in in Hin; [|apply sorted_permutation].
  apply filter_In in Hin as (Hdin & Hdsel).
  unfold same_config_map in Hsame.
  apply andb_true_iff in Hsame as (Hns & Hnm).
  apply String.eqb_eq in Hns, Hnm.
  assert (Hdns : cm_namespace d = namespace).
  { unfold selected in Hdsel.
    repeat (apply andb_true_iff in Hdsel as (Hdsel & _)).
    now apply String.eqb_eq in Hdsel. }
  assert (Heq : cm = d) by (apply Hnames; congruence).
  subst cm. unfold unselected. now rewrite Hdsel.
Qed.

Lemma prune_spares_other_resources_witness :
  let after := world_of (prune_old_backups 1 "prod" Deployment "web" two_resources_store) in
  filter (unselected "prod" Deployment "web") (config_maps after)
  = filter (unselected "prod" Deployment "web") (config_maps two_resources_store) /\
  map cm_name (config_maps after) =
    ["ks-backup-deployment-db-20261211-190000"; "ks-backup-deployment-web-20261212-180000"].
Proof.
  intros after. split; [|reflexivity].
  apply (prune_spares_other_resources 1 "prod" Deployment "web" two_resources_store).
  intros a b Ha Hb _ Hname. cbn in Ha, Hb.
  destruct Ha as [<-|[<-|[<-|[]]]]; destruct Hb as [<-|[<-|[<-|[]]]];
    first [reflexivity|discriminate Hname].
Defined.

(** X16: a save that fails changes nothing.  When the create call of
    [backup_state] is refused, or a ConfigMap of the same name is
    already in the namespace (a save within the same second), the
    function still returns normally, the cluster is exactly as before
    (the earlier snapshot stays, nothing is pruned), the create is the
    only call made and one error is logged. *)
Theorem failed_save_changes_nothing
    (MAX : Z) (namespace : string) (kind : Kind) (name : string)
    (state : Dict Value) (w : World)
    (Hfailed :
       faults w (CreateConfigMap namespace (backup_body namespace kind name state (clock w)))
         <> None \/
       existsb (same_config_map namespace (backup_cm_name kind name (clock w)))
               (config_maps w) = true) :
  let x := backup_state MAX namespace kind name state w in
  result_of x = Ok tt /\
  world_of x = w /\
  levels (events_of x) = [ERROR] /\
  exists st,
    calls (events_of x) =
      [(CreateConfigMap namespace (backup_body namespace kind name state (clock w)), Some st)].
Proof.
  intros x. subst x.
  unfold backup_state.
  rewrite (bind_ok _ _ w w (clock w) []) by reflexivity.
  cbv zeta.
  set (body := backup_body namespace kind name state (clock w)) in *.
  assert (Hc : exists st, create_namespaced_config_map namespace body w =
               (Raise (ApiException st), w, [Called (CreateConfigMap namespace body) (Some st)])).
  { unfold create_namespaced_config_map, api.
    destruct (faults w (CreateConfigMap namespace body)) as [st|] eqn:Hf.
    - now exists st.
    - destruct Hfailed as [Hfailed|Hfailed]; [congruence|].
      cbn [cm_name body backup_body]. rewrite Hfailed. now exists 409. }
  destruct Hc as (st & Hc).
  rewrite (try_api_raise _ _ w w st [Called (CreateConfigMap namespace body) (Some st)])
    by (now apply bind_raise).
  cbn -[append].
  repeat split. now exists st.
Qed.

Lemma failed_save_changes_nothing_witness :
  let first := world_of (backup_state 5 "prod" Deployment "web" [("replicas", VInt 4)]
                           (single web (mkdt 2026 12 11 18 0 7 0))) in
  let again := backup_state 5 "prod" Deployment "web" [("replicas", VInt 0)] first in
  List.length (config_maps first) = 1%nat /\
  result_of again = Ok tt /\ world_of again = first /\ levels (events_of again) = [ERROR].
Proof.
  intros first again. split; [reflexivity|].
  destruct (failed_save_changes_nothing 5 "prod" Deployment "web" [("replicas", VInt 0)] first)
    as (Hr & Hw & Hl & _).
  - right. reflexivity.
  - split; [exact Hr|split; [exact Hw|exact Hl]].
Defined.

(* ================================================================= *)
(** ** Tokens that fit no shape *)

(** X17: a token that fits none of the four shapes is dropped.  In an
    annotation of ASCII characters, a token before the final one that,
    trimmed and lower-cased, is empty, or has no letter and a character
    other than digits and commas (such as "*", "1-5", or a time that is
    not in final position), changes neither the schedule that
    [parse_schedule] returns nor the instants at which
    [is_schedule_active] finds it active. *)
Theorem unrecognised_token_is_dropped
    (ts1 ts2 : list string) (junk tl : string) (now_utc : datetime)
    (Htokens : Forall (fun t => PyStr.has_char ";" t = false) (ts1 ++ junk :: ts2 ++ [tl]))
    (Hascii : Forall ascii_only (ts1 ++ junk :: ts2 ++ [tl]))
    (Hjunk : classify (normalise junk) = None) :
  parse_schedule (PyStr.join ";" (ts1 ++ junk :: ts2 ++ [tl])) =
  parse_schedule (PyStr.join ";" (ts1 ++ ts2 ++ [tl])) /\
  is_schedule_active (Some (PyStr.join ";" (ts1 ++ junk :: ts2 ++ [tl]))) now_utc =
  is_schedule_active (Some (PyStr.join ";" (ts1 ++ ts2 ++ [tl]))) now_utc.
Proof.
  assert (Hactive : forall s, is_schedule_active (Some s) now_utc
                              = spec_active (parse_schedule s) now_utc)
    by (intros [|c s]; reflexivity).
  rewrite !Hactive.
  assert (Hparse : parse_schedule (PyStr.join ";" (ts1 ++ junk :: ts2 ++ [tl])) =
                   parse_schedule (PyStr.join ";" (ts1 ++ ts2 ++ [tl])));
    [|now rewrite Hparse].
  assert (H1 : Forall (fun t => PyStr.has_char ";" t = false) ts1)
    by (apply Forall_app in Htokens; tauto).
  assert (H2 : Forall (fun t => PyStr.has_char ";" t = false) (ts2 ++ [tl])).
  { apply Forall_app in Htokens as (_ & Htokens). now inversion Htokens. }
  rewrite !parse_schedule_parts.
  rewrite (split_join ";" (ts1 ++ junk :: ts2 ++ [tl])) by (assumption || now destruct ts1).
  rewrite (split_join ";" (ts1 ++ ts2 ++ [tl]))
    by (first [apply Forall_app; now split | now destruct ts1, ts2]).
  change (junk :: ts2 ++ [tl])%list with ((junk :: ts2) ++ [tl])%list.
  rewrite !app_assoc, !map_app. cbn [map].
  rewrite !parse_parts_snoc, !fold_left_app. cbn [fold_left].
  assert (Hdrop : forall sp, assign sp (normalise junk) = sp)
    by (intros sp; unfold assign; now rewrite Hjunk).
  now rewrite !Hdrop.
Qed.

Lemma unrecognised_token_is_dropped_witness :
  parse_schedule "2026;09:00;Dec;18:30" = parse_schedule "2026;Dec;18:30" /\
  is_schedule_active (Some "1-5;Fri;09:00") fri_0900 =
    is_schedule_active (Some "Fri;09:00") fri_0900 /\
  is_schedule_active (Some "1-5;Fri;09:00") fri_0900 = true.
Proof.
  split; [|split; [|reflexivity]].
  - apply (unrecognised_token_is_dropped ["2026"] ["Dec"] "09:00" "18:30" fri_0900);
      [repeat constructor|repeat constructor|reflexivity].
  - apply (unrecognised_token_is_dropped [] ["Fri"] "1-5" "09:00" fri_0900);
      [repeat constructor|repeat constructor|reflexivity].
Defined.

(* ================================================================= *)
(** ** What a pass does to a workload that is due *)

Lemma for_each_returns {A} (l : list A) (body : A -> M unit) :
  (forall y w, result_of (body y w) = Ok tt) ->
  forall w, result_of (for_each l body w) = Ok tt.
Proof.
  intros Hbody. induction l as [|a l IH]; intros w; cbn [for_each]; [reflexivity|].
  pose proof (surjective_triple (body a w)) as Ha. rewrite Hbody in Ha.
  rewrite (bind_ok _ _ _ _ _ _ Ha). apply IH.
Qed.

Lemma for_each_cons_world {A} (a : A) (l : list A) (body : A -> M unit) (w : World) :
  result_of (body a w) = Ok tt ->
  world_of (for_each (a :: l) body w) = world_of (for_each l body (world_of (body a w))).
Proof.
  intros Hr. cbn [for_each].
  pose proof (surjective_triple (body a w)) as Ha. rewrite Hr in Ha.
  now rewrite (bind_ok _ _ _ _ _ _ Ha).
Qed.

Lemma for_each_app_world {A} (l1 l2 : list A) (body : A -> M unit) :
  (forall y w, result_of (body y w) = Ok tt) ->
  forall w,
    world_of (for_each (l1 ++ l2) body w) =
    world_of (for_each l2 body (world_of (for_each l1 body w))).
Proof.
  intros Hret. induction l1 as [|a l1 IH]; intros w; [reflexivity|].
  cbn [app]. rewrite !for_each_cons_world by apply Hret. apply IH.
Qed.

(** a loop whose every round keeps [I] and keeps [D], and one of whose
    rounds takes [I] to [D], takes [I] to [D] *)
Lemma for_each_reaches {A} (l : list A) (body : A -> M unit) (I D : World -> Prop) (a : A) :
  (forall y w, result_of (body y w) = Ok tt) ->
  (forall y w, I w -> I (world_of (body y w))) ->
  (forall y w, D w -> D (world_of (body y w))) ->
  (forall w, I w -> D (world_of (body a w))) ->
  In a l ->
  forall w, I w -> D (world_of (for_each l body w)).
Proof.
  intros Hret HI HD Hact.
  assert (Hkeep : forall r w, D w -> D (world_of (for_each r body w))).
  { induction r as [|y r IH]; intros w Hw; [exact Hw|].
    rewrite for_each_cons_world by apply Hret. apply IH, HD, Hw. }
  induction l as [|y r IH]; intros Hin w Hw; [destruct Hin|].
  rewrite for_each_cons_world by apply Hret.
  destruct Hin as [->|Hin].
  - apply Hkeep, Hact, Hw.
  - apply IH; [exact Hin|]. apply HI, Hw.
Qed.

Lemma filter_singleton_split {A} (p : A -> bool) (l : list A) (a : A) :
  filter p l = [a] ->
  exists l1 l2, l = (l1 ++ a :: l2)%list /\ filter p l1 = [] /\ filter p l2 = [].
Proof.
  induction l as [|b l IH]; cbn [filter]; [discriminate|].
  destruct (p b) eqn:E.
  - intros H. injection H as -> Hl. exists [], l. now repeat split.
  - intros H. destruct (IH H) as (l1 & l2 & -> & H1 & H2).
    exists (b :: l1), l2. cbn [filter app]. rewrite E. now repeat split.
Qed.

Lemma filter_nil_all {A} (p : A -> bool) (l : list A) :
  filter p l = [] -> forall y, In y l -> p y = false.
Proof.
  intros H y Hy. destruct (p y) eqn:E; [|reflexivity].
  assert (Hin : In y (filter p l)) by (apply filter_In; now split).
  rewrite H in Hin. destruct Hin.
Qed.

Lemma find_filter_head {A} (p : A -> bool) (l r : list A) (a : A) :
  filter p l = a :: r -> find p l = Some a.
Proof.
  induction l as [|b l IH]; cbn [filter find]; [discriminate|].
  destruct (p b); [|exact IH].
  intros H. now injection H as ->.
Qed.

Lemma filter_map_patched (k : Kind) (namespace name : string) (sp : Spec) (l : list Workload) :
  filter (same_workload k namespace name)
         (map (fun y => if same_workload k namespace name y then set_spec sp y else y) l)
  = map (set_spec sp) (filter (same_workload k namespace name) l).
Proof.
  induction l as [|a l IH]; cbn [map filter]; [reflexivity|].
  destruct (same_workload k namespace name a) eqn:E.
  - rewrite same_workload_set_spec, E. cbn [map]. now rewrite IH.
  - now rewrite E.
Qed.

Lemma try_exception_log_returns (m : M unit) (lvl : Level) (msg : string) (w : World) :
  result_of (try_exception m (log lvl msg) w) = Ok tt.
Proof.
  unfold try_exception, result_of.
  now destruct (m w) as [[[[]|e] w1] ev].
Qed.

Lemma process_item_returns (MAX : Z) (namespace : string) (item : Workload) (kind : Kind)
    (now_utc : datetime) (w : World) :
  result_of (process_item MAX namespace item kind now_utc w) = Ok tt.
Proof.
  rewrite process_item_table. unfold process_single_resource.
  destruct (get_is (annotations_of item) ANNOTATION_NS_CONTROL "Disable"); [reflexivity|].
  destruct (is_schedule_active (get (annotations_of item) ANNOTATION_SCALE_DOWN) now_utc).
  - rewrite bind_log. apply try_exception_log_returns.
  - destruct (is_schedule_active (get (annotations_of item) ANNOTATION_SCALE_UP) now_utc);
      [|reflexivity].
    rewrite bind_log. apply try_exception_log_returns.
Qed.

(** the getter of a kind on a workload that is there, in a calm cluster *)
Lemma getter_reads (k : Kind) (namespace name : string) (w : World) (cur : Workload) :
  calm w ->
  find (same_workload k namespace name) (workloads w) = Some cur ->
  exists e ev, snd (resource_processors k) namespace name w = (Ok (Some [e]), w, ev).
Proof.
  intros Hcalm Hfind.
  destruct (state_getter_spec k namespace name w) as (Hw & _ & _).
  pose proof (getter_run k namespace name w cur Hcalm Hfind) as Hr.
  pose proof (surjective_triple (snd (resource_processors k) namespace name w)) as Hx.
  rewrite Hr, Hw in Hx.
  destruct k; eexists; eexists; exact Hx.
Qed.

Lemma same_workload_kind (k : Kind) (namespace name : string) (y : Workload) :
  same_workload k namespace name y = true ->
  w_kind y = k /\ w_namespace y = namespace /\ w_name y = name.
Proof.
  unfold same_workload. intros H.
  apply andb_true_iff in H as [H Hn]. apply andb_true_iff in H as [Hk Hns].
  apply String.eqb_eq in Hn, Hns.
  repeat split; try assumption.
  now destruct (w_kind y), k.
Qed.

(** the scaler of a kind, downwards, on the one workload of that name *)
Lemma scaler_down_run (k : Kind) (namespace name : string) (w : World) (cur : Workload) :
  calm w ->
  filter (same_workload k namespace name) (workloads w) = [cur] ->
  let w' := world_of (fst (resource_processors k) namespace name down None w) in
  faults w' = faults w /\
  filter (same_workload k namespace name) (workloads w') = hibernated cur.
Proof.
  intros Hcalm Hone w'. subst w'.
  pose proof (find_filter_head _ _ _ _ Hone) as Hfind.
  assert (Hcur : same_workload k namespace name cur = true).
  { assert (Hin : In cur (filter (same_workload k namespace name) (workloads w)))
      by (rewrite Hone; now left).
    now apply filter_In in Hin. }
  destruct (same_workload_kind _ _ _ _ Hcur) as (Hk & _ & _).
  unfold hibernated. rewrite Hk.
  destruct k.
  - rewrite (scale_replicas_run Deployment namespace name down None 0 w cur)
      by (auto || reflexivity || lia).
    split; [reflexivity|].
    cbn [workloads set_workloads]. now rewrite filter_map_patched, Hone.
  - rewrite (scale_replicas_run StatefulSet namespace name down None 0 w cur)
      by (auto || reflexivity || lia).
    split; [reflexivity|].
    cbn [workloads set_workloads]. now rewrite filter_map_patched, Hone.
  - cbn [fst resource_processors]. unfold scale_hpa, try_api.
    rewrite bind_log.
    assert (Hdel : delete_autoscaler name namespace w =
                   (Ok tt,
                    set_workloads
                      (filter (fun y => negb (same_workload HorizontalPodAutoscaler
                                                namespace name y)) (workloads w)) w,
                    [Called (DeleteAutoscaler name namespace) None]))
      by (unfold delete_autoscaler, api; now rewrite Hcalm, Hfind).
    rewrite Hdel. cbn [result_of world_of events_of fst snd].
    split; [reflexivity|].
    cbn [workloads set_workloads].
    apply filter_none. intros y Hy.
    apply filter_In in Hy as [_ Hy]. now apply negb_true_iff in Hy.
  - cbn [fst resource_processors].
    rewrite (scale_cronjob_run namespace name down None true w cur)
      by (auto || reflexivity).
    split; [reflexivity|].
    cbn [workloads set_workloads]. now rewrite filter_map_patched, Hone.
Qed.

Lemma hibernated_set_spec (sp : Spec) (x : Workload) :
  hibernated (set_spec sp x) = hibernated x.
Proof.
  unfold hibernated. cbn [w_kind set_spec]. now destruct (w_kind x).
Qed.

(** one round of the inner loop of [process_resources], on the
    workload that is due *)
Lemma process_item_hibernates (MAX : Z) (now_utc : datetime) (x : Workload) (sp : Spec)
    (w : World) :
  get_is (annotations_of x) ANNOTATION_NS_CONTROL "Disable" = false ->
  is_schedule_active (get (annotations_of x) ANNOTATION_SCALE_DOWN) now_utc = true ->
  calm w ->
  filter (same_workload (w_kind x) (w_namespace x) (w_name x)) (workloads w)
    = [set_spec sp x] ->
  is_hibernated x
    (world_of (process_item MAX (w_namespace x) (set_spec sp x) (w_kind x) now_utc w)).
Proof.
  intros Henabled Hdue Hcalm Hone.
  rewrite process_item_table.
  destruct (process_single_resource_down MAX (w_namespace x) (set_spec sp x) (w_kind x)
              now_utc (fst (resource_processors (w_kind x)))
              (snd (resource_processors (w_kind x))) Henabled Hdue) as (msg & err & ->).
  cbn [w_name set_spec].
  rewrite bind_log.
  destruct (getter_reads _ _ _ w (set_spec sp x) Hcalm (find_filter_head _ _ _ _ Hone))
    as (e & ev & Hget).
  set (saved := backup_state MAX (w_namespace x) (w_kind x) (w_name x) [e] w).
  destruct (backup_state_spec MAX (w_namespace x) (w_kind x) (w_name x) [e] w)
    as (Hbr & Hbw & _).
  destruct (backup_state_keeps (fun _ => true) (fun _ => false) MAX (w_namespace x)
              (w_kind x) (w_name x) [e]) with (w := w) as (_ & _ & Hbf & _);
    [intros cm _; reflexivity|].
  fold saved in Hbr, Hbw, Hbf.
  pose proof (surjective_triple saved) as Hsaved. rewrite Hbr in Hsaved.
  assert (Hcalm1 : calm (world_of saved)) by (intros c; now rewrite Hbf).
  assert (Hone1 : filter (same_workload (w_kind x) (w_namespace x) (w_name x))
                         (workloads (world_of saved)) = [set_spec sp x])
    by (now rewrite Hbw).
  destruct (scaler_down_run _ _ _ _ _ Hcalm1 Hone1) as (Hsf & Hsw).
  pose proof (scaler_returns (w_kind x) (w_namespace x) (w_name x) down None (world_of saved))
    as Hsr.
  set (scaled := fst (resource_processors (w_kind x)) (w_namespace x) (w_name x) down None
                     (world_of saved)) in *.
  pose proof (surjective_triple scaled) as Hscaled. rewrite Hsr in Hscaled.
  rewrite (try_exception_ok _ _ w (world_of scaled) tt
             (ev ++ events_of saved ++ events_of scaled)).
  - split.
    + intros c. cbn [world_of fst snd]. now rewrite Hsf.
    + cbn [world_of fst snd]. now rewrite Hsw, hibernated_set_spec.
  - rewrite (bind_ok _ _ _ _ _ _ Hget).
    fold saved. rewrite (bind_ok _ _ _ _ _ _ Hsaved).
    fold scaled. rewrite Hscaled. reflexivity.
Qed.

Lemma keeps_due_or_hibernated (x : Workload) (w w' : World) :
  keeps (same_workload (w_kind x) (w_namespace x) (w_name x)) (fun _ => false) w w' ->
  (due_or_hibernated x w -> due_or_hibernated x w') /\
  (is_hibernated x w -> is_hibernated x w').
Proof.
  intros (Hw & _ & Hf & _). split.
  - intros (Hcalm & Hx). split; [intros c; now rewrite Hf|]. now rewrite Hw.
  - intros (Hcalm & Hx). split; [intros c; now rewrite Hf|]. now rewrite Hw.
Qed.

Lemma is_hibernated_due_or_hibernated (x : Workload) (w : World) :
  is_hibernated x w -> due_or_hibernated x w.
Proof.
  intros (Hcalm & Hx). split; [exact Hcalm|now left].
Qed.

Lemma hibernated_cases (x : Workload) :
  hibernated x = [] \/ exists sp, hibernated x = [set_spec sp x].
Proof.
  unfold hibernated. destruct (w_kind x); eauto.
Qed.

Lemma Kind_eqb_true (a b : Kind) : Kind_eqb a b = true -> a = b.
Proof. destruct a, b; (reflexivity || discriminate). Qed.

Lemma try_exception_log_world (m : M unit) (lvl : Level) (msg : string) (w : World) :
  world_of (try_exception m (log lvl msg) w) = world_of (m w).
Proof.
  unfold try_exception, world_of.
  now destruct (m w) as [[[a|e] w1] ev].
Qed.

(** one round of the outer loop of [process_resources]: it returns,
    and the cluster it leaves is the one the inner loop leaves, or the
    one it found when the listing is refused *)
Lemma listing_round (MAX : Z) (dir : Directory) (kind : Kind) (namespace : string)
    (now_utc : datetime) (h : Z -> M unit) (o : M unit) (w : World) :
  (forall st w0, result_of (h st w0) = Ok tt /\ world_of (h st w0) = w0) ->
  (forall w0, result_of (o w0) = Ok tt /\ world_of (o w0) = w0) ->
  let round := try_api_else
                 (resources <- list_kind dir kind namespace ;;
                  for_each resources
                    (fun item => process_item MAX namespace item kind now_utc))
                 h o w in
  result_of round = Ok tt /\
  world_of round =
    match refused dir (ListKind kind namespace) with
    | Some _ => w
    | None =>
        world_of (for_each
                    (filter (fun y => (Kind_eqb (w_kind y) kind &&
                                       String.eqb (w_namespace y) namespace)%bool)
                            (workloads w))
                    (fun item => process_item MAX namespace item kind now_utc) w)
    end.
Proof.
  intros Hh Ho round. subst round.
  unfold try_api_else, bind, list_kind.
  destruct (refused dir (ListKind kind namespace)) as [st|].
  - destruct (Hh st w) as [Hr Hw]. unfold result_of, world_of in *.
    destruct (h st w) as [[r w2] ev2]; cbn [fst snd] in *. subst. split; reflexivity.
  - pose proof (for_each_returns
                  (filter (fun y => (Kind_eqb (w_kind y) kind &&
                                     String.eqb (w_namespace y) namespace)%bool)
                          (workloads w))
                  (fun item => process_item MAX namespace item kind now_utc)
                  (fun y w0 => process_item_returns MAX namespace y kind now_utc w0) w) as Hr.
    unfold result_of, world_of in *.
    destruct (for_each _ _ w) as [[r w1] ev1]; cbn [fst snd] in *. subst r.
    split; reflexivity.
Qed.

Lemma process_resources_rounds (MAX : Z) (dir : Directory) (namespace : string)
    (now_utc : datetime) :
  exists round : Kind -> M unit,
    process_resources MAX dir namespace now_utc = for_each supported_kinds round /\
    forall kind w,
      result_of (round kind w) = Ok tt /\
      world_of (round kind w) =
        match refused dir (ListKind kind namespace) with
        | Some _ => w
        | None =>
            world_of (for_each
                        (filter (fun y => (Kind_eqb (w_kind y) kind &&
                                           String.eqb (w_namespace y) namespace)%bool)
                                (workloads w))
                        (fun item => process_item MAX namespace item kind now_utc) w)
        end.
Proof.
  eexists. split; [reflexivity|].
  intros kind w. cbv beta.
  refine (listing_round MAX dir kind namespace now_utc _ _ w _ _).
  - intros st w0. destruct (st =? 403); split; reflexivity.
  - intros w0. split; reflexivity.
Qed.

Lemma process_resources_returns (MAX : Z) (dir : Directory) (namespace : string)
    (now_utc : datetime) (w : World) :
  result_of (process_resources MAX dir namespace now_utc w) = Ok tt.
Proof.
  destruct (process_resources_rounds MAX dir namespace now_utc) as (round & -> & Hround).
  apply for_each_returns. intros kind w0. apply Hround.
Qed.

Lemma listed_items (kind : Kind) (namespace : string) (l : list Workload) (y : Workload) :
  In y (filter (fun y => (Kind_eqb (w_kind y) kind &&
                          String.eqb (w_namespace y) namespace)%bool) l) ->
  same_workload kind namespace (w_name y) y = true.
Proof.
  intros Hy. apply filter_In in Hy as [_ Hy].
  unfold same_workload. now rewrite Hy, String.eqb_refl.
Qed.

Section DuePass.

Variable MAX : Z.
Variable dir : Directory.
Variable now_utc : datetime.
Variable x : Workload.

Hypothesis Henabled : get_is (annotations_of x) ANNOTATION_NS_CONTROL "Disable" = false.
Hypothesis Hdue :
  is_schedule_active (get (annotations_of x) ANNOTATION_SCALE_DOWN) now_utc = true.
Hypothesis Hlisting : refused dir (ListKind (w_kind x) (w_namespace x)) = None.

Let T := same_workload (w_kind x) (w_namespace x) (w_name x).

Lemma items_frame (kind : Kind) (namespace : string) (items : list Workload) :
  (forall y, In y items -> same_workload kind namespace (w_name y) y = true) ->
  filter T items = [] ->
  carries (keeps T (fun _ => false))
          (for_each items (fun item => process_item MAX namespace item kind now_utc)).
Proof.
  intros Hlisted Hnone.
  apply carries_for_each; [apply keeps_refl|apply keeps_trans|].
  intros y Hy.
  apply (process_listed_item_keeps now_utc (w_kind x) (w_namespace x) (w_name x)).
  - now apply Hlisted.
  - intros HT. fold T in HT. rewrite (filter_nil_all _ _ Hnone y Hy) in HT. discriminate.
Qed.

Lemma items_loop_hibernates (items : list Workload) (sp : Spec) (w : World) :
  (forall y, In y items -> same_workload (w_kind x) (w_namespace x) (w_name y) y = true) ->
  filter T items = [set_spec sp x] ->
  calm w ->
  filter T (workloads w) = [set_spec sp x] ->
  is_hibernated x
    (world_of (for_each items
                 (fun item => process_item MAX (w_namespace x) item (w_kind x) now_utc) w)).
Proof.
  intros Hlisted Hitems Hcalm Hone.
  destruct (filter_singleton_split _ _ _ Hitems) as (l1 & l2 & -> & H1 & H2).
  rewrite for_each_app_world by (intros; apply process_item_returns).
  rewrite for_each_cons_world by apply process_item_returns.
  set (w1 := world_of (for_each l1 _ w)).
  assert (K1 : keeps T (fun _ => false) w w1).
  { apply items_frame; [|exact H1].
    intros y Hy. apply Hlisted. apply in_or_app. now left. }
  destruct K1 as (Kw & _ & Kf & _).
  assert (Hh : is_hibernated x
                 (world_of (process_item MAX (w_namespace x) (set_spec sp x) (w_kind x)
                              now_utc w1))).
  { apply process_item_hibernates; try assumption.
    - intros c. rewrite Kf. apply Hcalm.
    - fold T. now rewrite Kw. }
  set (w2 := world_of (process_item _ _ _ _ _ w1)) in *.
  apply (keeps_due_or_hibernated x w2); [|exact Hh].
  apply items_frame; [|exact H2].
  intros y Hy. apply Hlisted. apply in_or_app. right. now right.
Qed.

Lemma filter_listed_target (l : list Workload) :
  filter T (filter (fun y => (Kind_eqb (w_kind y) (w_kind x) &&
                              String.eqb (w_namespace y) (w_namespace x))%bool) l)
  = filter T l.
Proof.
  apply filter_after_filter. intros y Hy.
  unfold T, same_workload. now rewrite Hy.
Qed.

(** the round of the workload's own kind and namespace *)
Lemma round_hibernates (w : World) :
  due_or_hibernated x w ->
  is_hibernated x
    (world_of (for_each
                 (filter (fun y => (Kind_eqb (w_kind y) (w_kind x) &&
                                    String.eqb (w_namespace y) (w_namespace x))%bool)
                         (workloads w))
                 (fun item => process_item MAX (w_namespace x) item (w_kind x) now_utc) w)).
Proof.
  intros (Hcalm & Hx).
  assert (Hcases : (filter T (workloads w) = [] /\ hibernated x = []) \/
                   exists sp, filter T (workloads w) = [set_spec sp x]).
  { fold T in Hx. destruct Hx as [Hx|Hx]; [|now right].
    destruct (hibernated_cases x) as [Hn|(sp & Hs)].
    - left. split; congruence.
    - right. exists sp. congruence. }
  destruct Hcases as [(Hnone & Hhib)|(sp & Hone)].
  - apply (keeps_due_or_hibernated x w).
    + apply items_frame; [apply listed_items|].
      now rewrite filter_listed_target.
    + split; [exact Hcalm|]. fold T. congruence.
  - apply items_loop_hibernates with (sp := sp); try assumption.
    + apply listed_items.
    + now rewrite filter_listed_target.
Qed.

(** the rounds of the other kinds and namespaces *)
Lemma round_frame (kind : Kind) (namespace : string) (w : World) :
  (Kind_eqb kind (w_kind x) && String.eqb namespace (w_namespace x))%bool = false ->
  keeps T (fun _ => false) w
    (world_of (for_each
                 (filter (fun y => (Kind_eqb (w_kind y) kind &&
                                    String.eqb (w_namespace y) namespace)%bool)
                         (workloads w))
                 (fun item => process_item MAX namespace item kind now_utc) w)).
Proof.
  intros Hother.
  apply items_frame; [apply listed_items|].
  apply filter_none. intros y Hy.
  apply listed_items in Hy.
  unfold T.
  rewrite (same_workload_of_listed (w_kind x) (w_namespace x) (w_name x) _ _ _ _ Hy).
  now rewrite Hother.
Qed.

Lemma process_resources_hibernates (w : World) :
  due_or_hibernated x w ->
  is_hibernated x (world_of (process_resources MAX dir (w_namespace x) now_utc w)).
Proof.
  destruct (process_resources_rounds MAX dir (w_namespace x) now_utc)
    as (round & -> & Hround).
  assert (Hstep : forall kind w0,
            (due_or_hibernated x w0 -> due_or_hibernated x (world_of (round kind w0))) /\
            (is_hibernated x w0 -> is_hibernated x (world_of (round kind w0)))).
  { intros kind w0. destruct (Hround kind w0) as [_ ->].
    destruct (Kind_eqb kind (w_kind x)) eqn:E.
    - apply Kind_eqb_true in E. subst kind. rewrite Hlisting.
      split; intros H0.
      + now apply is_hibernated_due_or_hibernated, round_hibernates.
      + now apply round_hibernates, is_hibernated_due_or_hibernated.
    - destruct (refused dir (ListKind kind (w_namespace x))); [tauto|].
      apply keeps_due_or_hibernated, round_frame. now rewrite E. }
  revert w.
  apply for_each_reaches with (a := w_kind x).
  - intros kind w0. apply Hround.
  - intros kind w0. apply Hstep.
  - intros kind w0. apply Hstep.
  - intros w0 H0. destruct (Hround (w_kind x) w0) as [_ ->]. rewrite Hlisting.
    now apply round_hibernates.
  - unfold supported_kinds. destruct (w_kind x); cbn; auto.
Qed.

Lemma process_resources_elsewhere (namespace : string) (w : World) :
  namespace <> w_namespace x ->
  keeps T (fun _ => false) w (world_of (process_resources MAX dir namespace now_utc w)).
Proof.
  intros Hother.
  apply process_resources_keeps; [|intros cm _; reflexivity].
  intros kind name y Hy. unfold T.
  rewrite (same_workload_of_listed (w_kind x) (w_namespace x) (w_name x) _ _ _ _ Hy).
  apply String.eqb_neq in Hother. rewrite Hother.
  now destruct (Kind_eqb kind (w_kind x)).
Qed.

Lemma pass_hibernates (w : World) :
  now_utc = clock w ->
  refused dir ListNamespaces = None ->
  (exists ns, In ns (namespaces dir) /\ ns_name ns = w_namespace x /\ eligible ns = true) ->
  due_or_hibernated x w ->
  is_hibernated x (world_of (run_reconciliation MAX dir w)).
Proof.
  intros Hnow Hnamespaces (ns & Hin & Hname & Hel) Hw.
  unfold run_reconciliation.
  rewrite (bind_ok _ _ w w (clock w) []) by reflexivity.
  unfold world_of at 1. cbn [fst snd].
  rewrite try_exception_log_world, <- Hnow.
  destruct (get_eligible_namespaces_outcome dir w) as (Hgw & _ & Hgr).
  rewrite Hnamespaces in Hgr.
  pose proof (surjective_triple (get_eligible_namespaces dir w)) as Hx.
  rewrite Hgr, Hgw in Hx.
  rewrite (bind_ok _ _ _ _ _ _ Hx).
  unfold world_of at 1. cbn [fst snd].
  revert w Hw Hgw Hgr Hx Hnow.
  assert (Hstep : forall n w0,
            (due_or_hibernated x w0 ->
             due_or_hibernated x (world_of (process_resources MAX dir n now_utc w0))) /\
            (is_hibernated x w0 ->
             is_hibernated x (world_of (process_resources MAX dir n now_utc w0)))).
  { intros n w0. destruct (String.eqb_spec n (w_namespace x)) as [->|Hother].
    - split; intros H0.
      + now apply is_hibernated_due_or_hibernated, process_resources_hibernates.
      + now apply process_resources_hibernates, is_hibernated_due_or_hibernated.
    - now apply keeps_due_or_hibernated, process_resources_elsewhere. }
  intros w Hw _ _ _ _. revert w Hw.
  apply for_each_reaches with (a := w_namespace x).
  - intros n w0. rewrite bind_log. apply process_resources_returns.
  - intros n w0. rewrite bind_log. apply Hstep.
  - intros n w0. rewrite bind_log. apply Hstep.
  - intros w0 H0. rewrite bind_log. now apply process_resources_hibernates.
  - apply in_map_iff. exists ns. split; [exact Hname|].
    apply filter_In. now split.
Qed.

End DuePass.

(** X18: a pass hibernates the workload that is due.  In a cluster
    that refuses no call, take a workload that is the only one of its
    kind, namespace and name, is not opted out, whose scale-down
    schedule is active at the clock, in a store whose ConfigMaps all
    carry their creation time; let its namespace be listed and eligible
    and the listing of its kind in that namespace be answered.  After
    [run_reconciliation] the workload is hibernated: a Deployment or
    StatefulSet has zero replicas, a CronJob is suspended, an autoscaler
    is gone; whatever other workloads and namespaces there are, and
    whichever other listings are refused. *)
Theorem due_workload_is_hibernated
    (MAX : Z) (dir : Directory) (w : World) (x : Workload)
    (Hcalm : forall c, faults w c = None)
    (Hnamespaces : refused dir ListNamespaces = None)
    (Hlisting : refused dir (ListKind (w_kind x) (w_namespace x)) = None)
    (Heligible : exists ns,
        In ns (namespaces dir) /\ ns_name ns = w_namespace x /\ eligible ns = true)
    (Hunique : filter (same_workload (w_kind x) (w_namespace x) (w_name x)) (workloads w)
               = [x])
    (Hdated : dated (config_maps w))
    (Henabled : get_is (annotations_of x) ANNOTATION_NS_CONTROL "Disable" = false)
    (Hdue : is_schedule_active (get (annotations_of x) ANNOTATION_SCALE_DOWN) (clock w)
            = true) :
  filter (same_workload (w_kind x) (w_namespace x) (w_name x))
         (workloads (world_of (run_reconciliation MAX dir w)))
  = hibernated x.
Proof.
  apply (pass_hibernates MAX dir (clock w) x Henabled Hdue Hlisting w eq_refl
           Hnamespaces Heligible).
  split; [exact Hcalm|].
  right. exists (w_spec x). now destruct x.
Qed.

Lemma due_workload_is_hibernated_witness :
  let x := mkWorkload Deployment "prod" "web" (Some [("ks_scale_down", "18:00")])
             (ReplicaSpec (Some 4)) in
  filter (same_workload Deployment "prod" "web")
         (workloads (world_of (run_reconciliation 5 three_namespaces busy_cluster)))
  = [set_spec (ReplicaSpec (Some 0)) x].
Proof.
  intros x.
  apply (due_workload_is_hibernated 5 three_namespaces busy_cluster x).
  - reflexivity.
  - reflexivity.
  - reflexivity.
  - exists (mkNamespace "prod" (Some [("team", "web")])).
    split; [right; left; reflexivity|split; reflexivity].
  - reflexivity.
  - intros cm [].
  - reflexivity.
  - reflexivity.
Defined.

(* ================================================================= *)
(** ** A scale-down tick, then a scale-up tick *)

Lemma process_item_down_world (MAX : Z) (namespace : string) (item : Workload) (kind : Kind)
    (now_utc : datetime) (w : World) (e : string * Value) (d : Dict Value)
    (ev : list Event) :
  get_is (annotations_of item) ANNOTATION_NS_CONTROL "Disable" = false ->
  is_schedule_active (get (annotations_of item) ANNOTATION_SCALE_DOWN) now_utc = true ->
  snd (resource_processors kind) namespace (w_name item) w = (Ok (Some (e :: d)), w, ev) ->
  world_of (process_item MAX namespace item kind now_utc w) =
  world_of (fst (resource_processors kind) namespace (w_name item) down None
              (world_of (backup_state MAX namespace kind (w_name item) (e :: d) w))).
Proof.
  intros Henabled Hdue Hget.
  rewrite process_item_table.
  destruct (process_single_resource_down MAX namespace item kind now_utc
              (fst (resource_processors kind)) (snd (resource_processors kind))
              Henabled Hdue) as (msg & err & ->).
  rewrite bind_log.
  set (saved := backup_state MAX namespace kind (w_name item) (e :: d) w).
  destruct (backup_state_spec MAX namespace kind (w_name item) (e :: d) w) as (Hbr & _ & _).
  fold saved in Hbr.
  pose proof (surjective_triple saved) as Hsaved. rewrite Hbr in Hsaved.
  pose proof (scaler_returns kind namespace (w_name item) down None (world_of saved)) as Hsr.
  set (scaled := fst (resource_processors kind) namespace (w_name item) down None
                     (world_of saved)) in *.
  pose proof (surjective_triple scaled) as Hscaled. rewrite Hsr in Hscaled.
  rewrite (try_exception_ok _ _ w (world_of scaled) tt
             (ev ++ events_of saved ++ events_of scaled)); [reflexivity|].
  rewrite (bind_ok _ _ _ _ _ _ Hget).
  fold saved. rewrite (bind_ok _ _ _ _ _ _ Hsaved).
  fold scaled. rewrite Hscaled. reflexivity.
Qed.

Lemma process_item_up_world (MAX : Z) (namespace : string) (item : Workload) (kind : Kind)
    (now_utc : datetime) (w : World) (e : string * Value) (d : Dict Value) :
  get_is (annotations_of item) ANNOTATION_NS_CONTROL "Disable" = false ->
  is_schedule_active (get (annotations_of item) ANNOTATION_SCALE_DOWN) now_utc = false ->
  is_schedule_active (get (annotations_of item) ANNOTATION_SCALE_UP) now_utc = true ->
  result_of (find_latest_backup_state namespace kind (w_name item) w) = Ok (Some (e :: d)) ->
  world_of (process_item MAX namespace item kind now_utc w) =
  world_of (fst (resource_processors kind) namespace (w_name item) up (Some (e :: d)) w).
Proof.
  intros Henabled Hnot_down Hup Hres.
  rewrite process_item_table.
  destruct (process_single_resource_up MAX namespace item kind now_utc
              (fst (resource_processors kind)) (snd (resource_processors kind))
              Henabled Hnot_down Hup) as (msg & err & ->).
  rewrite bind_log.
  destruct (find_latest_backup_state_outcome namespace kind (w_name item) w) as (Hw & _ & _).
  pose proof (surjective_triple (find_latest_backup_state namespace kind (w_name item) w))
    as Hx.
  rewrite Hres, Hw in Hx.
  pose proof (scaler_returns kind namespace (w_name item) up (Some (e :: d)) w) as Hsr.
  set (scaled := fst (resource_processors kind) namespace (w_name item) up (Some (e :: d)) w)
    in *.
  pose proof (surjective_triple scaled) as Hscaled. rewrite Hsr in Hscaled.
  rewrite (try_exception_ok _ _ w (world_of scaled) tt
             (events_of (find_latest_backup_state namespace kind (w_name item) w)
              ++ events_of scaled)); [reflexivity|].
  rewrite (bind_ok _ _ _ _ _ _ Hx).
  cbn [truthy negb]. fold scaled. rewrite Hscaled. reflexivity.
Qed.

Lemma find_latest_backup_state_same_store (namespace : string) (kind : Kind) (name : string)
    (w1 w2 : World) :
  config_maps w1 = config_maps w2 ->
  faults w1 = faults w2 ->
  result_of (find_latest_backup_state namespace kind name w1) =
  result_of (find_latest_backup_state namespace kind name w2).
Proof.
  intros Hcm Hf.
  destruct (find_latest_backup_state_outcome namespace kind name w1) as (_ & _ & H1).
  destruct (find_latest_backup_state_outcome namespace kind name w2) as (_ & _ & H2).
  rewrite Hcm, Hf in H1. rewrite <- H2 in H1.
  now injection H1.
Qed.

Lemma hibernated_not_autoscaler (x : Workload) :
  w_kind x <> HorizontalPodAutoscaler -> exists sp, hibernated x = [set_spec sp x].
Proof.
  intros Hk. unfold hibernated. destruct (w_kind x); eauto. now contradiction Hk.
Qed.

Lemma or_int_positive (r : Z) : 1 <= r -> or_int (Some r) 1 = r.
Proof.
  intros Hr. unfold or_int.
  destruct (r =? 0) eqn:E; [apply Z.eqb_eq in E; lia|reflexivity].
Qed.

Lemma restorable_not_autoscaler (x : Workload) :
  restorable x -> w_kind x <> HorizontalPodAutoscaler.
Proof.
  unfold restorable. intros H E. rewrite E in H. exact H.
Qed.

(** scaling up, from the state the getter read before the scale-down,
    a cluster that holds the workload as the scale-down left it: the
    workload is again what it was *)
Lemma scaler_up_restores (x : Workload) (w1 w2 : World) (state : Dict Value) :
  restorable x ->
  calm w1 ->
  filter (same_workload (w_kind x) (w_namespace x) (w_name x)) (workloads w1) = [x] ->
  result_of (snd (resource_processors (w_kind x)) (w_namespace x) (w_name x) w1)
  = Ok (Some state) ->
  calm w2 ->
  filter (same_workload (w_kind x) (w_namespace x) (w_name x)) (workloads w2)
  = hibernated x ->
  filter (same_workload (w_kind x) (w_namespace x) (w_name x))
         (workloads (world_of (fst (resource_processors (w_kind x)) (w_namespace x)
                                 (w_name x) up (Some state) w2)))
  = [x].
Proof.
  intros Hres Hcalm1 Hone Hstate Hcalm2 Hw2.
  pose proof (find_filter_head _ _ _ _ Hone) as Hfind.
  rewrite (getter_run _ _ _ w1 x Hcalm1 Hfind) in Hstate.
  injection Hstate as <-.
  destruct x as [k namespace name annots sp].
  unfold restorable, hibernated in *.
  cbn [w_kind w_namespace w_name w_spec] in *.
  destruct k, sp as [[r|]|d|[b|]]; try contradiction;
    pose proof (find_filter_head _ _ _ _ Hw2) as Hfind2;
    cbn [spec_replicas spec_suspend or_false]; try rewrite (or_int_positive r Hres);
    set (awake := world_of _).
  - assert (Hawake : awake =
              set_workloads
                (map (fun y => if same_workload Deployment namespace name y
                               then set_spec (ReplicaSpec (Some r)) y else y)
                     (workloads w2)) w2)
      by (unfold awake;
          eapply scale_replicas_run;
          [left; reflexivity|exact Hcalm2|exact Hfind2|reflexivity|lia]).
    rewrite Hawake. cbn [workloads set_workloads].
    rewrite filter_map_patched, Hw2. reflexivity.
  - assert (Hawake : awake =
              set_workloads
                (map (fun y => if same_workload StatefulSet namespace name y
                               then set_spec (ReplicaSpec (Some r)) y else y)
                     (workloads w2)) w2)
      by (unfold awake;
          eapply scale_replicas_run;
          [right; reflexivity|exact Hcalm2|exact Hfind2|reflexivity|lia]).
    rewrite Hawake. cbn [workloads set_workloads].
    rewrite filter_map_patched, Hw2. reflexivity.
  - assert (Hawake : awake =
              set_workloads
                (map (fun y => if same_workload CronJob namespace name y
                               then set_spec (CronSpec (Some b)) y else y)
                     (workloads w2)) w2)
      by (unfold awake; cbn [fst resource_processors];
          eapply scale_cronjob_run;
          [exact Hcalm2|exact Hfind2|reflexivity]).
    rewrite Hawake. cbn [workloads set_workloads].
    rewrite filter_map_patched, Hw2. reflexivity.
Qed.

(** X9: hibernating and waking a workload gives the workload back.  In
    a cluster that refuses no call, take a Deployment or StatefulSet
    with a replica count of at least one, or a CronJob whose [suspend]
    field is set, that is the only workload of its kind, namespace and
    name.  The getter of its kind reads a state; the scaler, asked to
    scale down, leaves the workload with zero replicas (suspended, for
    a CronJob); and the scaler, asked to scale up from the state that
    was read, leaves the workload exactly as it was at the start. *)
Theorem hibernate_then_wake
    (x : Workload) (w : World)
    (Hfaults : forall c, faults w c = None)
    (Hrestorable : restorable x)
    (Hunique : filter (same_workload (w_kind x) (w_namespace x) (w_name x)) (workloads w)
               = [x]) :
  let scaler := fst (resource_processors (w_kind x)) (w_namespace x) (w_name x) in
  let getter := snd (resource_processors (w_kind x)) (w_namespace x) (w_name x) in
  exists state,
    result_of (getter w) = Ok (Some state) /\
    let asleep := world_of (scaler down None w) in
    let awake := world_of (scaler up (Some state) asleep) in
    filter (same_workload (w_kind x) (w_namespace x) (w_name x)) (workloads asleep)
    = hibernated x /\
    filter (same_workload (w_kind x) (w_namespace x) (w_name x)) (workloads awake)
    = [x].
Proof.
  intros scaler getter. subst scaler getter.
  pose proof (find_filter_head _ _ _ _ Hunique) as Hfind.
  destruct (getter_reads _ _ _ w x Hfaults Hfind) as (e & ev & Hget).
  exists [e]. split; [now rewrite Hget|].
  cbv zeta.
  destruct (scaler_down_run _ _ _ _ _ Hfaults Hunique) as (Hsf & Hsw).
  split; [exact Hsw|].
  apply (scaler_up_restores x w); try assumption.
  - now rewrite Hget.
  - intros c. rewrite Hsf. apply Hfaults.
Qed.

Lemma hibernate_then_wake_witness :
  let w := single web (mkdt 2026 12 11 18 0 0 0) in
  let asleep := world_of (scale_deployment "prod" "web" down None w) in
  let awake := world_of (scale_deployment "prod" "web" up (Some [("replicas", VInt 4)]) asleep) in
  map w_spec (workloads asleep) = [ReplicaSpec (Some 0)] /\
  workloads awake = [web].
Proof.
  intros w asleep awake.
  split; [reflexivity|].
  destruct (hibernate_then_wake web w) as (state & Hread & _ & Hback).
  - reflexivity.
  - unfold restorable. cbn. lia.
  - reflexivity.
  - injection Hread as <-. exact Hback.
Defined.

(** X19: a scale-down tick followed by a scale-up tick gives the
    workload back.  In a cluster that refuses no call, take a Deployment
    or StatefulSet with at least one replica, or a CronJob whose
    [suspend] field is set, that is the only workload of its kind,
    namespace and name and is not opted out; let its scale-down schedule
    be active at the clock, the name of the backup be free and the
    earlier backups of the workload carry a creation time that is
    before the clock.  [process_single_resource] hibernates it; and
    when, at a later instant at which only its scale-up schedule is
    active, [process_single_resource] is run on the hibernated
    workload, the workload is again exactly what it was before the
    scale-down. *)
Theorem hibernation_round_trip
    (MAX : Z) (x : Workload) (w : World) (later : datetime)
    (Hcalm : forall c, faults w c = None)
    (Hrestorable : restorable x)
    (Hunique : filter (same_workload (w_kind x) (w_namespace x) (w_name x)) (workloads w)
               = [x])
    (Henabled : get_is (annotations_of x) ANNOTATION_NS_CONTROL "Disable" = false)
    (Hdown : is_schedule_active (get (annotations_of x) ANNOTATION_SCALE_DOWN) (clock w)
             = true)
    (Hfree : existsb (same_config_map (w_namespace x)
                        (backup_cm_name (w_kind x) (w_name x) (clock w)))
                     (config_maps w) = false)
    (Holder : forall cm, In cm (config_maps w) ->
                selected (w_namespace x) (w_kind x) (w_name x) cm = true ->
                stamped_before (clock w) cm)
    (Hnot_down : is_schedule_active (get (annotations_of x) ANNOTATION_SCALE_DOWN) later
                 = false)
    (Hup : is_schedule_active (get (annotations_of x) ANNOTATION_SCALE_UP) later = true) :
  let asleep := world_of (process_item MAX (w_namespace x) x (w_kind x) (clock w) w) in
  exists x0,
    hibernated x = [x0] /\
    filter (same_workload (w_kind x) (w_namespace x) (w_name x)) (workloads asleep) = [x0] /\
    let awake := world_of (process_item MAX (w_namespace x) x0 (w_kind x) later
                             (set_clock later asleep)) in
    filter (same_workload (w_kind x) (w_namespace x) (w_name x)) (workloads awake) = [x].
Proof.
  intros asleep.
  destruct (hibernated_not_autoscaler x (restorable_not_autoscaler x Hrestorable))
    as (sp & Hhib).
  exists (set_spec sp x).
  assert (Hkey : forall cm, In cm (config_maps w) ->
                   selected (w_namespace x) (w_kind x) (w_name x) cm = true ->
                   creation_key cm < timestamp (clock w)).
  { intros cm Hin Hsel. destruct (Holder cm Hin Hsel) as (t & Ht & Hlt).
    unfold creation_key. now rewrite Ht. }
  clear Holder.
  pose proof (find_filter_head _ _ _ _ Hunique) as Hfind.
  destruct (getter_reads _ _ _ w x Hcalm Hfind) as (e & ev & Hget).
  set (saved := world_of (backup_state MAX (w_namespace x) (w_kind x) (w_name x) [e] w)).
  assert (Hasleep : asleep =
            world_of (fst (resource_processors (w_kind x)) (w_namespace x) (w_name x)
                        down None saved))
    by (apply (process_item_down_world MAX (w_namespace x) x (w_kind x) (clock w) w e [] ev
                 Henabled Hdown Hget)).
  destruct (backup_state_spec MAX (w_namespace x) (w_kind x) (w_name x) [e] w)
    as (_ & Hbw & _).
  destruct (backup_state_keeps (fun _ => true) (fun _ => false) MAX (w_namespace x)
              (w_kind x) (w_name x) [e]) with (w := w) as (_ & _ & Hbf & _);
    [intros cm _; reflexivity|].
  fold saved in Hbw, Hbf.
  assert (Hcalm1 : calm saved) by (intros c; now rewrite Hbf).
  assert (Hone1 : filter (same_workload (w_kind x) (w_namespace x) (w_name x))
                         (workloads saved) = [x]) by (now rewrite Hbw).
  destruct (scaler_down_run _ _ _ _ _ Hcalm1 Hone1) as (Hsf & Hsw).
  destruct (scaler_keeps (fun _ => false) (fun _ => true) (w_kind x) (w_namespace x)
              (w_name x) down None) with (w := saved) as (_ & Hsc & _);
    [intros y _; reflexivity|].
  rewrite !filter_true in Hsc.
  rewrite <- Hasleep in Hsf, Hsw, Hsc.
  rewrite Hhib in Hsw.
  split; [exact Hhib|split; [exact Hsw|]].
  cbv zeta.
  assert (Hrestored : result_of (find_latest_backup_state (w_namespace x) (w_kind x)
                                   (w_name x) (set_clock later asleep)) = Ok (Some [e])).
  { rewrite (find_latest_backup_state_same_store _ _ _ (set_clock later asleep) saved)
      by (cbn [config_maps faults set_clock]; assumption).
    apply backup_state_then_find_latest; auto. }
  rewrite (process_item_up_world MAX (w_namespace x) (set_spec sp x) (w_kind x) later
             (set_clock later asleep) e [] Henabled Hnot_down Hup Hrestored).
  cbn [w_name set_spec].
  apply (scaler_up_restores x w (set_clock later asleep) [e]).
  - exact Hrestorable.
  - exact Hcalm.
  - exact Hunique.
  - now rewrite Hget.
  - intros c. cbn [faults set_clock]. rewrite Hsf. apply Hcalm1.
  - cbn [workloads set_clock]. now rewrite Hhib.
Qed.

Lemma hibernation_round_trip_witness :
  let w := single web (mkdt 2026 12 11 18 0 7 0) in
  let asleep := world_of (process_item 5 "prod" web Deployment (clock w) w) in
  let awake := world_of (process_item 5 "prod" (set_spec (ReplicaSpec (Some 0)) web)
                           Deployment (mkdt 2026 12 12 8 0 3 0)
                           (set_clock (mkdt 2026 12 12 8 0 3 0) asleep)) in
  map w_spec (workloads asleep) = [ReplicaSpec (Some 0)] /\
  workloads awake = [web].
Proof.
  intros w asleep awake.
  split; [reflexivity|].
  destruct (hibernation_round_trip 5 web w (mkdt 2026 12 12 8 0 3 0))
    as (x0 & Hx0 & _ & Hback).
  - reflexivity.
  - unfold restorable. cbn. lia.
  - reflexivity.
  - reflexivity.
  - reflexivity.
  - reflexivity.
  - intros cm [].
  - reflexivity.
  - reflexivity.
  - injection Hx0 as <-. exact Hback.
Defined.

(* ================================================================= *)
(** ** What a pass leaves of a workload and of its backups *)

Lemma spares_refl (x : Workload) (w : World) : spares x w w.
Proof.
  intros Hd. split; [exact Hd|split; [apply keeps_refl|tauto]].
Qed.

Lemma spares_trans (x : Workload) (a b c : World) :
  spares x a b -> spares x b c -> spares x a c.
Proof.
  intros Hab Hbc Hd.
  destruct (Hab Hd) as (Hdb & Kab & Fab).
  destruct (Hbc Hdb) as (Hdc & Kbc & Fbc).
  split; [exact Hdc|split; [eapply keeps_trans; eassumption|]].
  intros Hf. destruct Kab as (_ & _ & _ & Hclock).
  rewrite Hclock in Fbc. apply Fbc, Fab, Hf.
Qed.

(** a computation that touches no ConfigMap and leaves [x] alone *)
Lemma carries_spares_of_keeps {A} (x : Workload) (m : M A) :
  carries (keeps (same_workload (w_kind x) (w_namespace x) (w_name x)) (fun _ => true)) m ->
  carries (spares x) m.
Proof.
  intros H w Hd. destruct (H w) as (Hw & Hc & Hf & Hk).
  rewrite !filter_true in Hc.
  split; [now rewrite Hc|]. split.
  - split; [exact Hw|]. split; [now rewrite Hc|]. now split.
  - unfold free_name. now rewrite Hc.
Qed.

Lemma other_resource_misses (x : Workload) (kind : Kind) (namespace name : string) :
  other_resource x kind namespace name ->
  misses (same_workload (w_kind x) (w_namespace x) (w_name x)) kind namespace name.
Proof.
  intros Hother y Hy.
  destruct (same_workload (w_kind x) (w_namespace x) (w_name x) y) eqn:E; [|reflexivity].
  exfalso. apply Hother.
  apply same_workload_kind in Hy as (<- & <- & <-).
  apply same_workload_kind in E as (-> & -> & ->).
  now repeat split.
Qed.

Lemma kind_str_inj (k1 k2 : Kind) : kind_str k1 = kind_str k2 -> k1 = k2.
Proof. destruct k1, k2; (reflexivity || discriminate). Qed.

Lemma get_is_both (d : Dict string) (key a b : string) :
  get_is d key a = true -> get_is d key b = true -> a = b.
Proof.
  unfold get_is. destruct (get d key) as [v|]; [|discriminate].
  intros Ha Hb. apply String.eqb_eq in Ha, Hb. congruence.
Qed.

(** the label selectors of two resources pick no ConfigMap in common *)
Lemma selected_both (ns1 : string) (k1 : Kind) (n1 : string) (ns2 : string) (k2 : Kind)
    (n2 : string) (cm : ConfigMap) :
  selected ns1 k1 n1 cm = true -> selected ns2 k2 n2 cm = true ->
  k2 = k1 /\ ns2 = ns1 /\ n2 = n1.
Proof.
  unfold selected. intros H1 H2.
  apply andb_true_iff in H1 as [H1 Hn1]. apply andb_true_iff in H1 as [H1 Hk1].
  apply andb_true_iff in H1 as [Hs1 _].
  apply andb_true_iff in H2 as [H2 Hn2]. apply andb_true_iff in H2 as [H2 Hk2].
  apply andb_true_iff in H2 as [Hs2 _].
  apply String.eqb_eq in Hs1, Hs2.
  split; [|split].
  - apply kind_str_inj. exact (get_is_both _ _ _ _ Hk2 Hk1).
  - congruence.
  - exact (get_is_both _ _ _ _ Hn2 Hn1).
Qed.

Lemma backup_cm_name_inj (k1 k2 : Kind) (n1 n2 : string) (t : datetime) :
  backup_cm_name k1 n1 t = backup_cm_name k2 n2 t -> k1 = k2 /\ n1 = n2.
Proof.
  unfold backup_cm_name, CONFIGMAP_PREFIX. intros H.
  change ("ks-backup" ++ "-" ++ PyStr.lower (kind_str k1) ++ "-" ++ n1 ++ "-"
          ++ DateTime.fmt_stamp t)
    with ("ks-backup-" ++ (PyStr.lower (kind_str k1) ++ "-"
          ++ (n1 ++ "-" ++ DateTime.fmt_stamp t))) in H.
  change ("ks-backup" ++ "-" ++ PyStr.lower (kind_str k2) ++ "-" ++ n2 ++ "-"
          ++ DateTime.fmt_stamp t)
    with ("ks-backup-" ++ (PyStr.lower (kind_str k2) ++ "-"
          ++ (n2 ++ "-" ++ DateTime.fmt_stamp t))) in H.
  injection H as H.
  apply kind_prefix_inj in H as [Hk H].
  apply append_inj_same_suffix_length in H as [Hn _]; [|reflexivity].
  now split.
Qed.

Lemma distinctly_named_filter (p : ConfigMap -> bool) (cms : list ConfigMap) :
  distinctly_named cms -> distinctly_named (filter p cms).
Proof.
  intros Hd a b Ha Hb. apply filter_In in Ha as [Ha _]. apply filter_In in Hb as [Hb _].
  now apply Hd.
Qed.

Lemma distinctly_named_snoc (cms : list ConfigMap) (cm : ConfigMap) :
  distinctly_named cms ->
  existsb (same_config_map (cm_namespace cm) (cm_name cm)) cms = false ->
  distinctly_named (cms ++ [cm]).
Proof.
  intros Hd Hfree a b Ha Hb Hns Hnm.
  assert (Hclash : forall c, In c cms -> cm_namespace c = cm_namespace cm ->
                     cm_name c = cm_name cm -> False).
  { intros c Hc Hcns Hcnm.
    assert (Hex : existsb (same_config_map (cm_namespace cm) (cm_name cm)) cms = true).
    { apply existsb_exists. exists c. split; [exact Hc|].
      unfold same_config_map. now rewrite Hcns, Hcnm, !String.eqb_refl. }
    congruence. }
  apply in_app_or in Ha. apply in_app_or in Hb.
  destruct Ha as [Ha|[<-|[]]], Hb as [Hb|[<-|[]]].
  - now apply Hd.
  - exfalso. now apply (Hclash a).
  - exfalso. apply (Hclash b); [exact Hb|congruence|congruence].
  - reflexivity.
Qed.

(** the cluster a save leaves: the one it found when the create fails,
    and otherwise the one pruning leaves of the store with the new
    snapshot *)
Lemma backup_state_world (MAX : Z) (namespace : string) (kind : Kind) (name : string)
    (state : Dict Value) (w : World) :
  world_of (backup_state MAX namespace kind name state w) = w \/
  (free_name namespace (backup_cm_name kind name (clock w)) w /\
   world_of (backup_state MAX namespace kind name state w) =
   world_of (prune_old_backups MAX namespace kind name
               (set_config_maps
                  (config_maps w ++ [saved_snapshot namespace kind name state (clock w)]) w))).
Proof.
  destruct (faults w (CreateConfigMap namespace
                        (backup_body namespace kind name state (clock w)))) as [st|] eqn:Hf.
  - left. unfold backup_state.
    rewrite (bind_ok _ _ w w (clock w) []) by reflexivity.
    cbv zeta.
    rewrite (try_api_raise _ _ w w st
               [Called (CreateConfigMap namespace
                          (backup_body namespace kind name state (clock w))) (Some st)]).
    + reflexivity.
    + apply bind_raise. unfold create_namespaced_config_map, api. now rewrite Hf.
  - destruct (existsb (same_config_map namespace (backup_cm_name kind name (clock w)))
                      (config_maps w)) eqn:Hfree.
    + left. unfold backup_state.
      rewrite (bind_ok _ _ w w (clock w) []) by reflexivity.
      cbv zeta.
      rewrite (try_api_raise _ _ w w 409
                 [Called (CreateConfigMap namespace
                            (backup_body namespace kind name state (clock w))) (Some 409)]).
      * reflexivity.
      * apply bind_raise. unfold create_namespaced_config_map, api. rewrite Hf.
        cbn [cm_name backup_body]. now rewrite Hfree.
    + right. split; [exact Hfree|]. now apply backup_state_store.
Qed.

Lemma prune_old_backups_frame (MAX : Z) (namespace : string) (kind : Kind) (name : string)
    (w : World) :
  let w' := world_of (prune_old_backups MAX namespace kind name w) in
  workloads w' = workloads w /\ faults w' = faults w /\ clock w' = clock w /\
  exists doomed,
    config_maps w' = filter (fun cm => negb (named_in namespace doomed cm)) (config_maps w) /\
    forall d, In d doomed ->
      In d (config_maps w) /\ selected namespace kind name d = true.
Proof.
  intros w'. subst w'.
  destruct (prune_old_backups_keeps (fun _ => true) (fun _ => false) MAX namespace kind name)
    with (w := w) as (Hw & _ & Hf & Hk); [intros cm _; reflexivity|].
  rewrite !filter_true in Hw.
  destruct (prune_old_backups_store MAX namespace kind name w) as (_ & doomed & Hcm & Hd).
  split; [exact Hw|split; [exact Hf|split; [exact Hk|]]].
  exists doomed. split; [exact Hcm|].
  intros d Hin. destruct (Hd d Hin) as (_ & Hfirst).
  apply firstn_incl in Hfirst.
  eapply Permutation_in in Hfirst; [|apply sorted_permutation].
  now apply filter_In in Hfirst.
Qed.

Lemma existsb_filter_false {A} (p q : A -> bool) (l : list A) :
  existsb p l = false -> existsb p (filter q l) = false.
Proof.
  intros H. destruct (existsb p (filter q l)) eqn:E; [|reflexivity].
  apply existsb_exists in E as (y & Hy & Hp). apply filter_In in Hy as [Hy _].
  assert (existsb p l = true) by (apply existsb_exists; eauto). congruence.
Qed.

Lemma prune_old_backups_distinct (MAX : Z) (namespace : string) (kind : Kind) (name : string)
    (w : World) :
  distinctly_named (config_maps w) ->
  distinctly_named (config_maps (world_of (prune_old_backups MAX namespace kind name w))).
Proof.
  intros Hd.
  destruct (prune_old_backups_frame MAX namespace kind name w)
    as (_ & _ & _ & doomed & -> & _).
  now apply distinctly_named_filter.
Qed.

Lemma prune_old_backups_spares (x : Workload) (MAX : Z) (namespace : string) (kind : Kind)
    (name : string) :
  other_resource x kind namespace name ->
  carries (spares x) (prune_old_backups MAX namespace kind name).
Proof.
  intros Hother w Hd.
  destruct (prune_old_backups_frame MAX namespace kind name w)
    as (Hw & Hf & Hk & doomed & Hcm & Hdoomed).
  split; [now apply prune_old_backups_distinct|]. split.
  - split; [now rewrite Hw|]. split; [|now split].
    rewrite Hcm, filter_filter. apply filter_ext_in. intros cm Hcm_in.
    destruct (named_in namespace doomed cm) eqn:E; [|reflexivity].
    cbn [negb andb].
    destruct (selected (w_namespace x) (w_kind x) (w_name x) cm) eqn:Hsel; [|reflexivity].
    exfalso.
    apply existsb_exists in E as (d & Hdin & Hsame).
    destruct (Hdoomed d Hdin) as (Hd_in & Hd_sel).
    unfold same_config_map in Hsame.
    apply andb_true_iff in Hsame as (Hns & Hnm).
    apply String.eqb_eq in Hns, Hnm.
    assert (Hdns : cm_namespace d = namespace).
    { unfold selected in Hd_sel.
      repeat (apply andb_true_iff in Hd_sel as (Hd_sel & _)).
      now apply String.eqb_eq in Hd_sel. }
    assert (Heq : cm = d) by (apply Hd; congruence).
    subst cm. apply Hother.
    exact (selected_both _ _ _ _ _ _ _ Hsel Hd_sel).
  - unfold free_name. rewrite Hcm. apply existsb_filter_false.
Qed.

Lemma saved_snapshot_of_other (x : Workload) (namespace : string) (kind : Kind) (name : string)
    (state : Dict Value) (now : datetime) :
  other_resource x kind namespace name ->
  selected (w_namespace x) (w_kind x) (w_name x)
           (saved_snapshot namespace kind name state now) = false /\
  same_config_map (w_namespace x) (backup_cm_name (w_kind x) (w_name x) now)
                  (saved_snapshot namespace kind name state now) = false.
Proof.
  intros Hother. split.
  - destruct (selected _ _ _ _) eqn:E; [|reflexivity].
    exfalso. apply Hother.
    exact (selected_both _ _ _ _ _ _ _ E (selected_saved_snapshot namespace kind name state now)).
  - destruct (same_config_map _ _ _) eqn:E; [|reflexivity].
    exfalso. apply Hother.
    unfold same_config_map, saved_snapshot in E. cbn [cm_namespace cm_name] in E.
    apply andb_true_iff in E as (Hns & Hnm).
    apply String.eqb_eq in Hns, Hnm.
    apply backup_cm_name_inj in Hnm as [Hk Hn].
    now repeat split.
Qed.

Lemma backup_state_distinct (MAX : Z) (namespace : string) (kind : Kind) (name : string)
    (state : Dict Value) (w : World) :
  distinctly_named (config_maps w) ->
  distinctly_named (config_maps (world_of (backup_state MAX namespace kind name state w))).
Proof.
  intros Hd.
  destruct (backup_state_world MAX namespace kind name state w) as [->|(Hfree & ->)];
    [exact Hd|].
  apply prune_old_backups_distinct. cbn [config_maps set_config_maps].
  apply distinctly_named_snoc; [exact Hd|exact Hfree].
Qed.

Lemma backup_state_spares (x : Workload) (MAX : Z) (namespace : string) (kind : Kind)
    (name : string) (state : Dict Value) :
  other_resource x kind namespace name ->
  carries (spares x) (backup_state MAX namespace kind name state).
Proof.
  intros Hother w.
  destruct (backup_state_world MAX namespace kind name state w) as [->|(Hfree & ->)];
    [apply spares_refl|].
  set (new := saved_snapshot namespace kind name state (clock w)).
  apply spares_trans with (set_config_maps (config_maps w ++ [new]) w);
    [|now apply prune_old_backups_spares].
  destruct (saved_snapshot_of_other x namespace kind name state (clock w) Hother)
    as (Hsel & Hname).
  fold new in Hsel, Hname.
  intros Hd. split; [|split].
  - cbn [config_maps set_config_maps]. now apply distinctly_named_snoc.
  - split; [reflexivity|]. split; [|now split].
    cbn [config_maps set_config_maps]. rewrite filter_app. cbn [filter].
    rewrite Hsel. apply app_nil_r.
  - unfold free_name. cbn [config_maps set_config_maps clock].
    intros Hf. rewrite existsb_app, Hf. cbn [existsb orb]. now rewrite Hname.
Qed.

Ltac carry_spares x leaf :=
  repeat (intros; first
    [ assumption
    | leaf
    | apply (carries_ret _ (spares_refl x))
    | apply (carries_log _ (spares_refl x))
    | apply (carries_raise _ (spares_refl x))
    | apply (carries_clock _ (spares_refl x))
    | apply (carries_bind _ (spares_trans x))
    | apply (carries_try_api _ (spares_trans x))
    | apply (carries_try_exception _ (spares_trans x))
    | apply (carries_try_api_json _ (spares_trans x))
    | apply (carries_try_api_else _ (spares_trans x)) ]).

(** a round of the inner loop of [process_resources] on another
    resource *)
Lemma process_item_spares (x : Workload) (MAX : Z) (namespace : string) (item : Workload)
    (kind : Kind) (now_utc : datetime) :
  other_resource x kind namespace (w_name item) ->
  carries (spares x) (process_item MAX namespace item kind now_utc).
Proof.
  intros Hother.
  pose proof (other_resource_misses x kind namespace (w_name item) Hother) as Hmiss.
  rewrite process_item_table. unfold process_single_resource.
  destruct (get_is (annotations_of item) ANNOTATION_NS_CONTROL "Disable");
    [carry_spares x fail|].
  destruct (is_schedule_active (get (annotations_of item) ANNOTATION_SCALE_DOWN) now_utc).
  - carry_spares x ltac:(apply carries_spares_of_keeps; apply state_getter_keeps).
    intros [[|e d]|];
      carry_spares x ltac:(first [ apply backup_state_spares; assumption
                                 | apply carries_spares_of_keeps; apply scaler_keeps;
                                   assumption ]).
  - destruct (is_schedule_active (get (annotations_of item) ANNOTATION_SCALE_UP) now_utc);
      [|carry_spares x fail].
    carry_spares x ltac:(apply carries_spares_of_keeps; apply find_latest_backup_state_keeps).
    intros restored. destruct (negb (truthy restored));
      carry_spares x ltac:(apply carries_spares_of_keeps; apply scaler_keeps; assumption).
Qed.

Lemma for_each_keeps_pred {A} (l : list A) (body : A -> M unit) (P : World -> Prop) :
  (forall y w, result_of (body y w) = Ok tt) ->
  (forall y w, In y l -> P w -> P (world_of (body y w))) ->
  forall w, P w -> P (world_of (for_each l body w)).
Proof.
  intros Hret. induction l as [|y r IH]; intros HP w Hw; [exact Hw|].
  rewrite for_each_cons_world by apply Hret.
  apply IH.
  - intros z w0 Hz. apply HP. now right.
  - apply HP; [now left|exact Hw].
Qed.

(** a loop over distinct elements whose round on [a] takes [I] to [D],
    and whose other rounds keep [I] and keep [D], takes [I] to [D] *)
Lemma for_each_once {A} (l : list A) (body : A -> M unit) (I D : World -> Prop) (a : A) :
  (forall y w, result_of (body y w) = Ok tt) ->
  (forall y w, y <> a -> I w -> I (world_of (body y w))) ->
  (forall y w, y <> a -> D w -> D (world_of (body y w))) ->
  (forall w, I w -> D (world_of (body a w))) ->
  In a l -> NoDup l ->
  forall w, I w -> D (world_of (for_each l body w)).
Proof.
  intros Hret HI HD Hact.
  induction l as [|y r IH]; intros Hin Hnd w Hw; [destruct Hin|].
  inversion Hnd as [|? ? Hnotin Hnd']; subst.
  rewrite for_each_cons_world by apply Hret.
  destruct Hin as [->|Hin].
  - apply for_each_keeps_pred; [exact Hret| |now apply Hact].
    intros z w0 Hz. apply HD. intros ->. contradiction.
  - apply IH; [exact Hin|exact Hnd'|].
    apply HI; [|exact Hw]. intros ->. contradiction.
Qed.

Lemma listed_other_resource (x : Workload) (kind : Kind) (namespace : string)
    (item : Workload) :
  same_workload kind namespace (w_name item) item = true ->
  same_workload (w_kind x) (w_namespace x) (w_name x) item = false ->
  other_resource x kind namespace (w_name item).
Proof.
  intros Hlisted HT (Hk & Hns & Hn). subst kind namespace.
  rewrite Hn in Hlisted. congruence.
Qed.

Lemma NoDup_supported_kinds : NoDup supported_kinds.
Proof.
  unfold supported_kinds.
  repeat constructor; cbn; intuition discriminate.
Qed.

Section OnePass.

Variable MAX : Z.
Variable dir : Directory.
Variable now_utc : datetime.
Variable x : Workload.
Variables I D : World -> Prop.

Hypothesis Hlisting : refused dir (ListKind (w_kind x) (w_namespace x)) = None.
Hypothesis HI_one :
  forall w, I w ->
    filter (same_workload (w_kind x) (w_namespace x) (w_name x)) (workloads w) = [x].
Hypothesis HI_frame : forall w w', spares x w w' -> I w -> I w'.
Hypothesis HD_frame : forall w w', spares x w w' -> D w -> D w'.
Hypothesis Hact :
  forall w, I w -> D (world_of (process_item MAX (w_namespace x) x (w_kind x) now_utc w)).

Let T := same_workload (w_kind x) (w_namespace x) (w_name x).

Lemma items_spare (kind : Kind) (namespace : string) (items : list Workload) :
  (forall y, In y items -> same_workload kind namespace (w_name y) y = true) ->
  filter T items = [] ->
  carries (spares x)
          (for_each items (fun item => process_item MAX namespace item kind now_utc)).
Proof.
  intros Hlisted Hnone.
  apply carries_for_each; [apply spares_refl|apply spares_trans|].
  intros y Hy.
  apply process_item_spares.
  apply listed_other_resource; [now apply Hlisted|].
  exact (filter_nil_all _ _ Hnone y Hy).
Qed.

Lemma items_act (items : list Workload) (w : World) :
  (forall y, In y items -> same_workload (w_kind x) (w_namespace x) (w_name y) y = true) ->
  filter T items = [x] ->
  I w ->
  D (world_of (for_each items
                 (fun item => process_item MAX (w_namespace x) item (w_kind x) now_utc) w)).
Proof.
  intros Hlisted Hitems Hw.
  destruct (filter_singleton_split _ _ _ Hitems) as (l1 & l2 & -> & H1 & H2).
  rewrite for_each_app_world by (intros; apply process_item_returns).
  rewrite for_each_cons_world by apply process_item_returns.
  set (w1 := world_of (for_each l1 _ w)).
  assert (Hw1 : I w1).
  { apply (HI_frame w); [|exact Hw].
    apply items_spare; [|exact H1].
    intros y Hy. apply Hlisted. apply in_or_app. now left. }
  apply Hact in Hw1.
  set (w2 := world_of (process_item _ _ _ _ _ w1)) in *.
  apply (HD_frame w2); [|exact Hw1].
  apply items_spare; [|exact H2].
  intros y Hy. apply Hlisted. apply in_or_app. right. now right.
Qed.

Lemma round_act (w : World) :
  I w ->
  D (world_of (for_each
                 (filter (fun y => (Kind_eqb (w_kind y) (w_kind x) &&
                                    String.eqb (w_namespace y) (w_namespace x))%bool)
                         (workloads w))
                 (fun item => process_item MAX (w_namespace x) item (w_kind x) now_utc) w)).
Proof.
  intros Hw. apply items_act; [apply listed_items| |exact Hw].
  unfold T. rewrite filter_listed_target. now apply HI_one.
Qed.

Lemma round_spares (kind : Kind) (namespace : string) (w : World) :
  (Kind_eqb kind (w_kind x) && String.eqb namespace (w_namespace x))%bool = false ->
  spares x w
    (world_of (for_each
                 (filter (fun y => (Kind_eqb (w_kind y) kind &&
                                    String.eqb (w_namespace y) namespace)%bool)
                         (workloads w))
                 (fun item => process_item MAX namespace item kind now_utc) w)).
Proof.
  intros Hother.
  apply items_spare; [apply listed_items|].
  apply filter_none. intros y Hy.
  apply listed_items in Hy.
  unfold T.
  rewrite (same_workload_of_listed (w_kind x) (w_namespace x) (w_name x) _ _ _ _ Hy).
  now rewrite Hother.
Qed.

Lemma process_resources_acts (w : World) :
  I w -> D (world_of (process_resources MAX dir (w_namespace x) now_utc w)).
Proof.
  destruct (process_resources_rounds MAX dir (w_namespace x) now_utc)
    as (round & -> & Hround).
  assert (Hframe : forall kind w0, kind <> w_kind x ->
            spares x w0 (world_of (round kind w0))).
  { intros kind w0 Hk. destruct (Hround kind w0) as [_ ->].
    destruct (refused dir (ListKind kind (w_namespace x))); [apply spares_refl|].
    apply round_spares.
    destruct (Kind_eqb kind (w_kind x)) eqn:E; [|reflexivity].
    now apply Kind_eqb_true in E. }
  revert w.
  apply for_each_once with (a := w_kind x).
  - intros kind w0. apply Hround.
  - intros kind w0 Hk. apply HI_frame. now apply Hframe.
  - intros kind w0 Hk. apply HD_frame. now apply Hframe.
  - intros w0 H0. destruct (Hround (w_kind x) w0) as [_ ->]. rewrite Hlisting.
    now apply round_act.
  - unfold supported_kinds. destruct (w_kind x); cbn; auto.
  - apply NoDup_supported_kinds.
Qed.

Lemma process_resources_spares (namespace : string) (w : World) :
  namespace <> w_namespace x ->
  spares x w (world_of (process_resources MAX dir namespace now_utc w)).
Proof.
  intros Hother.
  destruct (process_resources_rounds MAX dir namespace now_utc) as (round & -> & Hround).
  revert w. apply carries_for_each; [apply spares_refl|apply spares_trans|].
  intros kind _ w. destruct (Hround kind w) as [_ ->].
  destruct (refused dir (ListKind kind namespace)); [apply spares_refl|].
  apply round_spares.
  apply String.eqb_neq in Hother. rewrite Hother. apply andb_false_r.
Qed.

Lemma pass_acts (w : World) :
  now_utc = clock w ->
  refused dir ListNamespaces = None ->
  In (w_namespace x) (map ns_name (filter eligible (namespaces dir))) ->
  NoDup (map ns_name (filter eligible (namespaces dir))) ->
  I w ->
  D (world_of (run_reconciliation MAX dir w)).
Proof.
  intros Hnow Hnamespaces Hin Hnodup Hw.
  unfold run_reconciliation.
  rewrite (bind_ok _ _ w w (clock w) []) by reflexivity.
  unfold world_of at 1. cbn [fst snd].
  rewrite try_exception_log_world, <- Hnow.
  destruct (get_eligible_namespaces_outcome dir w) as (Hgw & _ & Hgr).
  rewrite Hnamespaces in Hgr.
  pose proof (surjective_triple (get_eligible_namespaces dir w)) as Hx.
  rewrite Hgr, Hgw in Hx.
  rewrite (bind_ok _ _ _ _ _ _ Hx).
  unfold world_of at 1. cbn [fst snd].
  clear Hx Hgr Hgw Hnow. revert w Hw.
  apply for_each_once with (a := w_namespace x).
  - intros n w0. rewrite bind_log. apply process_resources_returns.
  - intros n w0 Hn. rewrite bind_log. apply HI_frame. now apply process_resources_spares.
  - intros n w0 Hn. rewrite bind_log. apply HD_frame. now apply process_resources_spares.
  - intros w0 H0. rewrite bind_log. now apply process_resources_acts.
  - exact Hin.
  - exact Hnodup.
Qed.

End OnePass.

(* ================================================================= *)
(** ** What a pass does to a workload that is due for scale-up *)

Lemma find_filter_same {A} (p : A -> bool) (l : list A) : find p (filter p l) = find p l.
Proof.
  induction l as [|a l IH]; cbn [filter find]; [reflexivity|].
  destruct (p a) eqn:E; cbn [find]; [now rewrite E|exact IH].
Qed.

Lemma find_same_part {A} (p : A -> bool) (l1 l2 : list A) :
  filter p l1 = filter p l2 -> find p l1 = find p l2.
Proof.
  intros H. now rewrite <- (find_filter_same p l1), H, find_filter_same.
Qed.

Lemma try_api_call_then_log_world {A} (m : M A) (k : A -> M unit) (h : Z -> M unit)
    (w : World) :
  (forall a w0, result_of (k a w0) = Ok tt /\ world_of (k a w0) = w0) ->
  (forall st w0, world_of (h st w0) = w0) ->
  world_of (try_api (a <- m ;; k a) h w) = world_of (m w).
Proof.
  intros Hk Hh. unfold try_api, bind, world_of, result_of in *.
  destruct (m w) as [[[a|e] w1] ev1]; cbn [fst snd].
  - specialize (Hk a w1). destruct (k a w1) as [[r w2] ev2]; cbn [fst snd] in *.
    destruct Hk as [-> ->]. reflexivity.
  - destruct e as [st| |]; try reflexivity.
    specialize (Hh st w1). destruct (h st w1) as [[r w2] ev2]; cbn [fst snd] in *.
    exact Hh.
Qed.

Lemma try_api_log_then_call_world (lvl : Level) (msg : string) (m : M unit)
    (h : Z -> M unit) (w : World) :
  (forall st w0, world_of (h st w0) = w0) ->
  world_of (try_api (log lvl msg ;; m) h w) = world_of (m w).
Proof.
  intros Hh. unfold try_api. rewrite bind_log.
  unfold world_of, result_of, events_of in *.
  destruct (m w) as [[[a|e] w1] ev1]; cbn [fst snd]; [reflexivity|].
  destruct e as [st| |]; try reflexivity.
  specialize (Hh st w1). destruct (h st w1) as [[r w2] ev2]; cbn [fst snd] in *.
  exact Hh.
Qed.

Section Local.

Variable k : Kind.
Variables namespace name : string.
Variables w1 w2 : World.

Hypothesis Hcalm1 : calm w1.
Hypothesis Hcalm2 : calm w2.
Hypothesis Hpart :
  filter (same_workload k namespace name) (workloads w1)
  = filter (same_workload k namespace name) (workloads w2).

Lemma patch_workload_local (c : Call) (new_spec : option Spec) :
  filter (same_workload k namespace name)
         (workloads (world_of (patch_workload c k name namespace new_spec w1)))
  = filter (same_workload k namespace name)
           (workloads (world_of (patch_workload c k name namespace new_spec w2))).
Proof.
  unfold patch_workload, api, world_of.
  rewrite (Hcalm1 c), (Hcalm2 c), (find_same_part _ _ _ Hpart).
  destruct (find (same_workload k namespace name) (workloads w2)); [|exact Hpart].
  destruct new_spec as [sp|]; [|exact Hpart].
  cbn [fst snd workloads set_workloads].
  now rewrite !filter_map_patched, Hpart.
Qed.

End Local.

Lemma scaler_local (k : Kind) (namespace name : string) (direction : Direction)
    (state : option (Dict Value)) (w1 w2 : World) :
  calm w1 -> calm w2 ->
  filter (same_workload k namespace name) (workloads w1)
  = filter (same_workload k namespace name) (workloads w2) ->
  filter (same_workload k namespace name)
         (workloads (world_of (fst (resource_processors k) namespace name direction state w1)))
  = filter (same_workload k namespace name)
           (workloads (world_of (fst (resource_processors k) namespace name direction state
                                   w2))).
Proof.
  intros Hcalm1 Hcalm2 Hpart.
  assert (Hlog : forall (a : unit) lvl msg w0,
             result_of (log lvl msg w0) = Ok tt /\ world_of (log lvl msg w0) = w0)
    by (intros; split; reflexivity).
  assert (Hif : forall (b : bool) l1 m1 l2 m2 w0,
             world_of ((if b then log l1 m1 else log l2 m2) w0) = w0)
    by (intros []; reflexivity).
  destruct k; cbn [fst resource_processors].
  - unfold scale_deployment. cbv zeta.
    rewrite !try_api_call_then_log_world by (intros; auto).
    now apply patch_workload_local.
  - unfold scale_statefulset. cbv zeta.
    rewrite !try_api_call_then_log_world by (intros; auto; reflexivity).
    now apply patch_workload_local.
  - unfold scale_hpa. destruct direction.
    + destruct (if truthy state
                then get match state with Some d => d | None => [] end "spec"
                else None) as [spec|]; [|exact Hpart].
      rewrite !try_api_log_then_call_world by (intros; auto).
      unfold create_autoscaler, api, world_of.
      rewrite Hcalm1, Hcalm2, (find_same_part _ _ _ Hpart).
      destruct (find _ (workloads w2)); [exact Hpart|].
      destruct spec; try exact Hpart.
      cbn [fst snd workloads set_workloads].
      now rewrite !filter_app, Hpart.
    + rewrite !try_api_log_then_call_world by (intros; auto).
      unfold delete_autoscaler, api, world_of.
      rewrite Hcalm1, Hcalm2, (find_same_part _ _ _ Hpart).
      destruct (find _ (workloads w2)); [|exact Hpart].
      cbn [fst snd workloads set_workloads].
      rewrite !(filter_none (same_workload HorizontalPodAutoscaler namespace name)
                  (filter _ _)); [reflexivity| |];
        intros y Hy; apply filter_In in Hy as [_ Hy]; now apply negb_true_iff in Hy.
  - unfold scale_cronjob. cbv zeta.
    rewrite !try_api_call_then_log_world by (intros; auto; reflexivity).
    now apply patch_workload_local.
Qed.

Lemma find_latest_backup_state_same_backups (namespace : string) (kind : Kind)
    (name : string) (w1 w2 : World) :
  filter (selected namespace kind name) (config_maps w1)
  = filter (selected namespace kind name) (config_maps w2) ->
  faults w1 = faults w2 ->
  result_of (find_latest_backup_state namespace kind name w1) =
  result_of (find_latest_backup_state namespace kind name w2).
Proof.
  intros Hsel Hf.
  destruct (find_latest_backup_state_outcome namespace kind name w1) as (_ & _ & H1).
  destruct (find_latest_backup_state_outcome namespace kind name w2) as (_ & _ & H2).
  rewrite Hsel, Hf in H1. rewrite <- H2 in H1.
  now injection H1.
Qed.

(** a pass on a workload that is due for scale-up and has a backup *)
Lemma pass_wakes
    (MAX : Z) (dir : Directory) (w : World) (x : Workload) (e : string * Value)
    (d : Dict Value) :
  calm w ->
  distinctly_named (config_maps w) ->
  refused dir ListNamespaces = None ->
  refused dir (ListKind (w_kind x) (w_namespace x)) = None ->
  In (w_namespace x) (map ns_name (filter eligible (namespaces dir))) ->
  NoDup (map ns_name (filter eligible (namespaces dir))) ->
  filter (same_workload (w_kind x) (w_namespace x) (w_name x)) (workloads w) = [x] ->
  get_is (annotations_of x) ANNOTATION_NS_CONTROL "Disable" = false ->
  is_schedule_active (get (annotations_of x) ANNOTATION_SCALE_DOWN) (clock w) = false ->
  is_schedule_active (get (annotations_of x) ANNOTATION_SCALE_UP) (clock w) = true ->
  result_of (find_latest_backup_state (w_namespace x) (w_kind x) (w_name x) w)
    = Ok (Some (e :: d)) ->
  let after := world_of (run_reconciliation MAX dir w) in
  calm after /\
  filter (same_workload (w_kind x) (w_namespace x) (w_name x)) (workloads after) =
  filter (same_workload (w_kind x) (w_namespace x) (w_name x))
         (workloads (world_of (fst (resource_processors (w_kind x)) (w_namespace x)
                                 (w_name x) up (Some (e :: d)) w))).
Proof.
  intros Hcalm Hnames Hnamespaces Hlisting Hin Hnodup Hunique Henabled Hnot_down Hup
    Hrestored after.
  set (T := same_workload (w_kind x) (w_namespace x) (w_name x)) in *.
  set (target := filter T (workloads (world_of (fst (resource_processors (w_kind x))
                                                 (w_namespace x) (w_name x) up
                                                 (Some (e :: d)) w)))).
  set (I := fun w0 : World =>
              calm w0 /\ distinctly_named (config_maps w0) /\
              filter T (workloads w0) = [x] /\
              result_of (find_latest_backup_state (w_namespace x) (w_kind x) (w_name x) w0)
                = Ok (Some (e :: d))).
  set (D := fun w0 : World =>
              calm w0 /\ distinctly_named (config_maps w0) /\
              filter T (workloads w0) = target).
  assert (HD : D after).
  { apply (pass_acts MAX dir (clock w) x I D); try assumption.
    - intros w0 (_ & _ & H0 & _). exact H0.
    - intros w0 w0' Hsp (Hc0 & Hd0 & Hw0 & Hr0).
      destruct (Hsp Hd0) as (Hd' & (Kw & Kc & Kf & _) & _).
      split; [intros c; now rewrite Kf|].
      split; [exact Hd'|].
      split; [unfold T; now rewrite Kw|].
      rewrite <- Hr0. now apply find_latest_backup_state_same_backups.
    - intros w0 w0' Hsp (Hc0 & Hd0 & Hw0).
      destruct (Hsp Hd0) as (Hd' & (Kw & _ & Kf & _) & _).
      split; [intros c; now rewrite Kf|].
      split; [exact Hd'|].
      unfold T. now rewrite Kw.
    - intros w0 (Hc0 & Hd0 & Hw0 & Hr0).
      rewrite (process_item_up_world MAX (w_namespace x) x (w_kind x) (clock w) w0 e d
                 Henabled Hnot_down Hup Hr0).
      destruct (scaler_keeps (fun _ => false) (fun _ => true) (w_kind x) (w_namespace x)
                  (w_name x) up (Some (e :: d))) with (w := w0) as (_ & Kc & Kf & _);
        [intros y _; reflexivity|].
      rewrite !filter_true in Kc.
      split; [intros c; now rewrite Kf|].
      split; [now rewrite Kc|].
      unfold target, T. apply scaler_local; try assumption.
      fold T. congruence.
    - reflexivity.
    - repeat split; assumption. }
  destruct HD as (Hc & _ & Hw). now split.
Qed.

(** X20: a pass wakes the workload that is due.  In a cluster that
    refuses no call and whose ConfigMaps have distinct names, take a
    workload that is the only one of its kind, namespace and name, is
    not opted out, whose scale-up schedule alone is active at the clock
    and for which [find_latest_backup_state] returns a state; let its
    namespace be eligible, the eligible namespaces have distinct names
    and the listing of its kind be answered.  What [run_reconciliation]
    leaves of the workload is what the scaler of its kind, called
    upwards with that state, makes of it; whatever other workloads the
    pass hibernates or wakes on its way. *)
Theorem due_workload_is_woken
    (MAX : Z) (dir : Directory) (w : World) (x : Workload) (e : string * Value)
    (d : Dict Value)
    (Hcalm : forall c, faults w c = None)
    (Hnames : distinctly_named (config_maps w))
    (Hnamespaces : refused dir ListNamespaces = None)
    (Hlisting : refused dir (ListKind (w_kind x) (w_namespace x)) = None)
    (Heligible : In (w_namespace x) (map ns_name (filter eligible (namespaces dir))))
    (Hdistinct : NoDup (map ns_name (filter eligible (namespaces dir))))
    (Hunique : filter (same_workload (w_kind x) (w_namespace x) (w_name x)) (workloads w)
               = [x])
    (Henabled : get_is (annotations_of x) ANNOTATION_NS_CONTROL "Disable" = false)
    (Hnot_down : is_schedule_active (get (annotations_of x) ANNOTATION_SCALE_DOWN) (clock w)
                 = false)
    (Hup : is_schedule_active (get (annotations_of x) ANNOTATION_SCALE_UP) (clock w) = true)
    (Hrestored : result_of (find_latest_backup_state (w_namespace x) (w_kind x) (w_name x) w)
                 = Ok (Some (e :: d))) :
  filter (same_workload (w_kind x) (w_namespace x) (w_name x))
         (workloads (world_of (run_reconciliation MAX dir w)))
  = filter (same_workload (w_kind x) (w_namespace x) (w_name x))
           (workloads (world_of (fst (resource_processors (w_kind x)) (w_namespace x)
                                   (w_name x) up (Some (e :: d)) w))).
Proof.
  now apply pass_wakes.
Qed.

Lemma due_workload_is_woken_witness :
  let asleep := world_of (run_reconciliation 5 three_namespaces
                            (single web (mkdt 2026 12 11 18 0 7 0))) in
  let w := set_clock (mkdt 2026 12 12 8 0 3 0) asleep in
  map w_spec (workloads asleep) = [ReplicaSpec (Some 0)] /\
  filter (same_workload Deployment "prod" "web")
         (workloads (world_of (run_reconciliation 5 three_namespaces w)))
  = [web].
Proof.
  intros asleep w. split; [reflexivity|].
  apply (due_workload_is_woken 5 three_namespaces w (set_spec (ReplicaSpec (Some 0)) web)
           ("replicas", VInt 4) []).
  - intros c. reflexivity.
  - intros a b Ha Hb _ _. vm_compute in Ha, Hb.
    destruct Ha as [<-|[]], Hb as [<-|[]]. reflexivity.
  - reflexivity.
  - reflexivity.
  - left. reflexivity.
  - repeat constructor. intros [].
  - reflexivity.
  - reflexivity.
  - reflexivity.
  - reflexivity.
  - reflexivity.
Defined.

(* ================================================================= *)
(** ** A scale-down pass, then a scale-up pass *)

(** X21: a pass at the scale-down minute followed by a pass at the
    scale-up minute gives the workload back.  In a cluster that refuses
    no call and whose ConfigMaps have distinct names and all carry
    their creation time, take a Deployment or StatefulSet with at least
    one replica, or a CronJob whose [suspend] field is set, that is the
    only workload of its kind, namespace and name and is not opted out,
    in an eligible namespace of a listing with distinct names; let its
    scale-down schedule be active at the clock, the name of the backup
    be free and its earlier backups be stamped before the clock.
    [run_reconciliation] hibernates it; and after a second
    [run_reconciliation], at a later instant at which only its scale-up
    schedule is active, the workload is again exactly what it was
    before the first pass, whatever else the two passes do. *)
Theorem hibernate_pass_then_wake_pass
    (MAX : Z) (dir : Directory) (w : World) (x : Workload) (later : datetime)
    (Hcalm : forall c, faults w c = None)
    (Hrestorable : restorable x)
    (Hnames : distinctly_named (config_maps w))
    (Hdated : dated (config_maps w))
    (Hnamespaces : refused dir ListNamespaces = None)
    (Hlisting : refused dir (ListKind (w_kind x) (w_namespace x)) = None)
    (Heligible : In (w_namespace x) (map ns_name (filter eligible (namespaces dir))))
    (Hdistinct : NoDup (map ns_name (filter eligible (namespaces dir))))
    (Hunique : filter (same_workload (w_kind x) (w_namespace x) (w_name x)) (workloads w)
               = [x])
    (Henabled : get_is (annotations_of x) ANNOTATION_NS_CONTROL "Disable" = false)
    (Hdown : is_schedule_active (get (annotations_of x) ANNOTATION_SCALE_DOWN) (clock w)
             = true)
    (Hfree : free_name (w_namespace x) (backup_cm_name (w_kind x) (w_name x) (clock w)) w)
    (Holder : forall cm, In cm (config_maps w) ->
                selected (w_namespace x) (w_kind x) (w_name x) cm = true ->
                stamped_before (clock w) cm)
    (Hnot_down : is_schedule_active (get (annotations_of x) ANNOTATION_SCALE_DOWN) later
                 = false)
    (Hup : is_schedule_active (get (annotations_of x) ANNOTATION_SCALE_UP) later = true) :
  let asleep := world_of (run_reconciliation MAX dir w) in
  let awake := world_of (run_reconciliation MAX dir (set_clock later asleep)) in
  filter (same_workload (w_kind x) (w_namespace x) (w_name x)) (workloads asleep)
    = hibernated x /\
  filter (same_workload (w_kind x) (w_namespace x) (w_name x)) (workloads awake)
    = [x].
Proof.
  intros asleep awake.
  set (getter := snd (resource_processors (w_kind x)) (w_namespace x) (w_name x)).
  assert (Hkey : forall cm, In cm (config_maps w) ->
                   selected (w_namespace x) (w_kind x) (w_name x) cm = true ->
                   creation_key cm < timestamp (clock w)).
  { intros cm Hin Hsel. destruct (Holder cm Hin Hsel) as (t & Ht & Hlt).
    unfold creation_key. now rewrite Ht. }
  clear Holder Hdated.
  pose proof (find_filter_head _ _ _ _ Hunique) as Hfind.
  destruct (getter_reads _ _ _ w x Hcalm Hfind) as (e & ev & Hget).
  assert (Hstate : result_of (getter w) = Ok (Some [e])) by (unfold getter; now rewrite Hget).
  set (T := same_workload (w_kind x) (w_namespace x) (w_name x)) in *.
  set (I := fun w0 : World =>
              calm w0 /\ distinctly_named (config_maps w0) /\
              filter T (workloads w0) = [x] /\
              free_name (w_namespace x) (backup_cm_name (w_kind x) (w_name x) (clock w0)) w0 /\
              (forall cm, In cm (config_maps w0) ->
                 selected (w_namespace x) (w_kind x) (w_name x) cm = true ->
                 creation_key cm < timestamp (clock w0))).
  set (D := fun w0 : World =>
              calm w0 /\ distinctly_named (config_maps w0) /\
              filter T (workloads w0) = hibernated x /\
              result_of (find_latest_backup_state (w_namespace x) (w_kind x) (w_name x) w0)
                = Ok (Some [e])).
  assert (HD : D asleep).
  { apply (pass_acts MAX dir (clock w) x I D); try assumption.
    - intros w0 (_ & _ & H0 & _). exact H0.
    - intros w0 w0' Hsp (Hc0 & Hd0 & Hw0 & Hf0 & Ho0).
      destruct (Hsp Hd0) as (Hd' & (Kw & Kc & Kf & Kk) & Hfree').
      split; [intros c; now rewrite Kf|].
      split; [exact Hd'|].
      split; [unfold T; now rewrite Kw|].
      split; [rewrite Kk; now apply Hfree'|].
      intros cm Hin Hsel. rewrite Kk.
      assert (Hin' : In cm (filter (selected (w_namespace x) (w_kind x) (w_name x))
                                   (config_maps w0')))
        by (apply filter_In; now split).
      rewrite Kc in Hin'. apply filter_In in Hin' as [Hin' _].
      now apply Ho0.
    - intros w0 w0' Hsp (Hc0 & Hd0 & Hw0 & Hr0).
      destruct (Hsp Hd0) as (Hd' & (Kw & Kc & Kf & _) & _).
      split; [intros c; now rewrite Kf|].
      split; [exact Hd'|].
      split; [unfold T; now rewrite Kw|].
      rewrite <- Hr0. now apply find_latest_backup_state_same_backups.
    - intros w0 (Hc0 & Hd0 & Hw0 & Hf0 & Ho0).
      pose proof (find_filter_head _ _ _ _ Hw0) as Hfind0.
      destruct (getter_reads _ _ _ w0 x Hc0 Hfind0) as (e0 & ev0 & Hget0).
      assert (He : e0 = e).
      { pose proof (getter_run _ _ _ w0 x Hc0 Hfind0) as R0.
        pose proof (getter_run _ _ _ w x Hcalm Hfind) as R.
        rewrite Hget0 in R0. rewrite Hget in R.
        unfold result_of in R0, R. cbn [fst] in R0, R.
        rewrite <- R in R0. now injection R0. }
      subst e0.
      rewrite (process_item_down_world MAX (w_namespace x) x (w_kind x) (clock w) w0 e [] ev0
                 Henabled Hdown Hget0).
      set (saved := world_of (backup_state MAX (w_namespace x) (w_kind x) (w_name x) [e] w0)).
      destruct (backup_state_spec MAX (w_namespace x) (w_kind x) (w_name x) [e] w0)
        as (_ & Hbw & _).
      destruct (backup_state_keeps (fun _ => true) (fun _ => false) MAX (w_namespace x)
                  (w_kind x) (w_name x) [e]) with (w := w0) as (_ & _ & Hbf & _);
        [intros cm _; reflexivity|].
      fold saved in Hbw, Hbf.
      assert (Hcalm1 : calm saved) by (intros c; now rewrite Hbf).
      assert (Hone1 : filter T (workloads saved) = [x]) by (now rewrite Hbw).
      destruct (scaler_down_run _ _ _ _ _ Hcalm1 Hone1) as (Hsf & Hsw).
      destruct (scaler_keeps (fun _ => false) (fun _ => true) (w_kind x) (w_namespace x)
                  (w_name x) down None) with (w := saved) as (_ & Hsc & _);
        [intros y _; reflexivity|].
      rewrite !filter_true in Hsc.
      split; [intros c; rewrite Hsf; apply Hcalm1|].
      split; [rewrite Hsc; now apply backup_state_distinct|].
      split; [exact Hsw|].
      rewrite (find_latest_backup_state_same_store _ _ _ _ saved) by assumption.
      apply backup_state_then_find_latest; auto.
    - reflexivity.
    - repeat split; assumption. }
  destruct HD as (Hc1 & Hd1 & Hw1 & Hr1).
  split; [exact Hw1|].
  destruct (hibernated_not_autoscaler x (restorable_not_autoscaler x Hrestorable))
    as (sp & Hhib).
  set (W := set_clock later asleep) in *.
  assert (HcW : calm W) by (intros c; apply Hc1).
  destruct (pass_wakes MAX dir W (set_spec sp x) e []) as (Hc2 & Hw2); try assumption.
  - cbn [w_kind w_namespace w_name set_spec]. fold T.
    unfold W. cbn [workloads set_clock]. now rewrite Hw1.
  - rewrite <- Hr1. now apply find_latest_backup_state_same_store.
  - cbn [w_kind w_namespace w_name set_spec] in Hw2. fold awake T in Hc2, Hw2.
    refine (eq_trans Hw2 _).
    apply (scaler_up_restores x w W [e]); assumption.
Qed.

Lemma hibernate_pass_then_wake_pass_witness :
  let later := mkdt 2026 12 12 8 0 3 0 in
  let asleep := world_of (run_reconciliation 5 three_namespaces two_deployments) in
  let awake := world_of (run_reconciliation 5 three_namespaces (set_clock later asleep)) in
  map w_spec (workloads asleep) = [ReplicaSpec (Some 0); ReplicaSpec (Some 0)] /\
  filter (same_workload Deployment "prod" "web") (workloads awake) = [web].
Proof.
  intros later asleep awake. split; [reflexivity|].
  destruct (hibernate_pass_then_wake_pass 5 three_namespaces two_deployments web later)
    as (_ & Hback).
  - intros c. reflexivity.
  - unfold restorable. cbn. lia.
  - intros a b [].
  - intros cm [].
  - reflexivity.
  - reflexivity.
  - left. reflexivity.
  - repeat constructor. intros [].
  - reflexivity.
  - reflexivity.
  - reflexivity.
  - reflexivity.
  - intros cm [].
  - reflexivity.
  - reflexivity.
  - exact Hback.
Defined.

(* ================================================================= *)
(** ** A save that is refused *)

Lemma state_getter_reads (k : Kind) (namespace name : string) (w : World) (cur : Workload) :
  faults w (ReadWorkload k name namespace) = None ->
  find (same_workload k namespace name) (workloads w) = Some cur ->
  exists e,
    snd (resource_processors k) namespace name w =
    (Ok (Some [e]), w, [Called (ReadWorkload k name namespace) None]).
Proof.
  intros Hf Hfind.
  destruct k; cbn [snd resource_processors];
    unfold get_deployment_state, get_statefulset_state, get_hpa_state, get_cronjob_state,
      try_api;
    rewrite (bind_ok _ _ _ _ _ _ (read_workload_run _ _ _ _ _ Hf Hfind));
    eexists; reflexivity.
Qed.

Lemma backup_state_refused (MAX : Z) (namespace : string) (kind : Kind) (name : string)
    (state : Dict Value) (w : World) (st : Z) :
  faults w (CreateConfigMap namespace (backup_body namespace kind name state (clock w)))
  = Some st ->
  exists msg,
    backup_state MAX namespace kind name state w =
    (Ok tt, w,
     [Called (CreateConfigMap namespace (backup_body namespace kind name state (clock w)))
             (Some st);
      Logged ERROR msg]).
Proof.
  intros Hf. unfold backup_state.
  rewrite (bind_ok _ _ w w (clock w) []) by reflexivity.
  cbv zeta.
  set (body := backup_body namespace kind name state (clock w)) in *.
  rewrite (try_api_raise _ _ w w st [Called (CreateConfigMap namespace body) (Some st)]).
  - eexists. reflexivity.
  - apply bind_raise. unfold create_namespaced_config_map, api. now rewrite Hf.
Qed.

(** the scaler of a kind, downwards, when its call is not refused *)
Lemma scaler_down_commits (k : Kind) (namespace name : string) (w : World) (cur : Workload) :
  faults w (scale_down_call k name namespace) = None ->
  filter (same_workload k namespace name) (workloads w) = [cur] ->
  let y := fst (resource_processors k) namespace name down None w in
  result_of y = Ok tt /\
  calls (events_of y) = [(scale_down_call k name namespace, None)] /\
  config_maps (world_of y) = config_maps w /\
  faults (world_of y) = faults w /\
  filter (same_workload k namespace name) (workloads (world_of y)) = hibernated cur.
Proof.
  intros Hf Hone y. subst y.
  pose proof (find_filter_head _ _ _ _ Hone) as Hfind.
  assert (Hcur : same_workload k namespace name cur = true).
  { assert (Hin : In cur (filter (same_workload k namespace name) (workloads w)))
      by (rewrite Hone; now left).
    now apply filter_In in Hin. }
  destruct (same_workload_kind _ _ _ _ Hcur) as (Hk & _ & _).
  unfold hibernated. rewrite Hk.
  destruct k; cbn [fst resource_processors scale_down_call] in *.
  - unfold scale_deployment, try_api. cbv zeta. cbn [target_replicas].
    unfold patch_replicas. cbn [Z.leb Z.compare].
    rewrite (bind_ok _ _ _ _ _ _ (patch_workload_run _ _ _ _ _ _ _ Hf Hfind)).
    cbn [log result_of world_of events_of fst snd app calls flat_map
         config_maps faults workloads set_workloads].
    repeat split. now rewrite filter_map_patched, Hone.
  - unfold scale_statefulset, try_api. cbv zeta. cbn [target_replicas].
    unfold patch_replicas. cbn [Z.leb Z.compare].
    rewrite (bind_ok _ _ _ _ _ _ (patch_workload_run _ _ _ _ _ _ _ Hf Hfind)).
    cbn [log result_of world_of events_of fst snd app calls flat_map
         config_maps faults workloads set_workloads].
    repeat split. now rewrite filter_map_patched, Hone.
  - unfold scale_hpa, try_api.
    rewrite bind_log.
    assert (Hdel : delete_autoscaler name namespace w =
                   (Ok tt,
                    set_workloads
                      (filter (fun y => negb (same_workload HorizontalPodAutoscaler
                                                namespace name y)) (workloads w)) w,
                    [Called (DeleteAutoscaler name namespace) None]))
      by (unfold delete_autoscaler, api; now rewrite Hf, Hfind).
    rewrite Hdel.
    cbn [result_of world_of events_of fst snd app calls flat_map
         config_maps faults workloads set_workloads].
    repeat split.
    apply filter_none. intros y Hy.
    apply filter_In in Hy as [_ Hy]. now apply negb_true_iff in Hy.
  - unfold scale_cronjob, try_api. cbv zeta. cbn [target_suspend].
    unfold patch_suspend.
    rewrite (bind_ok _ _ _ _ _ _ (patch_workload_run _ _ _ _ _ _ _ Hf Hfind)).
    cbn [log result_of world_of events_of fst snd app calls flat_map
         config_maps faults workloads set_workloads].
    repeat split. now rewrite filter_map_patched, Hone.
Qed.

(** C1: the scale-down commits without a backup when the save is
    refused, and the state is lost.  Take a cluster whose API server
    refuses every create of a ConfigMap (and no other call), and a
    workload that is the only one of its kind, namespace and name, is
    not opted out, has no backup in the store and whose scale-down
    schedule is active at the clock.  The tick reads the state of the
    workload, asks for the backup ConfigMap holding it, is refused, and
    issues the scale-down call all the same: the call succeeds, the
    workload is hibernated and the store holds no ConfigMap more than
    before.  At a later instant at which only the scale-up schedule is
    active, the tick on the hibernated workload lists the backups,
    finds none, logs the warning and leaves the cluster as it is: the
    workload stays hibernated. *)
Theorem refused_backup_loses_state
    (MAX : Z) (x : Workload) (w : World) (later : datetime) (st : Z)
    (Hrefused : refuses_backups st w)
    (Hunique : filter (same_workload (w_kind x) (w_namespace x) (w_name x)) (workloads w)
               = [x])
    (Hnone : filter (selected (w_namespace x) (w_kind x) (w_name x)) (config_maps w) = [])
    (Henabled : get_is (annotations_of x) ANNOTATION_NS_CONTROL "Disable" = false)
    (Hdown : is_schedule_active (get (annotations_of x) ANNOTATION_SCALE_DOWN) (clock w)
             = true)
    (Hnot_down : is_schedule_active (get (annotations_of x) ANNOTATION_SCALE_DOWN) later
                 = false)
    (Hup : is_schedule_active (get (annotations_of x) ANNOTATION_SCALE_UP) later = true) :
  let getter := snd (resource_processors (w_kind x)) (w_namespace x) (w_name x) in
  let down_tick := process_item MAX (w_namespace x) x (w_kind x) (clock w) w in
  let asleep := world_of down_tick in
  exists state,
    result_of (getter w) = Ok (Some state) /\
    result_of down_tick = Ok tt /\
    calls (events_of down_tick) =
      [(ReadWorkload (w_kind x) (w_name x) (w_namespace x), None);
       (CreateConfigMap (w_namespace x)
          (backup_body (w_namespace x) (w_kind x) (w_name x) state (clock w)), Some st);
       (scale_down_call (w_kind x) (w_name x) (w_namespace x), None)] /\
    config_maps asleep = config_maps w /\
    filter (same_workload (w_kind x) (w_namespace x) (w_name x)) (workloads asleep)
    = hibernated x /\
    forall x0, In x0 (hibernated x) ->
      let up_tick := process_item MAX (w_namespace x) x0 (w_kind x) later
                       (set_clock later asleep) in
      result_of up_tick = Ok tt /\
      world_of up_tick = set_clock later asleep /\
      calls (events_of up_tick) =
        [(ListConfigMaps (w_namespace x) (w_kind x) (w_name x), None)] /\
      last (events_of up_tick) (Logged DEBUG "") =
        Logged WARNING ("No backup state found for " ++ kind_str (w_kind x) ++ " "
                        ++ w_name x ++ ". Cannot scale up.").
Proof.
  intros getter down_tick asleep. subst getter down_tick asleep.
  pose proof (find_filter_head _ _ _ _ Hunique) as Hfind.
  assert (Hread : faults w (ReadWorkload (w_kind x) (w_name x) (w_namespace x)) = None)
    by (now rewrite Hrefused).
  destruct (state_getter_reads _ _ _ w x Hread Hfind) as (e & Hget).
  exists [e].
  assert (Hcreate : faults w (CreateConfigMap (w_namespace x)
                                (backup_body (w_namespace x) (w_kind x) (w_name x) [e]
                                   (clock w))) = Some st)
    by (now rewrite Hrefused).
  destruct (backup_state_refused MAX _ _ _ _ _ _ Hcreate) as (msg1 & Hsave).
  assert (Hscale : faults w (scale_down_call (w_kind x) (w_name x) (w_namespace x)) = None)
    by (rewrite Hrefused; now destruct (w_kind x)).
  destruct (scaler_down_commits _ _ _ w x Hscale Hunique) as (Hsr & Hsc & Hscm & Hsf & Hsw).
  set (scaled := fst (resource_processors (w_kind x)) (w_namespace x) (w_name x) down None w)
    in *.
  pose proof (surjective_triple scaled) as Hscaled. rewrite Hsr in Hscaled.
  assert (Htick : exists msg,
            process_item MAX (w_namespace x) x (w_kind x) (clock w) w =
            (Ok tt, world_of scaled,
             ([Logged INFO msg;
               Called (ReadWorkload (w_kind x) (w_name x) (w_namespace x)) None;
               Called (CreateConfigMap (w_namespace x)
                         (backup_body (w_namespace x) (w_kind x) (w_name x) [e] (clock w)))
                      (Some st);
               Logged ERROR msg1] ++ events_of scaled)%list)).
  { rewrite process_item_table.
    destruct (process_single_resource_down MAX (w_namespace x) x (w_kind x) (clock w)
                (fst (resource_processors (w_kind x))) (snd (resource_processors (w_kind x)))
                Henabled Hdown) as (msg & err & ->).
    exists msg.
    rewrite bind_log.
    rewrite (try_exception_ok _ _ w (world_of scaled) tt
               ([Called (ReadWorkload (w_kind x) (w_name x) (w_namespace x)) None] ++
                [Called (CreateConfigMap (w_namespace x)
                           (backup_body (w_namespace x) (w_kind x) (w_name x) [e] (clock w)))
                        (Some st);
                 Logged ERROR msg1] ++ events_of scaled)); [reflexivity|].
    rewrite (bind_ok _ _ _ _ _ _ Hget).
    rewrite (bind_ok _ _ _ _ _ _ Hsave).
    fold scaled. rewrite Hscaled. reflexivity. }
  destruct Htick as (msg & Htick).
  set (down_tick := process_item MAX (w_namespace x) x (w_kind x) (clock w) w) in *.
  assert (Hres : result_of down_tick = Ok tt) by (now rewrite Htick).
  assert (Hworld : world_of down_tick = world_of scaled) by (now rewrite Htick).
  assert (Hev : calls (events_of down_tick) =
                ((ReadWorkload (w_kind x) (w_name x) (w_namespace x), None) ::
                 (CreateConfigMap (w_namespace x)
                    (backup_body (w_namespace x) (w_kind x) (w_name x) [e] (clock w)),
                  Some st) ::
                 calls (events_of scaled))%list)
    by (rewrite Htick; unfold events_of at 1; cbn [snd]; unfold calls;
        now rewrite flat_map_app).
  rewrite Hworld, Hev, Hsc. clear Htick Hworld Hev.
  split; [now rewrite Hget|].
  split; [exact Hres|].
  split; [reflexivity|].
  split; [exact Hscm|].
  split; [exact Hsw|].
  intros x0 Hx0. cbv zeta.
  assert (Hx0' : exists sp, x0 = set_spec sp x).
  { revert Hx0. unfold hibernated.
    destruct (w_kind x); cbn [In]; intros H; try contradiction;
      destruct H as [<-|[]]; eauto. }
  destruct Hx0' as (sp & ->).
  set (W := set_clock later (world_of scaled)).
  assert (HnoneW : filter (selected (w_namespace x) (w_kind x) (w_name (set_spec sp x)))
                          (config_maps W) = [])
    by (unfold W; cbn [config_maps set_clock w_name set_spec]; now rewrite Hscm).
  destruct (find_latest_backup_state_none _ _ _ W HnoneW) as (lvl & msg' & Hlatest).
  assert (HfW : faults W (ListConfigMaps (w_namespace x) (w_kind x) (w_name (set_spec sp x)))
                = None)
    by (unfold W; cbn [faults set_clock]; now rewrite Hsf, Hrefused).
  rewrite HfW in Hlatest.
  rewrite process_item_table.
  destruct (process_single_resource_up MAX (w_namespace x) (set_spec sp x) (w_kind x) later
              (fst (resource_processors (w_kind x))) (snd (resource_processors (w_kind x)))
              Henabled Hnot_down Hup) as (msg2 & err2 & ->).
  rewrite bind_log.
  rewrite (try_exception_ok _ _ W W tt
             [Called (ListConfigMaps (w_namespace x) (w_kind x) (w_name (set_spec sp x))) None;
              Logged lvl msg';
              Logged WARNING ("No backup state found for " ++ kind_str (w_kind x) ++ " "
                              ++ w_name (set_spec sp x) ++ ". Cannot scale up.")]).
  - unfold result_of, world_of, events_of. cbn -[append].
    repeat split.
  - now rewrite (bind_ok _ _ _ _ _ _ Hlatest).
Qed.

Lemma refused_backup_loses_state_witness :
  let now := mkdt 2026 12 11 18 0 7 0 in
  let later := mkdt 2026 12 12 8 0 3 0 in
  let refusing := mkWorld [web] [] now
                    (fun c => match c with CreateConfigMap _ _ => Some 403 | _ => None end) in
  let down_tick := process_item 5 "prod" web Deployment now refusing in
  let asleep := world_of down_tick in
  let up_tick := process_item 5 "prod" (set_spec (ReplicaSpec (Some 0)) web) Deployment later
                   (set_clock later asleep) in
  calls (events_of down_tick) =
    [(ReadWorkload Deployment "web" "prod", None);
     (CreateConfigMap "prod"
        (backup_body "prod" Deployment "web" [("replicas", VInt 4)] now), Some 403);
     (PatchReplicas Deployment "web" "prod" (VInt 0), None)] /\
  config_maps asleep = [] /\
  map w_spec (workloads asleep) = [ReplicaSpec (Some 0)] /\
  world_of up_tick = set_clock later asleep /\
  calls (events_of up_tick) = [(ListConfigMaps "prod" Deployment "web", None)].
Proof.
  intros now later refusing down_tick asleep up_tick.
  destruct (refused_backup_loses_state 5 web refusing later 403)
    as (state & Hstate & _ & Hcalls & Hcm & _ & Hup).
  - intros c. reflexivity.
  - reflexivity.
  - reflexivity.
  - reflexivity.
  - reflexivity.
  - reflexivity.
  - reflexivity.
  - injection Hstate as <-.
    destruct (Hup (set_spec (ReplicaSpec (Some 0)) web) (or_introl eq_refl))
      as (_ & Hworld & Hlist & _).
    split; [exact Hcalls|].
    split; [exact Hcm|].
    split; [reflexivity|].
    split; [exact Hworld|exact Hlist].
Defined.
